(** * Provider-aware configuration resolution: a shallow embedding

    The installer part of the repository resolves a model identifier for
    every agent role and task category ([utils.ts], the model-fallback
    module) and writes the result into configuration files
    ([config-manager.ts]).  This development embeds those functions and
    states the properties of the specification over them.

    Conventions of the embedding:
    - a JavaScript string is a [string] holding the UTF-8 bytes of the text;
    - a JavaScript object used as a record of properties is an association
      list in insertion order (the order [Object.keys] enumerates for keys
      that are not array indices), read with [getProp] and written with
      [setProp]; there is no prototype chain, property keys are ordinary
      names (a key [__proto__], whose assignment sets the prototype, is
      outside the embedding);
    - an exception is a value of type [exn]; code that can throw returns
      [exn + A];
    - the file system is explicit state, threaded through every function
      that touches it. *)

From Stdlib Require Import ZArith String Ascii List Bool Lia DecimalString.
From stdpp Require Import base list strings option gmap.

Local Open Scope string_scope.
Local Open Scope list_scope.

(** ** Property lists: JavaScript objects in insertion order *)

Section Props.
Context {V : Type}.

(** [o[k]], [None] when the object has no own property [k]. *)
Fixpoint getProp (k : string) (o : list (string * V)) : option V :=
  match o with
  | [] => None
  | (k', v) :: rest => if String.eqb k k' then Some v else getProp k rest
  end.

(** [o[k] = v]: an existing property keeps its place, a new one goes last. *)
Fixpoint setProp (k : string) (v : V) (o : list (string * V)) : list (string * V) :=
  match o with
  | [] => [(k, v)]
  | (k', v') :: rest =>
      if String.eqb k k' then (k, v) :: rest else (k', v') :: setProp k v rest
  end.

(** [Object.keys(o)] *)
Definition keys (o : list (string * V)) : list string := map fst o.

(** [Object.fromEntries(entries)] *)
Definition fromEntries (entries : list (string * V)) : list (string * V) :=
  fold_left (fun o kv => setProp (fst kv) (snd kv) o) entries [].
End Props.

(** ** Model resolution ([utils.ts], lines 241-486) *)

Module ModelFallback.

Inductive NativeProvider := Claude | OpenAI | Gemini.

Inductive ModelCapability :=
| UnspecifiedHigh | UnspecifiedLow | Quick | Ultrabrain
| VisualEngineering | Artistry | Writing | Glm.

Definition ModelCapability_eqb (a b : ModelCapability) : bool :=
  match a, b with
  | UnspecifiedHigh, UnspecifiedHigh | UnspecifiedLow, UnspecifiedLow
  | Quick, Quick | Ultrabrain, Ultrabrain
  | VisualEngineering, VisualEngineering | Artistry, Artistry
  | Writing, Writing | Glm, Glm => true
  | _, _ => false
  end.

(** [InstallConfig] (declared in [./types]); the fields the resolution reads. *)
Record InstallConfig := {
  hasClaude : bool;
  isMax20 : bool;
  hasOpenAI : bool;
  hasGemini : bool;
  hasCopilot : bool;
  hasOpencodeZen : bool;
  hasZaiCodingPlan : bool
}.

Record NativeAvailability := {
  claude : bool;
  openai : bool;
  gemini : bool
}.

Record ProviderAvailability := {
  native : NativeAvailability;
  opencodeZen : bool;
  copilot : bool;
  zai : bool;
  isMaxPlan : bool
}.

(** [avail.native[provider]] *)
Definition nativeFlag (n : NativeAvailability) (p : NativeProvider) : bool :=
  match p with
  | Claude => claude n
  | OpenAI => openai n
  | Gemini => gemini n
  end.

Record AgentConfig := {
  model : string;
  variant : option string
}.

Record GeneratedOmoConfig := {
  schema : string;
  agents : list (string * AgentConfig);
  categories : list (string * AgentConfig)
}.

Record NativeFallbackEntry := {
  provider : NativeProvider;
  entryModel : string
}.

Definition NATIVE_FALLBACK_CHAINS (c : ModelCapability) : list NativeFallbackEntry :=
  match c with
  | UnspecifiedHigh =>
      [ {| provider := Claude; entryModel := "anthropic/claude-opus-4-5" |};
        {| provider := OpenAI; entryModel := "openai/gpt-5.2" |};
        {| provider := Gemini; entryModel := "google/gemini-3-pro-preview" |} ]
  | UnspecifiedLow =>
      [ {| provider := Claude; entryModel := "anthropic/claude-sonnet-4-5" |};
        {| provider := OpenAI; entryModel := "openai/gpt-5.2" |};
        {| provider := Gemini; entryModel := "google/gemini-3-flash-preview" |} ]
  | Quick =>
      [ {| provider := Claude; entryModel := "anthropic/claude-haiku-4-5" |};
        {| provider := OpenAI; entryModel := "openai/gpt-5.1-codex-mini" |};
        {| provider := Gemini; entryModel := "google/gemini-3-flash-preview" |} ]
  | Ultrabrain =>
      [ {| provider := OpenAI; entryModel := "openai/gpt-5.2-codex" |};
        {| provider := Claude; entryModel := "anthropic/claude-opus-4-5" |};
        {| provider := Gemini; entryModel := "google/gemini-3-pro-preview" |} ]
  | VisualEngineering =>
      [ {| provider := Gemini; entryModel := "google/gemini-3-pro-preview" |};
        {| provider := OpenAI; entryModel := "openai/gpt-5.2" |};
        {| provider := Claude; entryModel := "anthropic/claude-sonnet-4-5" |} ]
  | Artistry =>
      [ {| provider := Gemini; entryModel := "google/gemini-3-pro-preview" |};
        {| provider := OpenAI; entryModel := "openai/gpt-5.2" |};
        {| provider := Claude; entryModel := "anthropic/claude-opus-4-5" |} ]
  | Writing =>
      [ {| provider := Gemini; entryModel := "google/gemini-3-flash-preview" |};
        {| provider := OpenAI; entryModel := "openai/gpt-5.2" |};
        {| provider := Claude; entryModel := "anthropic/claude-sonnet-4-5" |} ]
  | Glm => []
  end.

Definition OPENCODE_ZEN_MODELS (c : ModelCapability) : string :=
  match c with
  | UnspecifiedHigh => "opencode/claude-opus-4-5"
  | UnspecifiedLow => "opencode/claude-sonnet-4-5"
  | Quick => "opencode/claude-haiku-4-5"
  | Ultrabrain => "opencode/gpt-5.2-codex"
  | VisualEngineering => "opencode/gemini-3-pro"
  | Artistry => "opencode/gemini-3-pro"
  | Writing => "opencode/gemini-3-flash"
  | Glm => "opencode/glm-4.7-free"
  end.

Definition GITHUB_COPILOT_MODELS (c : ModelCapability) : string :=
  match c with
  | UnspecifiedHigh => "github-copilot/claude-opus-4.5"
  | UnspecifiedLow => "github-copilot/claude-sonnet-4.5"
  | Quick => "github-copilot/claude-haiku-4.5"
  | Ultrabrain => "github-copilot/gpt-5.2-codex"
  | VisualEngineering => "github-copilot/gemini-3-pro-preview"
  | Artistry => "github-copilot/gemini-3-pro-preview"
  | Writing => "github-copilot/gemini-3-flash-preview"
  | Glm => "github-copilot/gpt-5.2"
  end.

Definition ZAI_MODEL : string := "zai-coding-plan/glm-4.7".

Record AgentRequirement := {
  capability : ModelCapability;
  reqVariant : option string
}.

Definition AGENT_REQUIREMENTS : list (string * AgentRequirement) :=
  [ ("Sisyphus", {| capability := UnspecifiedHigh; reqVariant := None |});
    ("oracle", {| capability := Ultrabrain; reqVariant := Some "high" |});
    ("librarian", {| capability := Glm; reqVariant := None |});
    ("explore", {| capability := Quick; reqVariant := None |});
    ("multimodal-looker", {| capability := VisualEngineering; reqVariant := None |});
    ("Prometheus (Planner)", {| capability := UnspecifiedHigh; reqVariant := None |});
    ("Metis (Plan Consultant)", {| capability := UnspecifiedHigh; reqVariant := None |});
    ("Momus (Plan Reviewer)", {| capability := Ultrabrain; reqVariant := Some "medium" |});
    ("Atlas", {| capability := UnspecifiedHigh; reqVariant := None |}) ].

Definition CATEGORY_REQUIREMENTS : list (string * AgentRequirement) :=
  [ ("visual-engineering", {| capability := VisualEngineering; reqVariant := None |});
    ("ultrabrain", {| capability := Ultrabrain; reqVariant := None |});
    ("artistry", {| capability := Artistry; reqVariant := Some "max" |});
    ("quick", {| capability := Quick; reqVariant := None |});
    ("unspecified-low", {| capability := UnspecifiedLow; reqVariant := None |});
    ("unspecified-high", {| capability := UnspecifiedHigh; reqVariant := None |});
    ("writing", {| capability := Writing; reqVariant := None |}) ].

Definition ULTIMATE_FALLBACK : string := "opencode/glm-4.7-free".

Definition SCHEMA_URL : string :=
  "https://raw.githubusercontent.com/code-yeongyu/oh-my-opencode/master/assets/oh-my-opencode.schema.json".

Definition toProviderAvailability (config : InstallConfig) : ProviderAvailability :=
  {| native := {| claude := hasClaude config;
                  openai := hasOpenAI config;
                  gemini := hasGemini config |};
     opencodeZen := hasOpencodeZen config;
     copilot := hasCopilot config;
     zai := hasZaiCodingPlan config;
     isMaxPlan := isMax20 config |}.

(** The [for (const entry of nativeChain)] loop of [resolveModel]:
    [Some] is the [return] inside the loop, [None] falls out of it. *)
Fixpoint walkNativeChain (avail : ProviderAvailability)
    (nativeChain : list NativeFallbackEntry) : option string :=
  match nativeChain with
  | [] => None
  | entry :: rest =>
      if nativeFlag (native avail) (provider entry)
      then Some (entryModel entry)
      else walkNativeChain avail rest
  end.

Definition resolveModel (capability : ModelCapability) (avail : ProviderAvailability)
    : string :=
  match walkNativeChain avail (NATIVE_FALLBACK_CHAINS capability) with
  | Some m => m
  | None =>
      if opencodeZen avail then OPENCODE_ZEN_MODELS capability
      else if copilot avail then GITHUB_COPILOT_MODELS capability
      else if zai avail then ZAI_MODEL
      else ULTIMATE_FALLBACK
  end.

Definition resolveClaudeCapability (avail : ProviderAvailability) : ModelCapability :=
  if isMaxPlan avail then UnspecifiedHigh else UnspecifiedLow.

(** [req.variant ? { model, variant: req.variant } : { model }]: an empty
    string is falsy, so an empty variant is dropped like an absent one. *)
Definition withVariant (m : string) (v : option string) : AgentConfig :=
  match v with
  | Some s => if String.eqb s EmptyString then {| model := m; variant := None |}
              else {| model := m; variant := Some s |}
  | None => {| model := m; variant := None |}
  end.

(** The capability a requirement is resolved with. *)
Definition effectiveCapability (claudeCapability : ModelCapability)
    (req : AgentRequirement) : ModelCapability :=
  if ModelCapability_eqb (capability req) UnspecifiedHigh
  then claudeCapability else capability req.

(** Body of the loop over [Object.entries(AGENT_REQUIREMENTS)]. *)
Definition agentStep (avail : ProviderAvailability) (claudeCapability : ModelCapability)
    (agents : list (string * AgentConfig)) (e : string * AgentRequirement)
    : list (string * AgentConfig) :=
  let '(role, req) := e in
  if String.eqb role "librarian" && zai avail then
    setProp role {| model := ZAI_MODEL; variant := None |} agents
  else if String.eqb role "explore" then
    if claude (native avail) && isMaxPlan avail then
      setProp role {| model := "anthropic/claude-haiku-4-5"; variant := None |} agents
    else
      setProp role {| model := "opencode/grok-code"; variant := None |} agents
  else
    let capability := effectiveCapability claudeCapability req in
    let model := resolveModel capability avail in
    setProp role (withVariant model (reqVariant req)) agents.

(** Body of the loop over [Object.entries(CATEGORY_REQUIREMENTS)]. *)
Definition categoryStep (avail : ProviderAvailability) (claudeCapability : ModelCapability)
    (categories : list (string * AgentConfig)) (e : string * AgentRequirement)
    : list (string * AgentConfig) :=
  let '(cat, req) := e in
  let capability := effectiveCapability claudeCapability req in
  let model := resolveModel capability avail in
  setProp cat (withVariant model (reqVariant req)) categories.

Definition generateModelConfig (config : InstallConfig) : GeneratedOmoConfig :=
  let avail := toProviderAvailability config in
  let hasAnyProvider :=
    claude (native avail) || openai (native avail) || gemini (native avail)
    || opencodeZen avail || copilot avail || zai avail in
  if negb hasAnyProvider then
    {| schema := SCHEMA_URL;
       agents := fromEntries
         (map (fun role => (role, {| model := ULTIMATE_FALLBACK; variant := None |}))
              (keys AGENT_REQUIREMENTS));
       categories := fromEntries
         (map (fun cat => (cat, {| model := ULTIMATE_FALLBACK; variant := None |}))
              (keys CATEGORY_REQUIREMENTS)) |}
  else
    let claudeCapability := resolveClaudeCapability avail in
    {| schema := SCHEMA_URL;
       agents := fold_left (agentStep avail claudeCapability) AGENT_REQUIREMENTS [];
       categories := fold_left (categoryStep avail claudeCapability) CATEGORY_REQUIREMENTS [] |}.

(** The model a generated document assigns to a role, and to a category. *)
Definition agentModel (config : InstallConfig) (role : string) : option string :=
  option_map model (getProp role (agents (generateModelConfig config))).

Definition categoryModel (config : InstallConfig) (cat : string) : option string :=
  option_map model (getProp cat (categories (generateModelConfig config))).

(** The availability records, enumerated by their seven flags, in the order
    claude, openai, gemini, opencodeZen, copilot, zai, isMaxPlan. *)
Definition availability (c o g z p i m : bool) : ProviderAvailability :=
  {| native := {| claude := c; openai := o; gemini := g |};
     opencodeZen := z; copilot := p; zai := i; isMaxPlan := m |}.

(** The install configurations, by their flags in the order hasClaude,
    isMax20, hasOpenAI, hasGemini, hasCopilot, hasOpencodeZen,
    hasZaiCodingPlan. *)
Definition installConfig (c m o g p z i : bool) : InstallConfig :=
  {| hasClaude := c; isMax20 := m; hasOpenAI := o; hasGemini := g;
     hasCopilot := p; hasOpencodeZen := z; hasZaiCodingPlan := i |}.

(** The three flags of pooled access an availability record has. *)
Inductive PooledFlag := ZenFlag | CopilotFlag | ZaiFlag.

Definition pooled (a : ProviderAvailability) (f : PooledFlag) : bool :=
  match f with
  | ZenFlag => opencodeZen a
  | CopilotFlag => copilot a
  | ZaiFlag => zai a
  end.

(** The order of resolution in the words of the specification: the native
    chain; then a single pooled-access flag, which gives the capability's
    pool model; then a secondary pooled-access flag, which gives a fixed
    model; then the ultimate fallback.  The specification does not name
    the two flags and their models: they are parameters. *)
Definition resolveModel_as_specified (pool secondary : PooledFlag)
    (poolModel : ModelCapability -> string) (secondaryModel : string)
    (c : ModelCapability) (a : ProviderAvailability) : string :=
  match List.find (fun e => nativeFlag (native a) (provider e))
                  (NATIVE_FALLBACK_CHAINS c) with
  | Some e => entryModel e
  | None =>
      if pooled a pool then poolModel c
      else if pooled a secondary then secondaryModel
      else ULTIMATE_FALLBACK
  end.

End ModelFallback.

(** ** JavaScript values, text and the file system *)

Module JS.

(** The values a parsed configuration or a generated document is made of.
    [VUndefined] is the JavaScript [undefined]; JSON text never produces it,
    but TypeScript's optional properties and [Partial<T>] do.  Numbers are
    kept integral: no modelled function computes with one. *)
#[warnings="-register-all"]
Inductive value :=
| VUndefined
| VNull
| VBool (b : bool)
| VNumber (n : Z)
| VString (s : string)
| VArray (items : list value)
| VObject (props : list (string * value)).

(** What the modelled code can throw. [NodeError] is an [Error] carrying a
    [code] property, as [node:fs] raises. *)
Inductive exn :=
| SyntaxError (message : string)
| TypeError (message : string)
| NodeError (code : string) (message : string).

(** Induction on values that reaches the values inside arrays and objects. *)
Section ValueInduction.
Variable P : value -> Prop.
Hypothesis Hundefined : P VUndefined.
Hypothesis Hnull : P VNull.
Hypothesis Hbool : forall b, P (VBool b).
Hypothesis Hnumber : forall n, P (VNumber n).
Hypothesis Hstring : forall s, P (VString s).
Hypothesis Harray : forall items, Forall P items -> P (VArray items).
Hypothesis Hobject : forall props, Forall (fun kv => P (snd kv)) props -> P (VObject props).

Fixpoint value_nested_ind (v : value) : P v :=
  match v with
  | VUndefined => Hundefined
  | VNull => Hnull
  | VBool b => Hbool b
  | VNumber n => Hnumber n
  | VString s => Hstring s
  | VArray items =>
      Harray items
        ((fix all (l : list value) : Forall P l :=
            match l with
            | [] => List.Forall_nil P
            | x :: rest => @List.Forall_cons _ P x rest (value_nested_ind x) (all rest)
            end) items)
  | VObject props =>
      Hobject props
        ((fix all (l : list (string * value)) : Forall (fun kv => P (snd kv)) l :=
            match l with
            | [] => List.Forall_nil _
            | kv :: rest =>
                @List.Forall_cons _ (fun kv => P (snd kv)) kv rest
                  (value_nested_ind (snd kv)) (all rest)
            end) props)
  end.
End ValueInduction.

Definition errMessage (err : exn) : string :=
  match err with
  | SyntaxError m | TypeError m | NodeError _ m => m
  end.

(** *** Text *)

Definition byte (n : nat) : ascii := ascii_of_nat n.

Definition isByte (n : nat) (c : ascii) : bool := Nat.eqb (nat_of_ascii c) n.

(** Number of bytes of the white-space or line-terminator code point the
    text starts with, [0] when it starts with none.  These are the code
    points [String.prototype.trim] strips and [\s] matches: TAB, LF, VT, FF,
    CR, SP, U+00A0, U+1680, U+2000..U+200A, U+2028, U+2029, U+202F, U+205F,
    U+3000 and U+FEFF, here in their UTF-8 encoding. *)
Definition wsLen (s : string) : nat :=
  match s with
  | EmptyString => 0
  | String c rest =>
      let n := nat_of_ascii c in
      if (Nat.leb 9 n && Nat.leb n 13) || Nat.eqb n 32 then 1
      else match rest with
           | String c2 rest2 =>
               let n2 := nat_of_ascii c2 in
               if Nat.eqb n 194 then (if Nat.eqb n2 160 then 2 else 0)
               else match rest2 with
                    | String c3 _ =>
                        let n3 := nat_of_ascii c3 in
                        if Nat.eqb n 225 then
                          (if Nat.eqb n2 154 && Nat.eqb n3 128 then 3 else 0)
                        else if Nat.eqb n 226 then
                          if Nat.eqb n2 128 then
                            (if (Nat.leb 128 n3 && Nat.leb n3 138)
                                || Nat.eqb n3 168 || Nat.eqb n3 169 || Nat.eqb n3 175
                             then 3 else 0)
                          else if Nat.eqb n2 129 then (if Nat.eqb n3 159 then 3 else 0)
                          else 0
                        else if Nat.eqb n 227 then
                          (if Nat.eqb n2 128 && Nat.eqb n3 128 then 3 else 0)
                        else if Nat.eqb n 239 then
                          (if Nat.eqb n2 187 && Nat.eqb n3 191 then 3 else 0)
                        else 0
                    | EmptyString => 0
                    end
           | EmptyString => 0
           end
  end.

Fixpoint dropBytes (n : nat) (s : string) : string :=
  match n, s with
  | S n', String _ rest => dropBytes n' rest
  | _, _ => s
  end.

Fixpoint takeBytes (n : nat) (s : string) : string :=
  match n, s with
  | S n', String c rest => String c (takeBytes n' rest)
  | _, _ => EmptyString
  end.

(** Splits off the longest white-space prefix: the greedy [\s*]. *)
Fixpoint spanWsFuel (fuel : nat) (s : string) : string * string :=
  match fuel with
  | 0 => (EmptyString, s)
  | S fuel' =>
      match wsLen s with
      | 0 => (EmptyString, s)
      | n => let '(w, rest) := spanWsFuel fuel' (dropBytes n s) in
             (takeBytes n s +:+ w, rest)
      end
  end.

Definition spanWs (s : string) : string * string := spanWsFuel (String.length s) s.

Definition trimStart (s : string) : string := snd (spanWs s).

Fixpoint trimEnd (s : string) : string :=
  match s with
  | EmptyString => EmptyString
  | String c rest =>
      if String.eqb (trimStart s) EmptyString then EmptyString
      else String c (trimEnd rest)
  end.

(** [s.trim()] *)
Definition trim (s : string) : string := trimEnd (trimStart s).

(** Whether the byte [n] occurs in the text. *)
Fixpoint hasByte (n : nat) (s : string) : bool :=
  match s with
  | EmptyString => false
  | String c rest => isByte n c || hasByte n rest
  end.

(** [s.startsWith(p)] *)
Definition startsWith (s p : string) : bool := String.prefix p s.

(** [s.includes(sub)] *)
Fixpoint includes (s sub : string) : bool :=
  String.prefix sub s ||
  match s with
  | EmptyString => false
  | String _ rest => includes rest sub
  end.

(** [parts.join(sep)] *)
Fixpoint join (sep : string) (parts : list string) : string :=
  match parts with
  | [] => EmptyString
  | [p] => p
  | p :: rest => p +:+ sep +:+ join sep rest
  end.

(** Decimal text of an integral number ([Number.prototype.toString]), as
    JavaScript prints the integers of magnitude below 10^21: with all their
    digits. *)
Definition numberToString (n : Z) : string :=
  DecimalString.NilZero.string_of_int (Z.to_int n).

(** [String(v)], the conversion a template literal applies. *)
Fixpoint toStr (v : value) : string :=
  match v with
  | VUndefined => "undefined"
  | VNull => "null"
  | VBool true => "true"
  | VBool false => "false"
  | VNumber n => numberToString n
  | VString s => s
  | VArray items =>
      join "," (map (fun x => match x with
                              | VUndefined | VNull => EmptyString
                              | _ => toStr x
                              end) items)
  | VObject _ => "[object Object]"
  end.

(** *** Regular expressions and replacement templates *)

Definition dquote : string := String (byte 34) EmptyString.
Definition newline : string := String (byte 10) EmptyString.

Fixpoint stripPrefix (p s : string) : option string :=
  match p, s with
  | EmptyString, _ => Some s
  | String a p', String b s' => if Ascii.eqb a b then stripPrefix p' s' else None
  | String _ _, EmptyString => None
  end.

(** What a successful [RegExp] match with one capture group yields. *)
Record RegExpMatch := {
  before : string;
  matched : string;
  group1 : string;
  after : string
}.

(** The lazy [([\s\S]*?)\]]: the shortest text up to a closing bracket. *)
Fixpoint upToBracket (s : string) : option (string * string) :=
  match s with
  | EmptyString => None
  | String c rest =>
      if isByte 93 c then Some (EmptyString, rest)
      else match upToBracket rest with
           | Some (body, r) => Some (String c body, r)
           | None => None
           end
  end.

(** [/"plugin"\s*:\s*\[([\s\S]*?)\]/] tried at the start of [s]. *)
Definition pluginArrayHere (s : string) : option RegExpMatch :=
  match stripPrefix (dquote +:+ "plugin" +:+ dquote) s with
  | None => None
  | Some s1 =>
      let '(w1, s2) := spanWs s1 in
      match s2 with
      | String c2 s3 =>
          if isByte 58 c2 then
            let '(w2, s4) := spanWs s3 in
            match s4 with
            | String c4 s5 =>
                if isByte 91 c4 then
                  match upToBracket s5 with
                  | Some (body, rest) =>
                      Some {| before := EmptyString;
                              matched := dquote +:+ "plugin" +:+ dquote +:+ w1 +:+ ":"
                                         +:+ w2 +:+ "[" +:+ body +:+ "]";
                              group1 := body;
                              after := rest |}
                  | None => None
                  end
                else None
            | EmptyString => None
            end
          else None
      | EmptyString => None
      end
  end.

(** [content.match(pluginArrayRegex)]: the leftmost match. *)
Fixpoint pluginArrayRegex (content : string) : option RegExpMatch :=
  match pluginArrayHere content with
  | Some m => Some m
  | None =>
      match content with
      | EmptyString => None
      | String c rest =>
          match pluginArrayRegex rest with
          | Some m => Some {| before := String c (before m); matched := matched m;
                              group1 := group1 m; after := after m |}
          | None => None
          end
      end
  end.

(** [/^(\s*\{)/]: an opening brace after white space only, at the very
    start of the text (the expression has no [m] flag). *)
Definition openingBraceRegex (content : string) : option RegExpMatch :=
  let '(w, rest) := spanWs content in
  match rest with
  | String c rest' =>
      if isByte 123 c then
        Some {| before := EmptyString; matched := w +:+ "{";
                group1 := w +:+ "{"; after := rest' |}
      else None
  | EmptyString => None
  end.

(** ECMAScript's GetSubstitution for a pattern with one capture group:
    [$$], [$&], [$`], [$'], [$1] and [$01] are expanded, any other [$]
    stays as it is. *)
Fixpoint getSubstitution (m : RegExpMatch) (template : string) : string :=
  match template with
  | EmptyString => EmptyString
  | String c rest =>
      if isByte 36 c then
        match rest with
        | String d rest' =>
            if isByte 36 d then "$" +:+ getSubstitution m rest'
            else if isByte 38 d then matched m +:+ getSubstitution m rest'
            else if isByte 96 d then before m +:+ getSubstitution m rest'
            else if isByte 39 d then after m +:+ getSubstitution m rest'
            else if isByte 49 d then group1 m +:+ getSubstitution m rest'
            else if isByte 48 d then
              match rest' with
              | String e rest'' =>
                  if isByte 49 e then group1 m +:+ getSubstitution m rest''
                  else "$" +:+ getSubstitution m rest
              | EmptyString => "$" +:+ getSubstitution m rest
              end
            else "$" +:+ getSubstitution m rest
        | EmptyString => "$"
        end
      else String c (getSubstitution m rest)
  end.

(** [content.replace(regex, template)] for a non-global [regex]. *)
Definition replace (regex : string -> option RegExpMatch) (content template : string)
    : string :=
  match regex content with
  | Some m => before m +:+ getSubstitution m template +:+ after m
  | None => content
  end.

(** *** [JSON.stringify(value, null, 2)] *)

Definition hexDigit (n : nat) : string :=
  match n with
  | 0 => "0" | 1 => "1" | 2 => "2" | 3 => "3" | 4 => "4" | 5 => "5" | 6 => "6"
  | 7 => "7" | 8 => "8" | 9 => "9" | 10 => "a" | 11 => "b" | 12 => "c"
  | 13 => "d" | 14 => "e" | _ => "f"
  end.

Definition backslash : string := String (byte 92) EmptyString.

Definition quoteChar (c : ascii) : string :=
  let n := nat_of_ascii c in
  if Nat.eqb n 8 then backslash +:+ "b"
  else if Nat.eqb n 9 then backslash +:+ "t"
  else if Nat.eqb n 10 then backslash +:+ "n"
  else if Nat.eqb n 12 then backslash +:+ "f"
  else if Nat.eqb n 13 then backslash +:+ "r"
  else if Nat.eqb n 34 then backslash +:+ dquote
  else if Nat.eqb n 92 then backslash +:+ backslash
  else if Nat.ltb n 32 then
    backslash +:+ "u00" +:+ hexDigit (Nat.div n 16) +:+ hexDigit (Nat.modulo n 16)
  else String c EmptyString.

Fixpoint quoteChars (s : string) : string :=
  match s with
  | EmptyString => EmptyString
  | String c rest => quoteChar c +:+ quoteChars rest
  end.

Definition quoteJSONString (s : string) : string := dquote +:+ quoteChars s +:+ dquote.

Definition gap : string := "  ".

(** SerializeJSONProperty; [None] is the [undefined] result. *)
Fixpoint serializeJSON (indent : string) (v : value) : option string :=
  match v with
  | VUndefined => None
  | VNull => Some "null"
  | VBool true => Some "true"
  | VBool false => Some "false"
  | VNumber n => Some (numberToString n)
  | VString s => Some (quoteJSONString s)
  | VArray items =>
      let stepback := indent in
      let indent := indent +:+ gap in
      match items with
      | [] => Some "[]"
      | _ =>
          let partial :=
            map (fun x => match serializeJSON indent x with
                          | Some t => t
                          | None => "null"
                          end) items in
          Some ("[" +:+ newline +:+ indent
                +:+ join ("," +:+ newline +:+ indent) partial
                +:+ newline +:+ stepback +:+ "]")
      end
  | VObject props =>
      let stepback := indent in
      let indent := indent +:+ gap in
      let partial :=
        (fix members (ps : list (string * value)) : list string :=
           match ps with
           | [] => []
           | (k, x) :: rest =>
               match serializeJSON indent x with
               | Some t => (quoteJSONString k +:+ ": " +:+ t) :: members rest
               | None => members rest
               end
           end) props in
      match partial with
      | [] => Some "{}"
      | _ => Some ("{" +:+ newline +:+ indent
                   +:+ join ("," +:+ newline +:+ indent) partial
                   +:+ newline +:+ stepback +:+ "}")
      end
  end.

Definition JSON_stringify (v : value) : option string := serializeJSON EmptyString v.

(** [JSON.stringify(v, null, 2) + "\n"]; concatenation turns an [undefined]
    result into the text [undefined]. *)
Definition stringifyLine (v : value) : string :=
  match JSON_stringify v with
  | Some t => t +:+ newline
  | None => "undefined" +:+ newline
  end.

End JS.

(** ** The file system as state *)

Module FS.
Import JS.

(** Regular files with their content, the directories, and the paths the
    system refuses to create or modify. *)
Record FileSystem := {
  files : gmap string string;
  directories : gset string;
  readOnly : gset string
}.

Definition existsSync (fs : FileSystem) (path : string) : bool :=
  match files fs !! path with
  | Some _ => true
  | None => bool_decide (path ∈ directories fs)
  end.

Definition nodeError (code what syscall path : string) : exn :=
  NodeError code (code +:+ ": " +:+ what +:+ ", " +:+ syscall +:+ " '" +:+ path +:+ "'").

(** [mkdirSync(path, { recursive: true })] *)
Definition mkdirSync (fs : FileSystem) (path : string) : exn + FileSystem :=
  if bool_decide (path ∈ readOnly fs) then
    inl (nodeError "EACCES" "permission denied" "mkdir" path)
  else match files fs !! path with
       | Some _ => inl (nodeError "EEXIST" "file already exists" "mkdir" path)
       | None => inr {| files := files fs;
                        directories := {[ path ]} ∪ directories fs;
                        readOnly := readOnly fs |}
       end.

(** [statSync(path).size]; what a directory reports as its size is of no
    consequence, reading one fails. *)
Definition statSync (fs : FileSystem) (path : string) : exn + nat :=
  match files fs !! path with
  | Some content => inr (String.length content)
  | None =>
      if bool_decide (path ∈ directories fs) then inr 4096
      else inl (nodeError "ENOENT" "no such file or directory" "stat" path)
  end.

(** [readFileSync(path, "utf-8")]; the files hold valid UTF-8, which the
    decoding returns as it is. *)
Definition readFileSync (fs : FileSystem) (path : string) : exn + string :=
  match files fs !! path with
  | Some content => inr content
  | None =>
      if bool_decide (path ∈ directories fs) then
        inl (nodeError "EISDIR" "illegal operation on a directory" "read" path)
      else inl (nodeError "ENOENT" "no such file or directory" "open" path)
  end.

Definition writeFileSync (fs : FileSystem) (path data : string) : exn + FileSystem :=
  if bool_decide (path ∈ readOnly fs) then
    inl (nodeError "EACCES" "permission denied" "open" path)
  else if bool_decide (path ∈ directories fs) then
    inl (nodeError "EISDIR" "illegal operation on a directory" "open" path)
  else inr {| files := <[ path := data ]> (files fs);
              directories := directories fs;
              readOnly := readOnly fs |}.

End FS.

(** ** The configuration manager ([config-manager.ts]) *)

Module ConfigManager.
Import JS FS.

(** The JSONC parser of the [../shared] module, which is not among the
    sources: an interface.  It returns the parsed value or throws. *)
Class Shared := { parseJsonc : string -> exn + value }.

(** [OpenCodeConfigPaths], the paths of the configuration context. *)
Record OpenCodeConfigPaths := {
  configDir : string;
  configJson : string;
  configJsonc : string;
  packageJson : string;
  omoConfig : string
}.

Record ConfigMergeResult := {
  success : bool;
  configPath : string;
  error : option string
}.

Definition succeeded (path : string) : ConfigMergeResult :=
  {| success := true; configPath := path; error := None |}.

Definition failed (path message : string) : ConfigMergeResult :=
  {| success := false; configPath := path; error := Some message |}.

Definition isPermissionError (err : exn) : bool :=
  match err with
  | NodeError code _ => String.eqb code "EACCES" || String.eqb code "EPERM"
  | _ => false
  end.

Definition isFileNotFoundError (err : exn) : bool :=
  match err with
  | NodeError code _ => String.eqb code "ENOENT"
  | _ => false
  end.

Definition formatErrorWithSuggestion (err : exn) (context : string) : string :=
  if isPermissionError err then
    "Permission denied: Cannot " +:+ context
    +:+ ". Try running with elevated permissions or check file ownership."
  else if isFileNotFoundError err then
    "File not found while trying to " +:+ context
    +:+ ". The file may have been deleted or moved."
  else
    match err with
    | SyntaxError message =>
        "JSON syntax error while trying to " +:+ context +:+ ": " +:+ message
        +:+ ". Check for missing commas, brackets, or invalid characters."
    | _ =>
        let message := errMessage err in
        if includes message "ENOSPC" then
          "Disk full: Cannot " +:+ context +:+ ". Free up disk space and try again."
        else if includes message "EROFS" then
          "Read-only filesystem: Cannot " +:+ context
          +:+ ". Check if the filesystem is mounted read-only."
        else "Failed to " +:+ context +:+ ": " +:+ message
    end.

Definition PACKAGE_NAME : string := "oh-my-opencode".

Definition PRIORITIZED_TAGS : list string := ["latest"; "beta"; "next"].

(** [new Set(items)] in iteration order: first occurrences. *)
Fixpoint setOf (seen items : list string) : list string :=
  match items with
  | [] => []
  | x :: rest =>
      if existsb (String.eqb x) seen then setOf seen rest
      else x :: setOf (x :: seen) rest
  end.

(** [getPluginNameWithVersion]; [distTags] is what [fetchNpmDistTags]
    answered, [None] for [null]. *)
Definition getPluginNameWithVersion (distTags : option (list (string * value)))
    (currentVersion : string) : string :=
  let versioned := PACKAGE_NAME +:+ "@" +:+ currentVersion in
  match distTags with
  | Some tags =>
      let allTags := setOf [] (PRIORITIZED_TAGS ++ keys tags) in
      match find (fun tag => match getProp tag tags with
                             | Some (VString v) => String.eqb v currentVersion
                             | _ => false
                             end) allTags with
      | Some tag => PACKAGE_NAME +:+ "@" +:+ tag
      | None => versioned
      end
  | None => versioned
  end.

Inductive ConfigFormat := Json | Jsonc | NoFormat.

Definition detectConfigFormat (paths : OpenCodeConfigPaths) (fs : FileSystem)
    : ConfigFormat * string :=
  if existsSync fs (configJsonc paths) then (Jsonc, configJsonc paths)
  else if existsSync fs (configJson paths) then (Json, configJson paths)
  else (NoFormat, configJson paths).

Record ParseConfigResult := {
  config : option (list (string * value));
  parseError : option string
}.

Definition parseFailure (message : string) : ParseConfigResult :=
  {| config := None; parseError := Some message |}.

Definition isEmptyOrWhitespace (content : string) : bool :=
  Nat.eqb (String.length (trim content)) 0.

Definition parseConfigWithError `{Shared} (fs : FileSystem) (path : string)
    : ParseConfigResult :=
  let caught err :=
    parseFailure (formatErrorWithSuggestion err ("parse config file " +:+ path)) in
  match statSync fs path with
  | inl err => caught err
  | inr size =>
      if Nat.eqb size 0 then
        parseFailure ("Config file is empty: " +:+ path
                      +:+ ". Delete it or add valid JSON content.")
      else
        match readFileSync fs path with
        | inl err => caught err
        | inr content =>
            if isEmptyOrWhitespace content then
              parseFailure ("Config file contains only whitespace: " +:+ path
                            +:+ ". Delete it or add valid JSON content.")
            else
              match parseJsonc content with
              | inl err => caught err
              | inr (VNull | VUndefined) =>
                  parseFailure ("Config file parsed to null/undefined: " +:+ path
                                +:+ ". Ensure it contains valid JSON.")
              | inr (VObject props) => {| config := Some props; parseError := None |}
              | inr (VArray _) =>
                  parseFailure ("Config file must contain a JSON object, not an array: "
                                +:+ path)
              | inr (VBool _) =>
                  parseFailure ("Config file must contain a JSON object, not boolean: "
                                +:+ path)
              | inr (VNumber _) =>
                  parseFailure ("Config file must contain a JSON object, not number: "
                                +:+ path)
              | inr (VString _) =>
                  parseFailure ("Config file must contain a JSON object, not string: "
                                +:+ path)
              end
        end
  end.

Definition ensureConfigDir (paths : OpenCodeConfigPaths) (fs : FileSystem)
    : exn + FileSystem :=
  if existsSync fs (configDir paths) then inr fs
  else mkdirSync fs (configDir paths).

(** The callback of [plugins.findIndex]: an entry that is not a string has
    no [startsWith], calling it is a [TypeError]. *)
Definition isOwnPlugin (p : value) : exn + bool :=
  match p with
  | VString name =>
      inr (String.eqb name PACKAGE_NAME || startsWith name (PACKAGE_NAME +:+ "@"))
  | _ => inl (TypeError "p.startsWith is not a function")
  end.

(** [plugins.findIndex(...)], counted from [i]; [None] is the [-1]. *)
Fixpoint findIndex (plugins : list value) (i : nat) : exn + option nat :=
  match plugins with
  | [] => inr None
  | p :: rest =>
      match isOwnPlugin p with
      | inl err => inl err
      | inr true => inr (Some i)
      | inr false => findIndex rest (S i)
      end
  end.

(** [plugins[i] === pluginEntry] *)
Definition entryIs (plugins : list value) (i : nat) (pluginEntry : string) : bool :=
  match plugins !! i with
  | Some (VString name) => String.eqb name pluginEntry
  | _ => false
  end.

(** The list after the edit: the first entry of the package replaced in
    place, or the new entry appended. *)
Definition editedPlugins (plugins : list value) (found : option nat) (pluginEntry : string)
    : list value :=
  match found with
  | Some existingIndex => <[ existingIndex := VString pluginEntry ]> plugins
  | None => plugins ++ [VString pluginEntry]
  end.

(** The text the commented format gets: the first textual match of the
    plugin array is replaced by the whole list, or, without a match, an
    entry is put behind an opening brace that starts the text. *)
Definition patchJsonc (content : string) (plugins : list value) (pluginEntry : string)
    : string :=
  match pluginArrayRegex content with
  | Some _ =>
      let formattedPlugins :=
        join ("," +:+ newline +:+ "    ")
             (map (fun p => dquote +:+ toStr p +:+ dquote) plugins) in
      replace pluginArrayRegex content
        (dquote +:+ "plugin" +:+ dquote +:+ ": [" +:+ newline +:+ "    "
         +:+ formattedPlugins +:+ newline +:+ "  ]")
  | None =>
      replace openingBraceRegex content
        ("$1" +:+ newline +:+ "  " +:+ dquote +:+ "plugin" +:+ dquote +:+ ": ["
         +:+ dquote +:+ pluginEntry +:+ dquote +:+ "],")
  end.

(** The part of [addPluginToOpenCodeConfig] that follows the edit of the
    list: [config.plugin = plugins] and the write in the detected format. *)
Definition writePlugins (format : ConfigFormat) (path : string)
    (config : list (string * value)) (plugins : list value) (pluginEntry : string)
    (fs : FileSystem) : exn + FileSystem :=
  let config := setProp "plugin" (VArray plugins) config in
  match format with
  | Jsonc =>
      match readFileSync fs path with
      | inl err => inl err
      | inr content => writeFileSync fs path (patchJsonc content plugins pluginEntry)
      end
  | _ => writeFileSync fs path (stringifyLine (VObject config))
  end.

(** [config.plugin ?? []] *)
Definition pluginsOf (config : list (string * value)) : value :=
  match getProp "plugin" config with
  | None | Some VUndefined | Some VNull => VArray []
  | Some v => v
  end.

(** The body of the [try] of [addPluginToOpenCodeConfig]: [inl] is a throw,
    [inr] a [return]. *)
Definition addPluginBody `{Shared} (format : ConfigFormat) (path pluginEntry : string)
    (fs : FileSystem) : exn + (FileSystem * ConfigMergeResult) :=
  match format with
  | NoFormat =>
      let config := [("plugin", VArray [VString pluginEntry])] in
      match writeFileSync fs path (stringifyLine (VObject config)) with
      | inl err => inl err
      | inr fs' => inr (fs', succeeded path)
      end
  | _ =>
      let parseResult := parseConfigWithError fs path in
      match config parseResult with
      | None =>
          inr (fs, failed path (default "Failed to parse config file"
                                        (parseError parseResult)))
      | Some config =>
          match pluginsOf config with
          | VArray plugins =>
              match findIndex plugins 0 with
              | inl err => inl err
              | inr (Some existingIndex) =>
                  if entryIs plugins existingIndex pluginEntry then
                    inr (fs, succeeded path)
                  else
                    match writePlugins format path config
                            (<[ existingIndex := VString pluginEntry ]> plugins)
                            pluginEntry fs with
                    | inl err => inl err
                    | inr fs' => inr (fs', succeeded path)
                    end
              | inr None =>
                  match writePlugins format path config
                          (plugins ++ [VString pluginEntry]) pluginEntry fs with
                  | inl err => inl err
                  | inr fs' => inr (fs', succeeded path)
                  end
              end
          | _ => inl (TypeError "plugins.findIndex is not a function")
          end
      end
  end.

(** [addPluginToOpenCodeConfig(currentVersion)], run on the file system
    [fs]; [distTags] is the answer of the registry to the one network
    request the function makes. *)
Definition addPluginToOpenCodeConfig `{Shared} (paths : OpenCodeConfigPaths)
    (distTags : option (list (string * value))) (currentVersion : string)
    (fs : FileSystem) : FileSystem * ConfigMergeResult :=
  match ensureConfigDir paths fs with
  | inl err =>
      (fs, failed (configDir paths)
                  (formatErrorWithSuggestion err "create config directory"))
  | inr fs =>
      let '(format, path) := detectConfigFormat paths fs in
      let pluginEntry := getPluginNameWithVersion distTags currentVersion in
      match addPluginBody format path pluginEntry fs with
      | inr result => result
      | inl err =>
          (fs, failed path (formatErrorWithSuggestion err "update opencode config"))
      end
  end.

(** The loop of [deepMerge] over the properties of [source]; [result]
    starts as the copy [{ ...target }].  The recursion descends into the
    value [source], hence the argument is a [value]; a source that is not
    an object has no properties to visit.  The assignment [result[key] = v]
    is [setProp]: this is what the code does for every key of the source
    that is neither [__proto__] nor an array index ([Store.ordinaryKey]). *)
Fixpoint mergeInto (result : list (string * value)) (source : value) {struct source}
    : list (string * value) :=
  match source with
  | VObject entries =>
      (fix loop (entries result : list (string * value)) {struct entries}
         : list (string * value) :=
         match entries with
         | [] => result
         | (key, sourceValue) :: rest =>
             match sourceValue, getProp key result with
             | VObject _, Some (VObject targetProps) =>
                 loop rest (setProp key (VObject (mergeInto targetProps sourceValue)) result)
             | VUndefined, _ => loop rest result
             | _, _ => loop rest (setProp key sourceValue result)
             end
         end) entries result
  | _ => result
  end.

(** One turn of the loop of [deepMerge]. *)
Definition mergeStep (result : list (string * value)) (key : string) (sourceValue : value)
    : list (string * value) :=
  match sourceValue, getProp key result with
  | VObject _, Some (VObject targetProps) =>
      setProp key (VObject (mergeInto targetProps sourceValue)) result
  | VUndefined, _ => result
  | _, _ => setProp key sourceValue result
  end.

(** [deepMerge(target, source)] on values. *)
Definition deepMerge (target source : list (string * value)) : list (string * value) :=
  mergeInto target (VObject source).

Import ModelFallback.

Definition agentConfigValue (c : AgentConfig) : value :=
  match variant c with
  | Some v => VObject [("model", VString (model c)); ("variant", VString v)]
  | None => VObject [("model", VString (model c))]
  end.

(** The object [generateModelConfig] returns, as [deepMerge] and
    [JSON.stringify] see it. *)
Definition generateOmoConfig (installConfig : InstallConfig) : list (string * value) :=
  let g := generateModelConfig installConfig in
  [ ("$schema", VString (schema g));
    ("agents", VObject (map (fun e => (fst e, agentConfigValue (snd e))) (agents g)));
    ("categories",
     VObject (map (fun e => (fst e, agentConfigValue (snd e))) (categories g))) ].

(** The inner [try] of [writeOmoConfig], entered when the file exists. *)
Definition mergeIntoExisting `{Shared} (omoConfigPath : string)
    (newConfig : list (string * value)) (fs : FileSystem) : exn + FileSystem :=
  match statSync fs omoConfigPath with
  | inl err => inl err
  | inr size =>
      match readFileSync fs omoConfigPath with
      | inl err => inl err
      | inr content =>
          if Nat.eqb size 0 || isEmptyOrWhitespace content then
            writeFileSync fs omoConfigPath (stringifyLine (VObject newConfig))
          else
            match parseJsonc content with
            | inl err => inl err
            | inr (VObject existing) =>
                let merged := deepMerge existing newConfig in
                writeFileSync fs omoConfigPath (stringifyLine (VObject merged))
            | inr _ =>
                writeFileSync fs omoConfigPath (stringifyLine (VObject newConfig))
            end
      end
  end.

Definition writeOmoConfig `{Shared} (paths : OpenCodeConfigPaths)
    (installConfig : InstallConfig) (fs : FileSystem) : FileSystem * ConfigMergeResult :=
  match ensureConfigDir paths fs with
  | inl err =>
      (fs, failed (configDir paths)
                  (formatErrorWithSuggestion err "create config directory"))
  | inr fs =>
      let omoConfigPath := omoConfig paths in
      let newConfig := generateOmoConfig installConfig in
      let attempt : exn + FileSystem :=
        if existsSync fs omoConfigPath then
          match mergeIntoExisting omoConfigPath newConfig fs with
          | inl (SyntaxError _) =>
              writeFileSync fs omoConfigPath (stringifyLine (VObject newConfig))
          | outcome => outcome
          end
        else writeFileSync fs omoConfigPath (stringifyLine (VObject newConfig)) in
      match attempt with
      | inr fs' => (fs', succeeded omoConfigPath)
      | inl err =>
          (fs, failed omoConfigPath
                      (formatErrorWithSuggestion err "write oh-my-opencode config"))
      end
  end.

(** The file system after a write of the serialized [doc] to [path]. *)
Definition written (fs : FileSystem) (path : string) (doc : list (string * value))
    : FileSystem :=
  {| files := <[ path := stringifyLine (VObject doc) ]> (files fs);
     directories := directories fs;
     readOnly := readOnly fs |}.

(** A settings document with a key of the user's own, and its text. *)
Definition customDoc : list (string * value) :=
  [("custom", VObject [("x", VNumber 1)])].

Definition customText : string :=
  "{" +:+ dquote +:+ "custom" +:+ dquote +:+ ": {" +:+ dquote +:+ "x" +:+ dquote +:+ ": 1}}".

(** The file system after [data] has been written to [path]. *)
Definition withFile (fs : FileSystem) (path data : string) : FileSystem :=
  {| files := <[ path := data ]> (files fs);
     directories := directories fs;
     readOnly := readOnly fs |}.

(** A commented configuration that opens with a comment line and has no
    plugin list. *)
Definition leadingCommentText : string :=
  "// my settings" +:+ newline +:+ "{" +:+ newline +:+ "}" +:+ newline.

(** A commented configuration in which a block comment mentions an empty
    plugin list before the list in use, and what the file holds after
    [addPluginToOpenCodeConfig] has run for version 2.0.0. *)
Definition shadowedText : string :=
  "{" +:+ newline
  +:+ "  /* " +:+ dquote +:+ "plugin" +:+ dquote +:+ ": [] */" +:+ newline
  +:+ "  " +:+ dquote +:+ "plugin" +:+ dquote +:+ ": ["
  +:+ dquote +:+ "oh-my-opencode@1.0.0" +:+ dquote +:+ "]" +:+ newline
  +:+ "}" +:+ newline.

Definition shadowedTextAfter : string :=
  "{" +:+ newline
  +:+ "  /* " +:+ dquote +:+ "plugin" +:+ dquote +:+ ": [" +:+ newline
  +:+ "    " +:+ dquote +:+ "oh-my-opencode@2.0.0" +:+ dquote +:+ newline
  +:+ "  ] */" +:+ newline
  +:+ "  " +:+ dquote +:+ "plugin" +:+ dquote +:+ ": ["
  +:+ dquote +:+ "oh-my-opencode@1.0.0" +:+ dquote +:+ "]" +:+ newline
  +:+ "}" +:+ newline.

Definition shadowedConfig : list (string * value) :=
  [("plugin", VArray [VString "oh-my-opencode@1.0.0"])].

(** A parser to run examples with: it knows the texts of a table and
    rejects every other text with a [SyntaxError]. *)
Definition tableParser (table : list (string * value)) : Shared :=
  {| parseJsonc content :=
       match getProp content table with
       | Some v => inr v
       | None => inl (SyntaxError "JSONC parse error")
       end |}.

(** A file system that holds one file, in an existing directory. *)
Definition oneFile (dir path content : string) : FileSystem :=
  {| files := {[ path := content ]}; directories := {[ dir ]}; readOnly := ∅ |}.

(** The paths of the examples. *)
Definition examplePaths : OpenCodeConfigPaths :=
  {| configDir := "/home/u/.config/opencode";
     configJson := "/home/u/.config/opencode/opencode.json";
     configJsonc := "/home/u/.config/opencode/opencode.jsonc";
     packageJson := "/home/u/.config/opencode/package.json";
     omoConfig := "/home/u/.config/opencode/oh-my-opencode.json" |}.

End ConfigManager.

(** ** [deepMerge] on a store of objects

    A JavaScript object is a reference into a store, and an assignment
    [result[key] = v] changes the store.  This second embedding of
    [deepMerge] keeps both, so that what the call does to its arguments is a
    statement about the store before and after. *)

Module Store.
Import JS.

Abbreviation loc := nat (only parsing).

(** A value is a primitive or a reference to an object or an array. *)
Inductive hvalue :=
| HUndefined
| HNull
| HBool (b : bool)
| HNumber (n : Z)
| HString (s : string)
| HRef (l : loc).

Inductive cell :=
| CArray (items : list hvalue)
| CObject (props : list (string * hvalue)).

(** The store: the cell of reference [l] is at index [l]; allocation
    appends. *)
Abbreviation heap := (list cell) (only parsing).

(** [v !== null && typeof v === "object" && !Array.isArray(v)] *)
Definition plainObject (h : heap) (v : hvalue) : option loc :=
  match v with
  | HRef l => match h !! l with
              | Some (CObject _) => Some l
              | _ => None
              end
  | _ => None
  end.

(** [o[key]] *)
Definition readProp (h : heap) (o : loc) (key : string) : hvalue :=
  match h !! o with
  | Some (CObject props) => default HUndefined (getProp key props)
  | _ => HUndefined
  end.

(** [o[key] = v], for a key that is neither [__proto__] nor an array index
    (see [ordinaryKey] below). *)
Definition writeProp (h : heap) (o : loc) (key : string) (v : hvalue) : heap :=
  match h !! o with
  | Some (CObject props) => <[ o := CObject (setProp key v props) ]> h
  | _ => h
  end.

(** The [for (const key of Object.keys(source))] loop; [rec] is the
    recursive call of [deepMerge]. *)
Fixpoint mergeLoop (rec : heap -> loc -> loc -> option (heap * loc))
    (source result : loc) (sourceKeys : list string) (h : heap) : option heap :=
  match sourceKeys with
  | [] => Some h
  | key :: rest =>
      let sourceValue := readProp h source key in
      let targetValue := readProp h result key in
      match plainObject h sourceValue, plainObject h targetValue with
      | Some s, Some t =>
          match rec h t s with
          | Some (h', merged) =>
              mergeLoop rec source result rest (writeProp h' result key (HRef merged))
          | None => None
          end
      | _, _ =>
          match sourceValue with
          | HUndefined => mergeLoop rec source result rest h
          | _ => mergeLoop rec source result rest (writeProp h result key sourceValue)
          end
      end
  end.

(** [deepMerge(target, source)]: the new store and the reference returned.
    [fuel] bounds the depth of the recursion; [None] is a run that needs
    more, or arguments that are not objects of the store. *)
Fixpoint deepMerge (fuel : nat) (h : heap) (target source : loc) : option (heap * loc) :=
  match fuel with
  | 0 => None
  | S fuel' =>
      match h !! target, h !! source with
      | Some (CObject targetProps), Some (CObject sourceProps) =>
          (* const result = { ...target } *)
          let result := length h in
          let h := h ++ [CObject targetProps] in
          match mergeLoop (deepMerge fuel') source result (keys sourceProps) h with
          | Some h' => Some (h', result)
          | None => None
          end
      | _, _ => None
      end
  end.

(** [represents A h v hv]: in the store [h] the value [hv] unfolds to the
    tree [v], and every reference followed on the way satisfies [A]. *)
Fixpoint represents (A : loc -> Prop) (h : heap) (v : value) (hv : hvalue) {struct v}
    : Prop :=
  match v with
  | VUndefined => hv = HUndefined
  | VNull => hv = HNull
  | VBool b => hv = HBool b
  | VNumber n => hv = HNumber n
  | VString s => hv = HString s
  | VArray items =>
      exists l hitems, hv = HRef l /\ A l /\ h !! l = Some (CArray hitems) /\
        (fix all (vs : list value) (hvs : list hvalue) {struct vs} : Prop :=
           match vs, hvs with
           | [], [] => True
           | x :: vs', hx :: hvs' => represents A h x hx /\ all vs' hvs'
           | _, _ => False
           end) items hitems
  | VObject props =>
      exists l hprops, hv = HRef l /\ A l /\ h !! l = Some (CObject hprops) /\
        (fix all (ps : list (string * value)) (hps : list (string * hvalue)) {struct ps}
           : Prop :=
           match ps, hps with
           | [], [] => True
           | (k, x) :: ps', (hk, hx) :: hps' =>
               k = hk /\ represents A h x hx /\ all ps' hps'
           | _, _ => False
           end) props hprops
  end.

(** The properties [hps] unfold to the properties [ps], key by key. *)
Fixpoint representsProps (A : loc -> Prop) (h : heap) (ps : list (string * value))
    (hps : list (string * hvalue)) {struct ps} : Prop :=
  match ps, hps with
  | [], [] => True
  | (k, x) :: ps', (hk, hx) :: hps' =>
      k = hk /\ represents A h x hx /\ representsProps A h ps' hps'
  | _, _ => False
  end.

Fixpoint representsItems (A : loc -> Prop) (h : heap) (vs : list value)
    (hvs : list hvalue) {struct vs} : Prop :=
  match vs, hvs with
  | [], [] => True
  | x :: vs', hx :: hvs' => represents A h x hx /\ representsItems A h vs' hvs'
  | _, _ => False
  end.

(** [unfolds h hv v]: the value [hv] of the store [h] is the tree [v]. *)
Definition unfolds (h : heap) (hv : hvalue) (v : value) : Prop :=
  represents (fun _ => True) h v hv.

(** Nesting depth of objects, the recursion depth [deepMerge] can reach. *)
Fixpoint depth (v : value) : nat :=
  match v with
  | VObject props =>
      S ((fix most (ps : list (string * value)) : nat :=
            match ps with
            | [] => 0
            | (_, x) :: ps' => Nat.max (depth x) (most ps')
            end) props)
  | _ => 0
  end.

Fixpoint distinct (ks : list string) : bool :=
  match ks with
  | [] => true
  | k :: rest => negb (existsb (String.eqb k) rest) && distinct rest
  end.

(** Every object of the tree has pairwise distinct keys, as every
    JavaScript object has. *)
Fixpoint distinctKeys (v : value) : bool :=
  match v with
  | VObject props =>
      distinct (keys props) &&
      (fix all (ps : list (string * value)) : bool :=
         match ps with
         | [] => true
         | (_, x) :: ps' => distinctKeys x && all ps'
         end) props
  | _ => true
  end.

(** The keys for which the assignment [o[key] = v] on a plain object is the
    update that [setProp] and [writeProp] make: a property of its own that
    keeps its place, or a new last one.  Two kinds of keys are not: for
    [__proto__] the assignment calls the setter of [Object.prototype] when
    the object has no such property of its own, and a key that is an array
    index is enumerated before the other keys, in numeric order.  Every
    array index is a string of decimal digits. *)
Definition isDigit (a : ascii) : bool :=
  Nat.leb 48 (nat_of_ascii a) && Nat.leb (nat_of_ascii a) 57.

Fixpoint allDigits (s : string) : bool :=
  match s with
  | EmptyString => true
  | String a rest => isDigit a && allDigits rest
  end.

Definition ordinaryKey (k : string) : bool :=
  negb (String.eqb k "__proto__")
  && negb (match k with
           | EmptyString => false
           | _ => allDigits k
           end).

(** Every key of every object of the tree is an ordinary key. *)
Fixpoint ordinaryKeys (v : value) : bool :=
  match v with
  | VObject props =>
      forallb ordinaryKey (keys props) &&
      (fix all (ps : list (string * value)) : bool :=
         match ps with
         | [] => true
         | (_, x) :: ps' => ordinaryKeys x && all ps'
         end) props
  | _ => true
  end.

(** A store to run examples in: the object at 1 is [{ a: { x: 1 }, b: 2,
    l: [1] }], the object at 3 is [{ a: { y: 3 }, l: [2] }]. *)
Definition exampleHeap : heap :=
  [ CObject [("x", HNumber 1)];
    CObject [("a", HRef 0); ("b", HNumber 2); ("l", HRef 4)];
    CObject [("y", HNumber 3)];
    CObject [("a", HRef 2); ("l", HRef 5)];
    CArray [HNumber 1];
    CArray [HNumber 2] ].

Definition exampleTarget : list (string * value) :=
  [("a", VObject [("x", VNumber 1)]); ("b", VNumber 2); ("l", VArray [VNumber 1])].

Definition exampleSource : list (string * value) :=
  [("a", VObject [("y", VNumber 3)]); ("l", VArray [VNumber 2])].

(** A store with [{ a: 1 }] at 0 and [{ a: undefined }] at 1. *)
Definition undefinedHeap : heap :=
  [ CObject [("a", HNumber 1)]; CObject [("a", HUndefined)] ].

(** What the correctness of [deepMerge] on the store says for runs with
    [fuel]: on arguments that unfold to the trees [tp] and [sp] the call
    returns a fresh object that unfolds to the merge of the trees, and keeps
    every cell the store had. *)
Definition mergesCorrectly (fuel : nat) : Prop :=
  forall (A : loc -> Prop) (h : heap) (t s : loc) (tp sp : list (string * value)),
    (forall l, A l -> l < length h) ->
    depth (VObject sp) <= fuel ->
    distinctKeys (VObject sp) = true ->
    represents A h (VObject tp) (HRef t) ->
    represents A h (VObject sp) (HRef s) ->
    exists h',
      deepMerge fuel h t s = Some (h', length h) /\
      length h < length h' /\
      (forall l, l < length h -> h' !! l = h !! l) /\
      represents (fun l => A l \/ length h <= l < length h') h'
        (VObject (ConfigManager.deepMerge tp sp)) (HRef (length h)).

End Store.


(** ** The command-line front end ([install.ts]) *)

Module Install.

(** [InstallArgs] (declared in [./types]); an option that was not given on
    the command line is [None], the JavaScript [undefined]. *)
Record InstallArgs := {
  tui : bool;
  claude : option string;
  openai : option string;
  gemini : option string;
  copilot : option string;
  opencodeZen : option string;
  zaiCodingPlan : option string;
  skipAuth : bool
}.

Record Validation := {
  valid : bool;
  errors : list string
}.

(** [allowed.includes(v)] *)
Definition oneOf (allowed : list string) (v : string) : bool :=
  existsb (String.eqb v) allowed.

(** The check of a required option: one message when it is missing, another
    when its value is not an allowed one. *)
Definition requiredErrors (name expected : string) (allowed : list string)
    (arg : option string) : list string :=
  match arg with
  | None => ["--" +:+ name +:+ " is required (values: " +:+ expected +:+ ")"]
  | Some v =>
      if oneOf allowed v then []
      else ["Invalid --" +:+ name +:+ " value: " +:+ v +:+ " (expected: " +:+ expected +:+ ")"]
  end.

(** The check of an option that may be left out. *)
Definition optionalErrors (name expected : string) (allowed : list string)
    (arg : option string) : list string :=
  match arg with
  | None => []
  | Some v =>
      if oneOf allowed v then []
      else ["Invalid --" +:+ name +:+ " value: " +:+ v +:+ " (expected: " +:+ expected +:+ ")"]
  end.

Definition validateNonTuiArgs (args : InstallArgs) : Validation :=
  let errors :=
    requiredErrors "claude" "no, yes, max20" ["no"; "yes"; "max20"] (claude args)
    ++ requiredErrors "gemini" "no, yes" ["no"; "yes"] (gemini args)
    ++ requiredErrors "copilot" "no, yes" ["no"; "yes"] (copilot args)
    ++ optionalErrors "openai" "no, yes" ["no"; "yes"] (openai args)
    ++ optionalErrors "opencode-zen" "no, yes" ["no"; "yes"] (opencodeZen args)
    ++ optionalErrors "zai-coding-plan" "no, yes" ["no"; "yes"] (zaiCodingPlan args) in
  {| valid := Nat.eqb (length errors) 0; errors := errors |}.

(** [arg === v] *)
Definition argIs (arg : option string) (v : string) : bool :=
  match arg with
  | Some s => String.eqb s v
  | None => false
  end.

Definition argsToConfig (args : InstallArgs) : ModelFallback.InstallConfig :=
  {| ModelFallback.hasClaude := negb (argIs (claude args) "no");
     ModelFallback.isMax20 := argIs (claude args) "max20";
     ModelFallback.hasOpenAI := argIs (openai args) "yes";
     ModelFallback.hasGemini := argIs (gemini args) "yes";
     ModelFallback.hasCopilot := argIs (copilot args) "yes";
     ModelFallback.hasOpencodeZen := argIs (opencodeZen args) "yes";
     ModelFallback.hasZaiCodingPlan := argIs (zaiCodingPlan args) "yes" |}.

(** [DetectedConfig] (declared in [./types]). *)
Record DetectedConfig := {
  isInstalled : bool;
  hasClaude : bool;
  isMax20 : bool;
  hasOpenAI : bool;
  hasGemini : bool;
  hasCopilot : bool;
  hasOpencodeZen : bool;
  hasZaiCodingPlan : bool
}.

Definition yesNo (b : bool) : string := if b then "yes" else "no".

(** What [detectedToInitialValues] returns: the values the prompts of the
    wizard start from. *)
Record InitialValues := {
  initialClaude : string;
  initialOpenai : string;
  initialGemini : string;
  initialCopilot : string;
  initialOpencodeZen : string;
  initialZaiCodingPlan : string
}.

Definition detectedToInitialValues (detected : DetectedConfig) : InitialValues :=
  {| initialClaude := if hasClaude detected
                      then (if isMax20 detected then "max20" else "yes")
                      else "no";
     initialOpenai := yesNo (hasOpenAI detected);
     initialGemini := yesNo (hasGemini detected);
     initialCopilot := yesNo (hasCopilot detected);
     initialOpencodeZen := yesNo (hasOpencodeZen detected);
     initialZaiCodingPlan := yesNo (hasZaiCodingPlan detected) |}.

(** The user at the six [p.select] prompts of [runTuiMode]: given the initial
    value of a prompt, the value selected, or [None] for a cancel. *)
Record Answers := {
  answerClaude : string -> option string;
  answerOpenai : string -> option string;
  answerGemini : string -> option string;
  answerCopilot : string -> option string;
  answerOpencodeZen : string -> option string;
  answerZaiCodingPlan : string -> option string
}.

(** [runTuiMode(detected)]: [None] is the [null] of a cancelled wizard. *)
Definition runTuiMode (detected : DetectedConfig) (user : Answers)
    : option ModelFallback.InstallConfig :=
  let initial := detectedToInitialValues detected in
  match answerClaude user (initialClaude initial) with
  | None => None
  | Some claude =>
  match answerOpenai user (initialOpenai initial) with
  | None => None
  | Some openai =>
  match answerGemini user (initialGemini initial) with
  | None => None
  | Some gemini =>
  match answerCopilot user (initialCopilot initial) with
  | None => None
  | Some copilot =>
  match answerOpencodeZen user (initialOpencodeZen initial) with
  | None => None
  | Some opencodeZen =>
  match answerZaiCodingPlan user (initialZaiCodingPlan initial) with
  | None => None
  | Some zaiCodingPlan =>
      Some {| ModelFallback.hasClaude := negb (String.eqb claude "no");
              ModelFallback.isMax20 := String.eqb claude "max20";
              ModelFallback.hasOpenAI := String.eqb openai "yes";
              ModelFallback.hasGemini := String.eqb gemini "yes";
              ModelFallback.hasCopilot := String.eqb copilot "yes";
              ModelFallback.hasOpencodeZen := String.eqb opencodeZen "yes";
              ModelFallback.hasZaiCodingPlan := String.eqb zaiCodingPlan "yes" |}
  end end end end end end.

(** The user who keeps every initial value. *)
Definition acceptInitial : Answers :=
  {| answerClaude := Some; answerOpenai := Some; answerGemini := Some;
     answerCopilot := Some; answerOpencodeZen := Some; answerZaiCodingPlan := Some |}.

(** The provider flags of a detected configuration. *)
Definition detectedFlags (detected : DetectedConfig) : ModelFallback.InstallConfig :=
  {| ModelFallback.hasClaude := hasClaude detected;
     ModelFallback.isMax20 := isMax20 detected;
     ModelFallback.hasOpenAI := hasOpenAI detected;
     ModelFallback.hasGemini := hasGemini detected;
     ModelFallback.hasCopilot := hasCopilot detected;
     ModelFallback.hasOpencodeZen := hasOpencodeZen detected;
     ModelFallback.hasZaiCodingPlan := hasZaiCodingPlan detected |}.

End Install.

(** ** The other editors and the detection of [config-manager.ts] *)

Module Editors.
Import JS FS ConfigManager.

(** [JSON.stringify(value)], without indentation. *)
Fixpoint serializeCompact (v : value) : option string :=
  match v with
  | VUndefined => None
  | VNull => Some "null"
  | VBool true => Some "true"
  | VBool false => Some "false"
  | VNumber n => Some (numberToString n)
  | VString s => Some (quoteJSONString s)
  | VArray items =>
      match items with
      | [] => Some "[]"
      | _ =>
          let partial :=
            map (fun x => match serializeCompact x with
                          | Some t => t
                          | None => "null"
                          end) items in
          Some ("[" +:+ join "," partial +:+ "]")
      end
  | VObject props =>
      let partial :=
        (fix members (ps : list (string * value)) : list string :=
           match ps with
           | [] => []
           | (k, x) :: rest =>
               match serializeCompact x with
               | Some t => (quoteJSONString k +:+ ":" +:+ t) :: members rest
               | None => members rest
               end
           end) props in
      match partial with
      | [] => Some "{}"
      | _ => Some ("{" +:+ join "," partial +:+ "}")
      end
  end.

(** The callback [(p) => p.startsWith(prefix)] under [plugins.some]: the
    entries are visited in order until one matches; an entry that is not a
    string has no [startsWith]. *)
Fixpoint someStartsWith (prefix : string) (plugins : list value) : exn + bool :=
  match plugins with
  | [] => inr false
  | VString name :: rest =>
      if startsWith name prefix then inr true else someStartsWith prefix rest
  | _ :: _ => inl (TypeError "p.startsWith is not a function")
  end.

(** [plugins.some((p) => p.startsWith(prefix))] *)
Definition somePlugin (prefix : string) (plugins : value) : exn + bool :=
  match plugins with
  | VArray items => someStartsWith prefix items
  | _ => inl (TypeError "plugins.some is not a function")
  end.

(** The start of [addAuthPlugins] and [addProviderConfig]: [None] is the
    [null] of a missing file, and a file that cannot be parsed counts as the
    empty object. *)
Definition readExistingConfig `{Shared} (format : ConfigFormat) (path : string)
    (fs : FileSystem) : option (list (string * value)) :=
  match format with
  | NoFormat => None
  | _ =>
      let parseResult := parseConfigWithError fs path in
      match parseError parseResult, config parseResult with
      | Some message, None =>
          if String.eqb message EmptyString then None else Some []
      | _, existing => existing
      end
  end.

Definition AUTH_PLUGIN : string := "opencode-antigravity-auth".

(** The [pluginEntry] of [addAuthPlugins]: the package with the version
    [fetchLatestVersion] answered, without one when the answer is [null] or
    the empty string. *)
Definition authPluginEntry (latestVersion : option string) : string :=
  match latestVersion with
  | Some version =>
      if String.eqb version EmptyString then AUTH_PLUGIN
      else AUTH_PLUGIN +:+ "@" +:+ version
  | None => AUTH_PLUGIN
  end.

(** The body of the [try] of [addAuthPlugins]; [latestVersion] is what
    [fetchLatestVersion("opencode-antigravity-auth")] answered. *)
Definition addAuthPluginsBody `{Shared} (installConfig : ModelFallback.InstallConfig)
    (latestVersion : option string) (format : ConfigFormat) (path : string)
    (fs : FileSystem) : exn + FileSystem :=
  let existingConfig := readExistingConfig format path fs in
  (* existingConfig?.plugin ?? [] *)
  let plugins :=
    match existingConfig with
    | Some existing => pluginsOf existing
    | None => VArray []
    end in
  let edited : exn + value :=
    if ModelFallback.hasGemini installConfig then
      let pluginEntry := authPluginEntry latestVersion in
      match somePlugin AUTH_PLUGIN plugins, plugins with
      | inl err, _ => inl err
      | inr false, VArray items => inr (VArray (items ++ [VString pluginEntry]))
      | inr _, _ => inr plugins
      end
    else inr plugins in
  match edited with
  | inl err => inl err
  | inr plugins =>
      let newConfig := setProp "plugin" plugins (default [] existingConfig) in
      writeFileSync fs path (stringifyLine (VObject newConfig))
  end.

Definition addAuthPlugins `{Shared} (paths : OpenCodeConfigPaths)
    (installConfig : ModelFallback.InstallConfig) (latestVersion : option string)
    (fs : FileSystem) : FileSystem * ConfigMergeResult :=
  match ensureConfigDir paths fs with
  | inl err =>
      (fs, failed (configDir paths)
                  (formatErrorWithSuggestion err "create config directory"))
  | inr fs =>
      let '(format, path) := detectConfigFormat paths fs in
      match addAuthPluginsBody installConfig latestVersion format path fs with
      | inr fs' => (fs', succeeded path)
      | inl err =>
          (fs, failed path (formatErrorWithSuggestion err "add auth plugins to config"))
      end
  end.

Definition modalities : value :=
  VObject [("input", VArray [VString "text"; VString "image"; VString "pdf"]);
           ("output", VArray [VString "text"])].

(** [ANTIGRAVITY_PROVIDER_CONFIG.google] *)
Definition ANTIGRAVITY_GOOGLE : value :=
  VObject
    [("name", VString "Google");
     ("models",
      VObject
        [("antigravity-gemini-3-pro-high",
          VObject [("name", VString "Gemini 3 Pro High (Antigravity)");
                   ("thinking", VBool true);
                   ("attachment", VBool true);
                   ("limit", VObject [("context", VNumber 1048576);
                                      ("output", VNumber 65535)]);
                   ("modalities", modalities)]);
         ("antigravity-gemini-3-pro-low",
          VObject [("name", VString "Gemini 3 Pro Low (Antigravity)");
                   ("thinking", VBool true);
                   ("attachment", VBool true);
                   ("limit", VObject [("context", VNumber 1048576);
                                      ("output", VNumber 65535)]);
                   ("modalities", modalities)]);
         ("antigravity-gemini-3-flash",
          VObject [("name", VString "Gemini 3 Flash (Antigravity)");
                   ("attachment", VBool true);
                   ("limit", VObject [("context", VNumber 1048576);
                                      ("output", VNumber 65536)]);
                   ("modalities", modalities)])])].

(** The document [addProviderConfig] writes for the parsed [existing]:
    [providers] is [newConfig.provider ?? {}]; an assignment to a property
    of a string, number or boolean throws in module code; one to an array
    leaves no trace in the serialized document. *)
Definition withProviders (installConfig : ModelFallback.InstallConfig)
    (existing : list (string * value)) : exn + list (string * value) :=
  let assign (providers : list (string * value)) :=
    let providers :=
      if ModelFallback.hasGemini installConfig
      then setProp "google" ANTIGRAVITY_GOOGLE providers
      else providers in
    match providers with
    | [] => existing
    | _ => setProp "provider" (VObject providers) existing
    end in
  match getProp "provider" existing with
  | None | Some VUndefined | Some VNull => inr (assign [])
  | Some (VObject providers) => inr (assign providers)
  | Some (VArray _) => inr existing
  | Some _ =>
      if ModelFallback.hasGemini installConfig
      then inl (TypeError "Cannot create property 'google'")
      else inr existing
  end.

Definition addProviderConfig `{Shared} (paths : OpenCodeConfigPaths)
    (installConfig : ModelFallback.InstallConfig) (fs : FileSystem)
    : FileSystem * ConfigMergeResult :=
  match ensureConfigDir paths fs with
  | inl err =>
      (fs, failed (configDir paths)
                  (formatErrorWithSuggestion err "create config directory"))
  | inr fs =>
      let '(format, path) := detectConfigFormat paths fs in
      let existingConfig := readExistingConfig format path fs in
      let attempt :=
        match withProviders installConfig (default [] existingConfig) with
        | inl err => inl err
        | inr newConfig => writeFileSync fs path (stringifyLine (VObject newConfig))
        end in
      match attempt with
      | inr fs' => (fs', succeeded path)
      | inl err => (fs, failed path (formatErrorWithSuggestion err "add provider config"))
      end
  end.

(** What [detectProvidersFromOmoConfig] returns. *)
Record DetectedProviders := {
  detectedOpenAI : bool;
  detectedOpencodeZen : bool;
  detectedZaiCodingPlan : bool
}.

Definition defaultProviders : DetectedProviders :=
  {| detectedOpenAI := true; detectedOpencodeZen := true; detectedZaiCodingPlan := false |}.

Definition detectProvidersFromOmoConfig `{Shared} (paths : OpenCodeConfigPaths)
    (fs : FileSystem) : DetectedProviders :=
  let omoConfigPath := omoConfig paths in
  if negb (existsSync fs omoConfigPath) then defaultProviders
  else
    match readFileSync fs omoConfigPath with
    | inl _ => defaultProviders
    | inr content =>
        match parseJsonc content with
        | inl _ => defaultProviders
        | inr (VObject _ as omoConfig) | inr (VArray _ as omoConfig) =>
            match serializeCompact omoConfig with
            | Some configStr =>
                {| detectedOpenAI := includes configStr (dquote +:+ "openai/");
                   detectedOpencodeZen := includes configStr (dquote +:+ "opencode/");
                   detectedZaiCodingPlan :=
                     includes configStr (dquote +:+ "zai-coding-plan/") |}
            | None => defaultProviders
            end
        | inr _ => defaultProviders
        end
    end.

(** [detectCurrentConfig()]; it has no [try], a [TypeError] of [some]
    leaves it as a throw. *)
Definition detectCurrentConfig `{Shared} (paths : OpenCodeConfigPaths) (fs : FileSystem)
    : exn + Install.DetectedConfig :=
  let result (installed gemini : bool) (providers : DetectedProviders) :=
    {| Install.isInstalled := installed;
       Install.hasClaude := true;
       Install.isMax20 := true;
       Install.hasOpenAI := detectedOpenAI providers;
       Install.hasGemini := gemini;
       Install.hasCopilot := false;
       Install.hasOpencodeZen := detectedOpencodeZen providers;
       Install.hasZaiCodingPlan := detectedZaiCodingPlan providers |} in
  let '(format, path) := detectConfigFormat paths fs in
  match format with
  | NoFormat => inr (result false false defaultProviders)
  | _ =>
      match config (parseConfigWithError fs path) with
      | None => inr (result false false defaultProviders)
      | Some openCodeConfig =>
          let plugins := pluginsOf openCodeConfig in
          match somePlugin "oh-my-opencode" plugins with
          | inl err => inl err
          | inr false => inr (result false false defaultProviders)
          | inr true =>
              match somePlugin AUTH_PLUGIN plugins with
              | inl err => inl err
              | inr hasGemini =>
                  inr (result true hasGemini (detectProvidersFromOmoConfig paths fs))
              end
          end
      end
  end.

End Editors.

(** ** The rest of the model-fallback module ([utils.ts], lines 484-486) *)

Module Warnings.
Import ModelFallback.

Definition shouldShowChatGPTOnlyWarning (config : InstallConfig) : bool :=
  negb (hasClaude config) && negb (hasGemini config) && hasOpenAI config.

(** The [hasAnyProvider] of [generateModelConfig], on the install
    configuration. *)
Definition anyProvider (config : InstallConfig) : bool :=
  hasClaude config || hasOpenAI config || hasGemini config
  || hasOpencodeZen config || hasCopilot config || hasZaiCodingPlan config.

End Warnings.

(** ** Paths into a document *)

Module Paths.
Import JS.

(** [v[k1][k2]...], [None] when the path leaves the objects. *)
Fixpoint getPath (path : list string) (v : value) : option value :=
  match path with
  | [] => Some v
  | k :: rest =>
      match v with
      | VObject props =>
          match getProp k props with
          | Some x => getPath rest x
          | None => None
          end
      | _ => None
      end
  end.

(** [untouched path source]: following [path], the object [source] stops
    having the key (or has it as [undefined]) while still inside objects;
    it neither ends on the path nor puts another value in its way. *)
Fixpoint untouched (path : list string) (source : list (string * value)) : bool :=
  match path with
  | [] => false
  | k :: rest =>
      match getProp k source with
      | None | Some VUndefined => true
      | Some (VObject inner) => untouched rest inner
      | Some _ => false
      end
  end.

(** A value that is neither an object nor [undefined]: what [deepMerge]
    copies from the source as it is. *)
Definition isLeaf (v : value) : bool :=
  match v with
  | VObject _ | VUndefined => false
  | _ => true
  end.

End Paths.
(** * Properties of the model resolution *)

Module Resolution.
Import ModelFallback.

Lemma availability_eta (a : ProviderAvailability) :
  a = availability (claude (native a)) (openai (native a)) (gemini (native a))
        (opencodeZen a) (copilot a) (zai a) (isMaxPlan a).
Proof. destruct a as [[c o g] z p i m]; reflexivity. Qed.

(** The loop falls through exactly when no entry names an available
    provider. *)
Lemma walkNativeChain_None (a : ProviderAvailability) (chain : list NativeFallbackEntry) :
  walkNativeChain a chain = None <->
  (forall e, In e chain -> nativeFlag (native a) (provider e) = false).
Proof.
  induction chain as [|e chain IH]; simpl.
  - split; [intros _ e [] | reflexivity].
  - destruct (nativeFlag (native a) (provider e)) eqn:E.
    + split; [discriminate|].
      intros H. specialize (H e (or_introl eq_refl)). congruence.
    + rewrite IH. split.
      * intros H e' [<-|Hin]; auto.
      * intros H e' Hin. apply H. now right.
Qed.

(** The loop returns the model of the first entry whose provider is
    available. *)
Lemma walkNativeChain_first (a : ProviderAvailability) (chain : list NativeFallbackEntry)
    (i : nat) (e : NativeFallbackEntry) :
  chain !! i = Some e ->
  nativeFlag (native a) (provider e) = true ->
  (forall j e', j < i -> chain !! j = Some e' ->
                nativeFlag (native a) (provider e') = false) ->
  walkNativeChain a chain = Some (entryModel e).
Proof.
  revert i. induction chain as [|e0 chain IH]; intros i Hi He Hbefore.
  - discriminate.
  - destruct i as [|i]; simpl in *.
    + injection Hi as ->. now rewrite He.
    + rewrite (Hbefore 0 e0); [|lia|reflexivity].
      apply (IH i); auto.
      intros j e' Hj Hl. apply (Hbefore (S j) e'); [lia|exact Hl].
Qed.

Lemma resolveModel_fallthrough (c : ModelCapability) (a : ProviderAvailability) :
  walkNativeChain a (NATIVE_FALLBACK_CHAINS c) = None ->
  resolveModel c a =
    if opencodeZen a then OPENCODE_ZEN_MODELS c
    else if copilot a then GITHUB_COPILOT_MODELS c
    else if zai a then ZAI_MODEL
    else ULTIMATE_FALLBACK.
Proof. unfold resolveModel. now intros ->. Qed.

Lemma resolveModel_nonempty (c : ModelCapability) (a : ProviderAvailability) :
  resolveModel c a <> EmptyString.
Proof.
  rewrite (availability_eta a).
  destruct c, (claude (native a)), (openai (native a)), (gemini (native a)),
    (opencodeZen a), (copilot a), (zai a); discriminate.
Qed.

(** C1. For every capability tag and every assignment of the seven
    availability flags, [resolveModel] (a total function: it cannot throw)
    returns an identifier that is not the empty string; and when no entry
    of the capability's native chain names an available provider and none
    of the pooled-access flags (opencodeZen, copilot, zai) is set, the
    identifier is "opencode/glm-4.7-free", the same for all capabilities. *)
Theorem resolveModel_always_resolves (c : ModelCapability) (a : ProviderAvailability) :
  resolveModel c a <> EmptyString /\
  ((forall e, In e (NATIVE_FALLBACK_CHAINS c) ->
              nativeFlag (native a) (provider e) = false) ->
   opencodeZen a = false -> copilot a = false -> zai a = false ->
   resolveModel c a = "opencode/glm-4.7-free").
Proof.
  split; [apply resolveModel_nonempty|].
  intros Hchain Hz Hc Hi.
  rewrite resolveModel_fallthrough by now apply walkNativeChain_None.
  now rewrite Hz, Hc, Hi.
Qed.

Lemma resolveModel_always_resolves_witness :
  resolveModel UnspecifiedHigh (availability false false false false false false true)
  = "opencode/glm-4.7-free".
Proof.
  apply (proj2 (resolveModel_always_resolves UnspecifiedHigh
                  (availability false false false false false false true)));
    try reflexivity.
  intros e [<-|[<-|[<-|[]]]]; reflexivity.
Defined.

(** C2 (as amended). [resolveModel] walks the native chain of the capability
    in order and returns the model of the first entry whose provider is
    available; if no entry matches it returns the capability's OpenCode Zen
    model when opencodeZen is set, otherwise the capability's GitHub
    Copilot model when copilot is set, otherwise the fixed Z.ai model when
    zai is set, otherwise the ultimate fallback. *)
Theorem resolveModel_order (c : ModelCapability) (a : ProviderAvailability) :
  (forall i e,
      NATIVE_FALLBACK_CHAINS c !! i = Some e ->
      nativeFlag (native a) (provider e) = true ->
      (forall j e', j < i -> NATIVE_FALLBACK_CHAINS c !! j = Some e' ->
                    nativeFlag (native a) (provider e') = false) ->
      resolveModel c a = entryModel e) /\
  ((forall e, In e (NATIVE_FALLBACK_CHAINS c) ->
              nativeFlag (native a) (provider e) = false) ->
   resolveModel c a =
     if opencodeZen a then OPENCODE_ZEN_MODELS c
     else if copilot a then GITHUB_COPILOT_MODELS c
     else if zai a then ZAI_MODEL
     else ULTIMATE_FALLBACK).
Proof.
  split.
  - intros i e Hi He Hbefore. unfold resolveModel.
    now rewrite (walkNativeChain_first a _ i e Hi He Hbefore).
  - intros Hnone. apply resolveModel_fallthrough. now apply walkNativeChain_None.
Qed.

Lemma resolveModel_order_witness :
  resolveModel Ultrabrain (availability true false true true true true false)
    = "anthropic/claude-opus-4-5" /\
  resolveModel Quick (availability false false false false true true false)
    = "github-copilot/claude-haiku-4.5".
Proof.
  split.
  - apply (proj1 (resolveModel_order Ultrabrain
                    (availability true false true true true true false))
                 1 {| provider := Claude; entryModel := "anthropic/claude-opus-4-5" |});
      try reflexivity.
    intros j e' Hj. destruct j as [|j]; [|lia].
    intros [= <-]. reflexivity.
  - apply (proj2 (resolveModel_order Quick
                    (availability false false false false true true false))).
    intros e [<-|[<-|[<-|[]]]]; reflexivity.
Defined.

(** C2 (as stated) fails.  With only GitHub Copilot declared the code
    answers the Copilot model of the capability, where the order of the
    claim (chain, one pooled flag, a secondary pooled flag with a fixed
    model, ultimate fallback) gives the ultimate fallback; and no choice of
    the two pooled flags and their models makes the four-step order agree
    with the code on all inputs. *)
Lemma resolveModel_order_as_stated_fails :
  resolveModel UnspecifiedHigh (availability false false false false true false false)
    = "github-copilot/claude-opus-4.5" /\
  resolveModel_as_specified ZenFlag ZaiFlag OPENCODE_ZEN_MODELS ZAI_MODEL
    UnspecifiedHigh (availability false false false false true false false)
    = "opencode/glm-4.7-free" /\
  ~ (exists pool secondary poolModel secondaryModel,
       forall c a, resolveModel c a =
                   resolveModel_as_specified pool secondary poolModel secondaryModel c a).
Proof.
  split; [reflexivity|]. split; [reflexivity|].
  intros (pool & secondary & poolModel & secondaryModel & H).
  pose proof (H UnspecifiedHigh (availability false false false true false false false)) as Hz.
  pose proof (H UnspecifiedHigh (availability false false false false true false false)) as Hc.
  pose proof (H UnspecifiedHigh (availability false false false false false true false)) as Hi.
  destruct pool, secondary; cbn in Hz, Hc, Hi; discriminate.
Qed.

End Resolution.

(** * Properties of the generated document *)

Module Generation.
Import ModelFallback.

(** Splits a requirement found in one of the two tables into the rows of
    the table. *)
Ltac table_rows H :=
  unfold AGENT_REQUIREMENTS, CATEGORY_REQUIREMENTS in H; cbn [In] in H;
  repeat (destruct H as [H|H]; [injection H as <- <-|]); [..|contradiction].

Ltac all_configs config := destruct config as [[] [] [] [] [] [] []].

(** C3 (as amended). The coupling with the subscription tier is a
    downgrade: when the tier is not the higher one ([isMax20 = false]),
    every role and every category that requires "unspecified-high" gets
    the model of the category that requires "unspecified-low".  The
    capability is replaced before the chain walk: the model of a category,
    and of a role other than librarian and explore, is [resolveModel] of
    the replaced capability.  A requirement of "unspecified-low" is never
    raised: with Claude available on the higher tier the category
    "unspecified-low" gets anthropic/claude-sonnet-4-5 and the roles that
    require "unspecified-high" get anthropic/claude-opus-4-5. *)
Theorem tier_coupling (config : InstallConfig) :
  (isMax20 config = false ->
     (forall role req, In (role, req) AGENT_REQUIREMENTS ->
        capability req = UnspecifiedHigh ->
        agentModel config role = categoryModel config "unspecified-low") /\
     (forall cat req, In (cat, req) CATEGORY_REQUIREMENTS ->
        capability req = UnspecifiedHigh ->
        categoryModel config cat = categoryModel config "unspecified-low")) /\
  (forall cat req, In (cat, req) CATEGORY_REQUIREMENTS ->
     categoryModel config cat =
       Some (resolveModel
               (if ModelCapability_eqb (capability req) UnspecifiedHigh
                then (if isMax20 config then UnspecifiedHigh else UnspecifiedLow)
                else capability req)
               (toProviderAvailability config))) /\
  (forall role req, In (role, req) AGENT_REQUIREMENTS ->
     role <> "librarian" -> role <> "explore" ->
     agentModel config role =
       Some (resolveModel
               (if ModelCapability_eqb (capability req) UnspecifiedHigh
                then (if isMax20 config then UnspecifiedHigh else UnspecifiedLow)
                else capability req)
               (toProviderAvailability config))) /\
  (hasClaude config = true -> isMax20 config = true ->
     categoryModel config "unspecified-low" = Some "anthropic/claude-sonnet-4-5" /\
     (forall role req, In (role, req) AGENT_REQUIREMENTS ->
        capability req = UnspecifiedHigh ->
        agentModel config role = Some "anthropic/claude-opus-4-5")).
Proof.
  split; [|split; [|split]].
  - intros Hm. split.
    + intros role req Hin Hcap. table_rows Hin; try discriminate Hcap;
        all_configs config; try discriminate Hm; reflexivity.
    + intros cat req Hin Hcap. table_rows Hin; try discriminate Hcap;
        all_configs config; try discriminate Hm; reflexivity.
  - intros cat req Hin. table_rows Hin; all_configs config; reflexivity.
  - intros role req Hin Hl He. table_rows Hin; try congruence;
      all_configs config; reflexivity.
  - intros Hc Hm. split.
    + all_configs config; try discriminate Hc; try discriminate Hm; reflexivity.
    + intros role req Hin Hcap. table_rows Hin; try discriminate Hcap;
        all_configs config; try discriminate Hc; try discriminate Hm; reflexivity.
Qed.

Lemma tier_coupling_witness :
  agentModel (installConfig true false true true false false false) "Atlas"
  = categoryModel (installConfig true false true true false false false) "unspecified-low".
Proof.
  apply (proj1 (proj1 (tier_coupling (installConfig true false true true false false false))
                      eq_refl)
               "Atlas" {| capability := UnspecifiedHigh; reqVariant := None |}).
  - unfold AGENT_REQUIREMENTS. do 8 right. left. reflexivity.
  - reflexivity.
Defined.

(** C3 (as stated) fails.  With Claude available on the higher tier the
    category that requires "unspecified-low" gets the Sonnet model, while
    the roles and the category that require "unspecified-high" get the
    Opus model: the low-cost requirement is not raised. *)
Lemma tier_upgrade_as_stated_fails :
  hasClaude (installConfig true true false false false false false) = true /\
  isMax20 (installConfig true true false false false false false) = true /\
  categoryModel (installConfig true true false false false false false) "unspecified-low"
    = Some "anthropic/claude-sonnet-4-5" /\
  categoryModel (installConfig true true false false false false false) "unspecified-high"
    = Some "anthropic/claude-opus-4-5" /\
  agentModel (installConfig true true false false false false false) "Sisyphus"
    = Some "anthropic/claude-opus-4-5" /\
  categoryModel (installConfig true true false false false false false) "unspecified-low"
    <> agentModel (installConfig true true false false false false false) "Sisyphus".
Proof. repeat split; try reflexivity. discriminate. Qed.

(** C4. If no provider flag is set (no Claude, OpenAI, Gemini, OpenCode
    Zen, Copilot or Z.ai), the generated document has exactly the known
    roles as keys of its agents map and the known categories as keys of its
    categories map, and each of them is assigned the ultimate fallback
    "opencode/glm-4.7-free" as its model. *)
Theorem no_provider_all_fallback (config : InstallConfig) :
  hasClaude config = false -> hasOpenAI config = false -> hasGemini config = false ->
  hasOpencodeZen config = false -> hasCopilot config = false ->
  hasZaiCodingPlan config = false ->
  keys (agents (generateModelConfig config)) = keys AGENT_REQUIREMENTS /\
  keys (categories (generateModelConfig config)) = keys CATEGORY_REQUIREMENTS /\
  (forall role, In role (keys AGENT_REQUIREMENTS) ->
     getProp role (agents (generateModelConfig config))
     = Some {| model := "opencode/glm-4.7-free"; variant := None |}) /\
  (forall cat, In cat (keys CATEGORY_REQUIREMENTS) ->
     getProp cat (categories (generateModelConfig config))
     = Some {| model := "opencode/glm-4.7-free"; variant := None |}).
Proof.
  intros Hc Ho Hg Hz Hp Hi.
  all_configs config; try discriminate; cbn in *;
    (split; [reflexivity|]; split; [reflexivity|]; split;
     intros name Hin; repeat (destruct Hin as [<-|Hin]; [reflexivity|]);
     contradiction).
Qed.

Lemma no_provider_all_fallback_witness :
  getProp "oracle"
    (agents (generateModelConfig (installConfig false true false false false false false)))
  = Some {| model := "opencode/glm-4.7-free"; variant := None |}.
Proof.
  apply (proj1 (proj2 (proj2
           (no_provider_all_fallback (installConfig false true false false false false false)
              eq_refl eq_refl eq_refl eq_refl eq_refl eq_refl)))).
  unfold AGENT_REQUIREMENTS. right. left. reflexivity.
Defined.

(** C10. The native chain of the "glm" capability is empty, so
    [resolveModel] never answers "glm" with a model of a native provider
    (an anthropic/, openai/ or google/ identifier, or any model of any
    native chain); and when neither Z.ai nor OpenCode Zen nor Copilot is
    declared, the librarian role gets the ultimate fallback
    "opencode/glm-4.7-free", whatever is declared of Claude, OpenAI and
    Gemini. *)
Theorem glm_has_no_native_model :
  NATIVE_FALLBACK_CHAINS Glm = [] /\
  (forall a : ProviderAvailability,
      JS.startsWith (resolveModel Glm a) "anthropic/" = false /\
      JS.startsWith (resolveModel Glm a) "openai/" = false /\
      JS.startsWith (resolveModel Glm a) "google/" = false /\
      (forall c e, In e (NATIVE_FALLBACK_CHAINS c) ->
                   resolveModel Glm a <> entryModel e)) /\
  (forall config : InstallConfig,
      hasZaiCodingPlan config = false -> hasOpencodeZen config = false ->
      hasCopilot config = false ->
      agentModel config "librarian" = Some "opencode/glm-4.7-free").
Proof.
  split; [reflexivity|]. split.
  - intros a. rewrite (Resolution.availability_eta a).
    destruct (opencodeZen a), (copilot a), (zai a);
      (repeat split; try reflexivity;
       intros c e Hin; destruct c; cbn in Hin;
       repeat (destruct Hin as [<-|Hin]; [discriminate|]); contradiction).
  - intros config Hi Hz Hp.
    all_configs config; try discriminate; reflexivity.
Qed.

Lemma glm_has_no_native_model_witness :
  agentModel (installConfig true true true true false false false) "librarian"
  = Some "opencode/glm-4.7-free".
Proof.
  exact (proj2 (proj2 glm_has_no_native_model)
           (installConfig true true true true false false false)
           eq_refl eq_refl eq_refl).
Defined.

End Generation.

(** * Properties of property lists *)

Section PropsFacts.
Context {V : Type}.
Implicit Types (o : list (string * V)) (k : string) (v : V).

Lemma getProp_setProp_eq k v o : getProp k (setProp k v o) = Some v.
Proof.
  induction o as [|[k' v'] o IH]; simpl.
  - now rewrite String.eqb_refl.
  - destruct (String.eqb k k') eqn:E; simpl.
    + now rewrite String.eqb_refl.
    + now rewrite E.
Qed.

Lemma getProp_setProp_ne k k' v o :
  k <> k' -> getProp k' (setProp k v o) = getProp k' o.
Proof.
  intros Hne. induction o as [|[k0 v0] o IH]; simpl.
  - destruct (String.eqb_spec k' k); congruence.
  - destruct (String.eqb_spec k k0) as [->|Hk]; simpl.
    + destruct (String.eqb_spec k' k0); congruence.
    + now rewrite IH.
Qed.

Lemma getProp_None_keys k o : getProp k o = None <-> ~ In k (keys o).
Proof.
  induction o as [|[k' v'] o IH]; simpl.
  - tauto.
  - destruct (String.eqb_spec k k') as [->|Hk].
    + split; [discriminate|]. intros Hn. exfalso. apply Hn. now left.
    + rewrite IH. split.
      * intros Hn [Heq|Hin]; [congruence|tauto].
      * intros Hn Hin. apply Hn. now right.
Qed.

Lemma getProp_Some_In k v o : getProp k o = Some v -> In (k, v) o.
Proof.
  induction o as [|[k' v'] o IH]; simpl; [discriminate|].
  destruct (String.eqb_spec k k') as [->|Hk].
  - intros [= ->]. now left.
  - intros Hg. right. now apply IH.
Qed.

End PropsFacts.

(** * Properties of [deepMerge] on values *)

Module Merge.
Import JS ConfigManager.

Lemma mergeInto_cons result key sourceValue rest :
  mergeInto result (VObject ((key, sourceValue) :: rest))
  = mergeInto (mergeStep result key sourceValue) (VObject rest).
Proof. unfold mergeStep. simpl. destruct sourceValue, (getProp key result) as [[]|]; reflexivity. Qed.

Lemma mergeInto_nil result : mergeInto result (VObject []) = result.
Proof. reflexivity. Qed.

(** A turn of the loop touches the property [key] only. *)
Lemma mergeStep_other result key sourceValue k :
  key <> k -> getProp k (mergeStep result key sourceValue) = getProp k result.
Proof.
  intros Hne. unfold mergeStep.
  destruct sourceValue, (getProp key result) as [[]|];
    try reflexivity; now apply getProp_setProp_ne.
Qed.

(** What a turn of the loop leaves at [key]. *)
Lemma mergeStep_key result key sourceValue :
  getProp key (mergeStep result key sourceValue) =
  match sourceValue, getProp key result with
  | VObject sourceProps, Some (VObject targetProps) =>
      Some (VObject (deepMerge targetProps sourceProps))
  | VUndefined, targetValue => targetValue
  | _, _ => Some sourceValue
  end.
Proof.
  unfold mergeStep, deepMerge.
  destruct sourceValue, (getProp key result) as [[]|] eqn:E;
    try apply getProp_setProp_eq; try reflexivity; exact E.
Qed.

(** Properties the source does not have keep the value of the target. *)
Lemma deepMerge_frame target source k :
  getProp k source = None -> getProp k (deepMerge target source) = getProp k target.
Proof.
  unfold deepMerge. revert target.
  induction source as [|[key sv] source IH]; intros target Hk.
  - reflexivity.
  - simpl in Hk. destruct (String.eqb_spec k key) as [->|Hne]; [discriminate|].
    rewrite mergeInto_cons, IH by exact Hk.
    apply mergeStep_other. congruence.
Qed.

(** The result at a key of the source, when the keys of the source are
    distinct. *)
Lemma deepMerge_key target source k sourceValue :
  NoDup (keys source) ->
  getProp k source = Some sourceValue ->
  getProp k (deepMerge target source) =
  match sourceValue, getProp k target with
  | VObject sourceProps, Some (VObject targetProps) =>
      Some (VObject (deepMerge targetProps sourceProps))
  | VUndefined, targetValue => targetValue
  | _, _ => Some sourceValue
  end.
Proof.
  unfold deepMerge at 1. revert target.
  induction source as [|[key sv] source IH]; intros target Hnd Hk; [discriminate|].
  simpl in Hk. rewrite mergeInto_cons.
  apply NoDup_cons in Hnd as [Hnotin Hnd]. rewrite list_elem_of_In in Hnotin.
  destruct (String.eqb_spec k key) as [->|Hne].
  - injection Hk as ->.
    change (mergeInto ?r (VObject source)) with (deepMerge r source).
    rewrite deepMerge_frame by now apply getProp_None_keys.
    apply mergeStep_key.
  - rewrite IH by assumption.
    rewrite mergeStep_other by congruence. reflexivity.
Qed.

End Merge.

(** * Properties of the settings writer *)

Module Settings.
Import JS FS ConfigManager ModelFallback.

(** The keys the generator produces. *)
Lemma generated_keys (installConfig : InstallConfig) (key : string) :
  getProp key (generateOmoConfig installConfig) = None <->
  key <> "$schema" /\ key <> "agents" /\ key <> "categories".
Proof.
  unfold generateOmoConfig. cbn [getProp].
  destruct (String.eqb_spec key "$schema"), (String.eqb_spec key "agents"),
    (String.eqb_spec key "categories"); split; try discriminate; try tauto.
Qed.

Lemma writeFileSync_ok (fs : FileSystem) (path data : string) :
  path ∉ readOnly fs -> path ∉ directories fs ->
  writeFileSync fs path data =
  inr {| files := <[ path := data ]> (files fs);
         directories := directories fs;
         readOnly := readOnly fs |}.
Proof.
  intros Hro Hdir. unfold writeFileSync.
  now rewrite !bool_decide_eq_false_2 by assumption.
Qed.

Lemma nonblank_nonempty (content : string) :
  isEmptyOrWhitespace content = false -> Nat.eqb (String.length content) 0 = false.
Proof. destruct content; [discriminate|reflexivity]. Qed.

(** C6. When the settings file holds a parseable object with a top-level key
    the generator does not produce, [writeOmoConfig] succeeds and writes the
    serialization of a document that still has this key with the value it
    had (for instance [custom] with [{ x: 1 }]): the merge of the generated
    document into the existing one removes no such key.  The configuration
    directory exists and the file can be written. *)
Theorem writeOmoConfig_keeps_foreign_keys `{Shared} (paths : OpenCodeConfigPaths)
    (installConfig : InstallConfig) (fs : FileSystem) (content : string)
    (existing : list (string * value)) (key : string) (v : value) :
  existsSync fs (configDir paths) = true ->
  files fs !! omoConfig paths = Some content ->
  omoConfig paths ∉ readOnly fs ->
  omoConfig paths ∉ directories fs ->
  isEmptyOrWhitespace content = false ->
  parseJsonc content = inr (VObject existing) ->
  getProp key existing = Some v ->
  getProp key (generateOmoConfig installConfig) = None ->
  exists merged,
    writeOmoConfig paths installConfig fs
    = (written fs (omoConfig paths) merged, succeeded (omoConfig paths)) /\
    files (written fs (omoConfig paths) merged) !! omoConfig paths
    = Some (stringifyLine (VObject merged)) /\
    merged = deepMerge existing (generateOmoConfig installConfig) /\
    getProp key merged = Some v.
Proof.
  intros Hdir Hfile Hro Hnd Hblank Hparse Hkey Hgen.
  exists (deepMerge existing (generateOmoConfig installConfig)).
  split; [|split; [|split]].
  - unfold writeOmoConfig, ensureConfigDir. rewrite Hdir.
    unfold existsSync at 1. rewrite Hfile.
    unfold mergeIntoExisting, statSync, readFileSync. rewrite Hfile.
    rewrite (nonblank_nonempty _ Hblank), Hblank. cbn [orb].
    rewrite Hparse, writeFileSync_ok by assumption. reflexivity.
  - cbn. apply lookup_insert_eq.
  - reflexivity.
  - rewrite Merge.deepMerge_frame by exact Hgen. exact Hkey.
Qed.

Lemma writeOmoConfig_keeps_foreign_keys_witness :
  exists merged,
    @writeOmoConfig (tableParser [(customText, VObject customDoc)]) examplePaths
      (installConfig true false false false false false false)
      (oneFile (configDir examplePaths) (omoConfig examplePaths) customText)
    = (written (oneFile (configDir examplePaths) (omoConfig examplePaths) customText)
         (omoConfig examplePaths) merged,
       succeeded (omoConfig examplePaths)) /\
    files (written (oneFile (configDir examplePaths) (omoConfig examplePaths) customText)
             (omoConfig examplePaths) merged) !! omoConfig examplePaths
    = Some (stringifyLine (VObject merged)) /\
    merged = deepMerge customDoc
               (generateOmoConfig (installConfig true false false false false false false)) /\
    getProp "custom" merged = Some (VObject [("x", VNumber 1)]).
Proof.
  apply (@writeOmoConfig_keeps_foreign_keys (tableParser [(customText, VObject customDoc)])
           examplePaths (installConfig true false false false false false false)
           (oneFile (configDir examplePaths) (omoConfig examplePaths) customText)
           customText customDoc "custom" (VObject [("x", VNumber 1)]));
    try (vm_compute; reflexivity).
  - cbn. apply not_elem_of_empty.
  - cbn. rewrite elem_of_singleton. discriminate.
Defined.

(** Without a settings file the generated document is written as it is. *)
Lemma writeOmoConfig_absent `{Shared} (paths : OpenCodeConfigPaths)
    (installConfig : InstallConfig) (fs : FileSystem) :
  existsSync fs (configDir paths) = true ->
  existsSync fs (omoConfig paths) = false ->
  omoConfig paths ∉ readOnly fs ->
  writeOmoConfig paths installConfig fs
  = (written fs (omoConfig paths) (generateOmoConfig installConfig),
     succeeded (omoConfig paths)).
Proof.
  intros Hdir Habsent Hro.
  unfold writeOmoConfig, ensureConfigDir. rewrite Hdir, Habsent.
  rewrite writeFileSync_ok; [reflexivity|exact Hro|].
  unfold existsSync in Habsent. destruct (files fs !! omoConfig paths); [discriminate|].
  now apply bool_decide_eq_false in Habsent.
Qed.

(** C8. When the settings file exists and is zero-byte, holds white space
    only, cannot be parsed (the parser throws a [SyntaxError]) or parses to
    a value that is not an object, [writeOmoConfig] does not fail: it
    overwrites the file with the serialization of the freshly generated
    document, as it does for an absent file, and returns success.  The
    configuration directory exists and the file can be written. *)
Theorem writeOmoConfig_starts_fresh `{Shared} (paths : OpenCodeConfigPaths)
    (installConfig : InstallConfig) (fs : FileSystem) (content : string) :
  existsSync fs (configDir paths) = true ->
  files fs !! omoConfig paths = Some content ->
  omoConfig paths ∉ readOnly fs ->
  omoConfig paths ∉ directories fs ->
  (String.length content = 0
   \/ isEmptyOrWhitespace content = true
   \/ (exists message, parseJsonc content = inl (SyntaxError message))
   \/ (exists v, parseJsonc content = inr v /\ forall props, v <> VObject props)) ->
  writeOmoConfig paths installConfig fs
  = (written fs (omoConfig paths) (generateOmoConfig installConfig),
     succeeded (omoConfig paths)).
Proof.
  intros Hdir Hfile Hro Hnd Hcase.
  unfold writeOmoConfig, ensureConfigDir. rewrite Hdir.
  unfold existsSync at 1. rewrite Hfile.
  unfold mergeIntoExisting, statSync, readFileSync. rewrite Hfile.
  destruct (Nat.eqb (String.length content) 0 || isEmptyOrWhitespace content) eqn:Hblank.
  { rewrite writeFileSync_ok by assumption. reflexivity. }
  apply orb_false_iff in Hblank as [Hsize Hws].
  destruct Hcase as [Hzero|[Hwhite|[[message Hthrow]|[v [Hparse Hshape]]]]].
  - rewrite Hzero in Hsize. discriminate.
  - congruence.
  - rewrite Hthrow, writeFileSync_ok by assumption. reflexivity.
  - rewrite Hparse.
    destruct v; try (rewrite writeFileSync_ok by assumption; reflexivity).
    now elim (Hshape props).
Qed.

Lemma writeOmoConfig_starts_fresh_witness :
  @writeOmoConfig (tableParser []) examplePaths
    (installConfig true true false false false false false)
    (oneFile (configDir examplePaths) (omoConfig examplePaths) ("   " +:+ newline))
  = (written (oneFile (configDir examplePaths) (omoConfig examplePaths) ("   " +:+ newline))
       (omoConfig examplePaths)
       (generateOmoConfig (installConfig true true false false false false false)),
     succeeded (omoConfig examplePaths)).
Proof.
  apply (@writeOmoConfig_starts_fresh (tableParser []) examplePaths
           (installConfig true true false false false false false)
           (oneFile (configDir examplePaths) (omoConfig examplePaths) ("   " +:+ newline))
           ("   " +:+ newline)).
  - vm_compute; reflexivity.
  - vm_compute; reflexivity.
  - cbn. apply not_elem_of_empty.
  - cbn. rewrite elem_of_singleton. discriminate.
  - right. left. vm_compute; reflexivity.
Defined.

End Settings.

(** * Properties of the text functions *)

Module Text.
Import JS.

Lemma sapp_cons (x : ascii) (a b : string) : String x a +:+ b = String x (a +:+ b).
Proof. reflexivity. Qed.

Lemma sapp_nil (b : string) : EmptyString +:+ b = b.
Proof. reflexivity. Qed.

Lemma sapp_assoc (a b c : string) : (a +:+ b) +:+ c = a +:+ (b +:+ c).
Proof.
  induction a as [|x a IH]; [reflexivity|].
  rewrite !sapp_cons. now f_equal.
Qed.

Lemma take_drop_bytes (n : nat) (s : string) : takeBytes n s +:+ dropBytes n s = s.
Proof.
  revert s. induction n as [|n IH]; intros [|c s]; try reflexivity.
  cbn [takeBytes dropBytes]. rewrite sapp_cons. now f_equal.
Qed.

(** The two parts [spanWs] returns make up the text. *)
Lemma spanWsFuel_split (fuel : nat) (s w r : string) :
  spanWsFuel fuel s = (w, r) -> s = w +:+ r.
Proof.
  revert s w r. induction fuel as [|fuel IH]; intros s w r; cbn [spanWsFuel].
  - now intros [= <- <-].
  - destruct (wsLen s) as [|n] eqn:E; [now intros [= <- <-]|].
    destruct (spanWsFuel fuel (dropBytes (S n) s)) as [w' r'] eqn:Erec.
    intros [= <- <-]. rewrite sapp_assoc, <- (IH _ _ _ Erec).
    symmetry. exact (take_drop_bytes (S n) s).
Qed.

Lemma spanWs_split (s w r : string) : spanWs s = (w, r) -> s = w +:+ r.
Proof. apply spanWsFuel_split. Qed.

Lemma hasByte_app (n : nat) (a b : string) :
  hasByte n (a +:+ b) = hasByte n a || hasByte n b.
Proof.
  induction a as [|x a IH]; [reflexivity|].
  rewrite sapp_cons. cbn [hasByte]. now rewrite IH, orb_assoc.
Qed.

(** A template without a dollar sign is inserted as it is. *)
Lemma getSubstitution_plain (m : RegExpMatch) (template : string) :
  hasByte 36 template = false -> getSubstitution m template = template.
Proof.
  induction template as [|c template IH]; simpl; [reflexivity|].
  intros [Hc Hrest]%orb_false_iff. rewrite Hc. now rewrite IH.
Qed.

Lemma getSubstitution_group1 (m : RegExpMatch) (template : string) :
  getSubstitution m ("$1" +:+ template) = group1 m +:+ getSubstitution m template.
Proof. reflexivity. Qed.

Lemma prefix_app (p s : string) : String.prefix p (p +:+ s) = true.
Proof.
  induction p as [|a p IH].
  - destruct s; reflexivity.
  - rewrite sapp_cons. cbn [String.prefix].
    destruct (ascii_dec a a) as [_|Hne]; [exact IH|now elim Hne].
Qed.

Lemma wsLen_brace (rest : string) : wsLen (String "{" rest) = 0.
Proof. destruct rest as [|c2 [|c3 rest]]; reflexivity. Qed.

(** A text that starts with a brace is not blank. *)
Lemma trim_brace (rest : string) : exists rest', trim (String "{" rest) = String "{" rest'.
Proof.
  assert (Hstart : trimStart (String "{" rest) = String "{" rest).
  { unfold trimStart, spanWs. cbn [String.length spanWsFuel]. now rewrite wsLen_brace. }
  unfold trim. rewrite Hstart. cbn [trimEnd]. rewrite Hstart. cbn. eauto.
Qed.

(** The serialization of an object starts with a brace. *)
Lemma stringifyLine_object (doc : list (string * value)) :
  exists rest, stringifyLine (VObject doc) = String "{" rest.
Proof.
  unfold stringifyLine, JSON_stringify. cbn [serializeJSON].
  match goal with |- context [match ?partial with [] => _ | _ :: _ => _ end] =>
    destruct partial end; eexists; reflexivity.
Qed.

End Text.

(** * Properties of the plugin registry editor *)

Module PluginRegistry.
Import JS FS ConfigManager.

Lemma existsSync_file (fs : FileSystem) (path content : string) :
  files fs !! path = Some content -> existsSync fs path = true.
Proof. unfold existsSync. now intros ->. Qed.

Lemma parseConfigWithError_object `{Shared} (fs : FileSystem) (path content : string)
    (config : list (string * value)) :
  files fs !! path = Some content ->
  isEmptyOrWhitespace content = false ->
  parseJsonc content = inr (VObject config) ->
  parseConfigWithError fs path = {| config := Some config; parseError := None |}.
Proof.
  intros Hfile Hblank Hparse.
  unfold parseConfigWithError, statSync, readFileSync. rewrite Hfile.
  now rewrite (Settings.nonblank_nonempty _ Hblank), Hblank, Hparse.
Qed.

Lemma writePlugins_jsonc (fs : FileSystem) (path content pluginEntry : string)
    (config : list (string * value)) (plugins : list value) :
  files fs !! path = Some content ->
  path ∉ readOnly fs -> path ∉ directories fs ->
  writePlugins Jsonc path config plugins pluginEntry fs
  = inr (withFile fs path (patchJsonc content plugins pluginEntry)).
Proof.
  intros Hfile Hro Hnd. unfold writePlugins, readFileSync. rewrite Hfile.
  now rewrite Settings.writeFileSync_ok.
Qed.

(** What [addPluginToOpenCodeConfig] does to a commented configuration that
    parses to an object with a plugin list: nothing when the first entry of
    the package is the wanted one, else it patches the text of the file. *)
Lemma addPlugin_jsonc_run `{Shared} (paths : OpenCodeConfigPaths)
    (distTags : option (list (string * value))) (currentVersion : string)
    (fs : FileSystem) (content : string) (config : list (string * value))
    (plugins : list value) :
  existsSync fs (configDir paths) = true ->
  files fs !! configJsonc paths = Some content ->
  configJsonc paths ∉ readOnly fs ->
  configJsonc paths ∉ directories fs ->
  isEmptyOrWhitespace content = false ->
  parseJsonc content = inr (VObject config) ->
  pluginsOf config = VArray plugins ->
  addPluginToOpenCodeConfig paths distTags currentVersion fs =
  let pluginEntry := getPluginNameWithVersion distTags currentVersion in
  let path := configJsonc paths in
  match findIndex plugins 0 with
  | inl err => (fs, failed path (formatErrorWithSuggestion err "update opencode config"))
  | inr (Some existingIndex) =>
      if entryIs plugins existingIndex pluginEntry then (fs, succeeded path)
      else (withFile fs path
              (patchJsonc content (<[ existingIndex := VString pluginEntry ]> plugins)
                          pluginEntry),
            succeeded path)
  | inr None =>
      (withFile fs path (patchJsonc content (plugins ++ [VString pluginEntry]) pluginEntry),
       succeeded path)
  end.
Proof.
  intros Hdir Hfile Hro Hnd Hblank Hparse Hplugins.
  unfold addPluginToOpenCodeConfig, ensureConfigDir. rewrite Hdir.
  unfold detectConfigFormat. rewrite (existsSync_file _ _ _ Hfile).
  unfold addPluginBody.
  rewrite (parseConfigWithError_object _ _ _ _ Hfile Hblank Hparse). cbn [ConfigManager.config].
  rewrite Hplugins. cbn zeta.
  destruct (findIndex plugins 0) as [err|[i|]]; [reflexivity| |].
  - destruct (entryIs plugins i _); [reflexivity|].
    now rewrite (writePlugins_jsonc _ _ content) by assumption.
  - now rewrite (writePlugins_jsonc _ _ content) by assumption.
Qed.

Lemma writePlugins_json (fs : FileSystem) (path pluginEntry : string)
    (config : list (string * value)) (plugins : list value) :
  path ∉ readOnly fs -> path ∉ directories fs ->
  writePlugins Json path config plugins pluginEntry fs
  = inr (withFile fs path
           (stringifyLine (VObject (setProp "plugin" (VArray plugins) config)))).
Proof. intros Hro Hnd. unfold writePlugins. now rewrite Settings.writeFileSync_ok. Qed.

(** What [addPluginToOpenCodeConfig] does to a plain configuration that
    parses to an object with a plugin list. *)
Lemma addPlugin_json_run `{Shared} (paths : OpenCodeConfigPaths)
    (distTags : option (list (string * value))) (currentVersion : string)
    (fs : FileSystem) (content : string) (config : list (string * value))
    (plugins : list value) :
  existsSync fs (configDir paths) = true ->
  existsSync fs (configJsonc paths) = false ->
  files fs !! configJson paths = Some content ->
  configJson paths ∉ readOnly fs ->
  configJson paths ∉ directories fs ->
  isEmptyOrWhitespace content = false ->
  parseJsonc content = inr (VObject config) ->
  pluginsOf config = VArray plugins ->
  addPluginToOpenCodeConfig paths distTags currentVersion fs =
  let pluginEntry := getPluginNameWithVersion distTags currentVersion in
  let path := configJson paths in
  match findIndex plugins 0 with
  | inl err => (fs, failed path (formatErrorWithSuggestion err "update opencode config"))
  | inr (Some existingIndex) =>
      if entryIs plugins existingIndex pluginEntry then (fs, succeeded path)
      else (withFile fs path
              (stringifyLine
                 (VObject (setProp "plugin"
                             (VArray (editedPlugins plugins (Some existingIndex) pluginEntry))
                             config))),
            succeeded path)
  | inr None =>
      (withFile fs path
         (stringifyLine
            (VObject (setProp "plugin" (VArray (editedPlugins plugins None pluginEntry))
                              config))),
       succeeded path)
  end.
Proof.
  intros Hdir Hnojsonc Hfile Hro Hnd Hblank Hparse Hplugins.
  unfold addPluginToOpenCodeConfig, ensureConfigDir. rewrite Hdir.
  unfold detectConfigFormat. rewrite Hnojsonc, (existsSync_file _ _ _ Hfile).
  unfold addPluginBody.
  rewrite (parseConfigWithError_object _ _ _ _ Hfile Hblank Hparse). cbn [ConfigManager.config].
  rewrite Hplugins. cbn zeta.
  destruct (findIndex plugins 0) as [err|[i|]]; [reflexivity| |].
  - destruct (entryIs plugins i _); [reflexivity|].
    now rewrite writePlugins_json by assumption.
  - now rewrite writePlugins_json by assumption.
Qed.

Lemma startsWith_package (s : string) :
  startsWith (PACKAGE_NAME +:+ "@" +:+ s) (PACKAGE_NAME +:+ "@") = true.
Proof. rewrite <- Text.sapp_assoc. apply Text.prefix_app. Qed.

Lemma own_pluginEntry (distTags : option (list (string * value))) (currentVersion : string) :
  isOwnPlugin (VString (getPluginNameWithVersion distTags currentVersion)) = inr true.
Proof.
  unfold getPluginNameWithVersion, isOwnPlugin.
  destruct distTags as [tags|]; [destruct (find _ _)|];
    rewrite startsWith_package; f_equal; apply orb_true_r.
Qed.

Lemma findIndex_ge (plugins : list value) (n k : nat) :
  findIndex plugins n = inr (Some k) -> n <= k.
Proof.
  revert n. induction plugins as [|p plugins IH]; intros n; cbn [findIndex]; [discriminate|].
  destruct (isOwnPlugin p) as [err|[|]]; [discriminate| |].
  - intros [= <-]. lia.
  - intros Hrest. apply IH in Hrest. lia.
Qed.

(** In the edited list the first entry of the package is the wanted one. *)
Lemma findIndex_edited (pluginEntry : string) (plugins : list value) (n : nat)
    (found : option nat) :
  isOwnPlugin (VString pluginEntry) = inr true ->
  findIndex plugins n = inr found ->
  exists j,
    findIndex (editedPlugins plugins (option_map (fun i => i - n) found) pluginEntry) n
    = inr (Some (n + j)) /\
    editedPlugins plugins (option_map (fun i => i - n) found) pluginEntry !! j
    = Some (VString pluginEntry).
Proof.
  intros Hown.
  assert (Hhead : forall rest m,
            findIndex (VString pluginEntry :: rest) m = inr (Some m)).
  { intros rest m. cbn [findIndex]. now rewrite Hown. }
  revert n found.
  induction plugins as [|p plugins IH]; intros n found; cbn [findIndex].
  - intros [= <-]. exists 0. cbn [option_map editedPlugins app].
    rewrite Hhead, Nat.add_0_r. split; reflexivity.
  - destruct (isOwnPlugin p) as [err|[|]] eqn:Ep; [discriminate| |].
    + intros [= <-]. exists 0. cbn [option_map editedPlugins]. rewrite Nat.sub_diag.
      change (<[0:=VString pluginEntry]> (p :: plugins))
        with (VString pluginEntry :: plugins).
      rewrite Hhead, Nat.add_0_r. split; reflexivity.
    + intros Hrest. destruct (IH (S n) found Hrest) as (j & Hfind & Hat).
      exists (S j). destruct found as [i|]; cbn [option_map editedPlugins] in *.
      * apply findIndex_ge in Hrest.
        replace (i - n) with (S (i - S n)) by lia.
        change (<[S (i - S n):=VString pluginEntry]> (p :: plugins))
          with (p :: <[i - S n:=VString pluginEntry]> plugins).
        cbn [findIndex]. rewrite Ep. split; [|exact Hat].
        rewrite Hfind. f_equal. f_equal. lia.
      * change ((p :: plugins) ++ [VString pluginEntry])
          with (p :: (plugins ++ [VString pluginEntry])).
        cbn [findIndex]. rewrite Ep. split; [|exact Hat].
        rewrite Hfind. f_equal. f_equal. lia.
Qed.

Lemma existsSync_withFile (fs : FileSystem) (path data q : string) :
  existsSync (withFile fs path data) q
  = if String.eqb q path then true else existsSync fs q.
Proof.
  unfold existsSync. cbn [files directories withFile].
  destruct (String.eqb_spec q path) as [->|Hne].
  - now rewrite lookup_insert_eq.
  - now rewrite lookup_insert_ne by congruence.
Qed.

Lemma stringifyLine_nonblank (doc : list (string * value)) :
  isEmptyOrWhitespace (stringifyLine (VObject doc)) = false.
Proof.
  destruct (Text.stringifyLine_object doc) as [rest ->].
  unfold isEmptyOrWhitespace. now destruct (Text.trim_brace rest) as [rest' ->].
Qed.

(** X19. On the plain format the editor is idempotent: when the parser reads
    back the document the first call serialized, a second call with the same
    arguments returns the same result and leaves the file system as the
    first call left it. *)
Lemma addPlugin_json_idempotent `{Shared} (paths : OpenCodeConfigPaths)
    (distTags : option (list (string * value))) (currentVersion : string)
    (fs : FileSystem) (content : string) (config : list (string * value))
    (plugins : list value) (found : option nat) :
  existsSync fs (configDir paths) = true ->
  existsSync fs (configJsonc paths) = false ->
  files fs !! configJson paths = Some content ->
  configJson paths ∉ readOnly fs ->
  configJson paths ∉ directories fs ->
  isEmptyOrWhitespace content = false ->
  parseJsonc content = inr (VObject config) ->
  pluginsOf config = VArray plugins ->
  findIndex plugins 0 = inr found ->
  parseJsonc
    (stringifyLine
       (VObject (setProp "plugin"
                   (VArray (editedPlugins plugins found
                              (getPluginNameWithVersion distTags currentVersion)))
                   config)))
  = inr (VObject (setProp "plugin"
                    (VArray (editedPlugins plugins found
                               (getPluginNameWithVersion distTags currentVersion)))
                    config)) ->
  snd (addPluginToOpenCodeConfig paths distTags currentVersion fs)
  = succeeded (configJson paths) /\
  addPluginToOpenCodeConfig paths distTags currentVersion
    (fst (addPluginToOpenCodeConfig paths distTags currentVersion fs))
  = addPluginToOpenCodeConfig paths distTags currentVersion fs.
Proof.
  intros Hdir Hnojsonc Hfile Hro Hnd Hblank Hparse Hplugins Hfind Hround.
  set (pluginEntry := getPluginNameWithVersion distTags currentVersion) in *.
  set (edited := editedPlugins plugins found pluginEntry) in *.
  pose proof (addPlugin_json_run paths distTags currentVersion fs content config plugins
                Hdir Hnojsonc Hfile Hro Hnd Hblank Hparse Hplugins) as Hfirst.
  cbn zeta in Hfirst. rewrite Hfind in Hfirst. fold pluginEntry in Hfirst.
  assert (Hsecond :
    addPluginToOpenCodeConfig paths distTags currentVersion
      (withFile fs (configJson paths)
         (stringifyLine (VObject (setProp "plugin" (VArray edited) config))))
    = (withFile fs (configJson paths)
         (stringifyLine (VObject (setProp "plugin" (VArray edited) config))),
       succeeded (configJson paths))).
  { assert (Hne : configJsonc paths <> configJson paths).
    { intros Heq. rewrite Heq, (existsSync_file _ _ _ Hfile) in Hnojsonc. discriminate. }
    rewrite (addPlugin_json_run paths distTags currentVersion _
               (stringifyLine (VObject (setProp "plugin" (VArray edited) config)))
               (setProp "plugin" (VArray edited) config) edited).
    - destruct (findIndex_edited pluginEntry plugins 0 found
                  (own_pluginEntry distTags currentVersion) Hfind) as (j & Hj & Hat).
      assert (Hsame : option_map (fun i => i - 0) found = found).
      { destruct found; cbn; [now rewrite Nat.sub_0_r|reflexivity]. }
      rewrite Hsame in Hj, Hat. fold edited in Hj, Hat.
      cbn zeta. rewrite Hj. unfold entryIs. cbn [Nat.add]. rewrite Hat.
      fold pluginEntry. now rewrite String.eqb_refl.
    - rewrite existsSync_withFile, Hdir. now destruct (String.eqb _ _).
    - rewrite existsSync_withFile, Hnojsonc.
      now destruct (String.eqb_spec (configJsonc paths) (configJson paths)).
    - cbn. apply lookup_insert_eq.
    - exact Hro.
    - exact Hnd.
    - apply stringifyLine_nonblank.
    - exact Hround.
    - unfold pluginsOf. now rewrite getProp_setProp_eq. }
  destruct found as [i|].
  - destruct (entryIs plugins i pluginEntry) eqn:Eis.
    + rewrite Hfirst. cbn [fst snd]. split; [reflexivity|exact Hfirst].
    + rewrite Hfirst. cbn [fst snd]. split; [reflexivity|]. exact Hsecond.
  - rewrite Hfirst. cbn [fst snd]. split; [reflexivity|]. exact Hsecond.
Qed.

(** C7 (the code at an input where it departs from the claim).  The
    commented configuration [shadowedText] mentions an empty plugin list in
    a block comment and then lists oh-my-opencode@1.0.0.  Run for version
    2.0.0 without a matching distribution tag, [addPluginToOpenCodeConfig]
    reports success and leaves [shadowedTextAfter] in the file: the new
    entry is inside the comment, the list in use still holds
    oh-my-opencode@1.0.0. *)
Theorem addPlugin_jsonc_patches_first_textual_match `{Shared} (paths : OpenCodeConfigPaths)
    (fs : FileSystem) :
  existsSync fs (configDir paths) = true ->
  files fs !! configJsonc paths = Some shadowedText ->
  configJsonc paths ∉ readOnly fs ->
  configJsonc paths ∉ directories fs ->
  parseJsonc shadowedText = inr (VObject shadowedConfig) ->
  addPluginToOpenCodeConfig paths None "2.0.0" fs
  = (withFile fs (configJsonc paths) shadowedTextAfter, succeeded (configJsonc paths)).
Proof.
  intros Hdir Hfile Hro Hnd Hparse.
  rewrite (addPlugin_jsonc_run paths None "2.0.0" fs shadowedText shadowedConfig
             [VString "oh-my-opencode@1.0.0"]); try assumption; reflexivity.
Qed.

Lemma addPlugin_jsonc_patches_first_textual_match_witness :
  @addPluginToOpenCodeConfig (tableParser [(shadowedText, VObject shadowedConfig)])
    examplePaths None "2.0.0"
    (oneFile (configDir examplePaths) (configJsonc examplePaths) shadowedText)
  = (withFile (oneFile (configDir examplePaths) (configJsonc examplePaths) shadowedText)
       (configJsonc examplePaths) shadowedTextAfter,
     succeeded (configJsonc examplePaths)).
Proof.
  apply (@addPlugin_jsonc_patches_first_textual_match
           (tableParser [(shadowedText, VObject shadowedConfig)]) examplePaths
           (oneFile (configDir examplePaths) (configJsonc examplePaths) shadowedText));
    try (vm_compute; reflexivity).
  - cbn. apply not_elem_of_empty.
  - cbn. rewrite elem_of_singleton. discriminate.
Defined.

(** The fallback of the commented format on a text that starts, after
    white space only, with the opening brace: the entry is put right behind
    the brace and the rest of the text is kept.  The entry has no dollar
    sign, which a replacement template would expand. *)
Lemma patchJsonc_inserts_behind_brace (content w rest pluginEntry : string)
    (plugins : list value) :
  pluginArrayRegex content = None ->
  spanWs content = (w, "{" +:+ rest) ->
  hasByte 36 pluginEntry = false ->
  content = w +:+ "{" +:+ rest /\
  patchJsonc content plugins pluginEntry
  = w +:+ "{" +:+ newline +:+ "  " +:+ dquote +:+ "plugin" +:+ dquote +:+ ": ["
      +:+ dquote +:+ pluginEntry +:+ dquote +:+ "]," +:+ rest.
Proof.
  intros Hnone Hspan Hplain. split; [now apply Text.spanWs_split|].
  unfold patchJsonc, replace, openingBraceRegex. rewrite Hnone, Hspan.
  change ("{" +:+ rest) with (String "{" rest). cbn match.
  change (isByte 123 "{") with true. cbv iota.
  cbn [before after group1].
  rewrite Text.getSubstitution_group1. cbn [group1].
  rewrite Text.getSubstitution_plain.
  - rewrite Text.sapp_nil, !Text.sapp_assoc. reflexivity.
  - rewrite !Text.hasByte_app, Hplain. reflexivity.
Qed.

(** C9 (the code at an input where it departs from the claim).  The
    commented configuration [leadingCommentText] opens with a comment line
    and has no plugin list.  [addPluginToOpenCodeConfig] reports success and
    writes the text back as it was: no plugin entry is inserted behind the
    opening brace. *)
Theorem addPlugin_jsonc_leading_comment_inserts_nothing `{Shared}
    (paths : OpenCodeConfigPaths) (distTags : option (list (string * value)))
    (currentVersion : string) (fs : FileSystem) :
  existsSync fs (configDir paths) = true ->
  files fs !! configJsonc paths = Some leadingCommentText ->
  configJsonc paths ∉ readOnly fs ->
  configJsonc paths ∉ directories fs ->
  parseJsonc leadingCommentText = inr (VObject []) ->
  addPluginToOpenCodeConfig paths distTags currentVersion fs
  = (withFile fs (configJsonc paths) leadingCommentText, succeeded (configJsonc paths)).
Proof.
  intros Hdir Hfile Hro Hnd Hparse.
  rewrite (addPlugin_jsonc_run paths distTags currentVersion fs leadingCommentText [] []);
    try assumption; reflexivity.
Qed.

Lemma addPlugin_jsonc_leading_comment_inserts_nothing_witness :
  @addPluginToOpenCodeConfig (tableParser [(leadingCommentText, VObject [])])
    examplePaths None "3.0.0"
    (oneFile (configDir examplePaths) (configJsonc examplePaths) leadingCommentText)
  = (withFile (oneFile (configDir examplePaths) (configJsonc examplePaths) leadingCommentText)
       (configJsonc examplePaths) leadingCommentText,
     succeeded (configJsonc examplePaths)).
Proof.
  apply (@addPlugin_jsonc_leading_comment_inserts_nothing
           (tableParser [(leadingCommentText, VObject [])]) examplePaths None "3.0.0"
           (oneFile (configDir examplePaths) (configJsonc examplePaths) leadingCommentText));
    try (vm_compute; reflexivity).
  - cbn. apply not_elem_of_empty.
  - cbn. rewrite elem_of_singleton. discriminate.
Defined.

End PluginRegistry.

(** * Properties of [deepMerge] on the store *)

Module StoreFacts.
Import JS Store.

Lemma represents_object A h props hv :
  represents A h (VObject props) hv <->
  exists l hprops, hv = HRef l /\ A l /\ h !! l = Some (CObject hprops) /\
                   representsProps A h props hprops.
Proof.
  assert (Hfix : forall ps hps,
    (fix all (ps : list (string * value)) (hps : list (string * hvalue)) {struct ps}
       : Prop :=
       match ps, hps with
       | [], [] => True
       | (k, x) :: ps', (hk, hx) :: hps' => k = hk /\ represents A h x hx /\ all ps' hps'
       | _, _ => False
       end) ps hps <-> representsProps A h ps hps).
  { induction ps as [|[k x] ps IH]; intros [|[hk hx] hps]; simpl; try tauto.
    rewrite IH. tauto. }
  simpl. split; intros (l & hprops & Hv & Hl & Hcell & Hps);
    exists l, hprops; repeat split; auto; now apply Hfix.
Qed.

Lemma represents_array A h items hv :
  represents A h (VArray items) hv <->
  exists l hitems, hv = HRef l /\ A l /\ h !! l = Some (CArray hitems) /\
                   representsItems A h items hitems.
Proof.
  assert (Hfix : forall vs hvs,
    (fix all (vs : list value) (hvs : list hvalue) {struct vs} : Prop :=
       match vs, hvs with
       | [], [] => True
       | x :: vs', hx :: hvs' => represents A h x hx /\ all vs' hvs'
       | _, _ => False
       end) vs hvs <-> representsItems A h vs hvs).
  { induction vs as [|x vs IH]; intros [|hx hvs]; simpl; try tauto.
    rewrite IH. tauto. }
  simpl. split; intros (l & hitems & Hv & Hl & Hcell & Hvs);
    exists l, hitems; repeat split; auto; now apply Hfix.
Qed.

(** A representation survives every change of the store that keeps the cells
    of the references it follows. *)
Lemma represents_agree (A A' : loc -> Prop) (h h' : heap) :
  (forall l, A l -> A' l /\ h' !! l = h !! l) ->
  forall v hv, represents A h v hv -> represents A' h' v hv.
Proof.
  intros Hagree v. induction v as [| | | | |items IH|props IH] using value_nested_ind;
    intros hv; try (simpl; tauto).
  - rewrite !represents_array. intros (l & hitems & -> & Hl & Hcell & Hitems).
    exists l, hitems. destruct (Hagree l Hl) as [HA' Heq].
    repeat split; [exact HA'|congruence|].
    clear Hcell. revert hitems Hitems.
    induction IH as [|x items Hx _ IHitems]; intros [|hx hitems]; simpl; try tauto.
    intros [Hr Hrest]. split; [now apply Hx|now apply IHitems].
  - rewrite !represents_object. intros (l & hprops & -> & Hl & Hcell & Hprops).
    exists l, hprops. destruct (Hagree l Hl) as [HA' Heq].
    repeat split; [exact HA'|congruence|].
    clear Hcell. revert hprops Hprops.
    induction IH as [|[k x] props Hx _ IHprops]; intros [|[hk hx] hprops]; simpl; try tauto.
    intros (Hk & Hr & Hrest). repeat split; [exact Hk|now apply Hx|now apply IHprops].
Qed.

Lemma representsProps_agree (A A' : loc -> Prop) (h h' : heap) :
  (forall l, A l -> A' l /\ h' !! l = h !! l) ->
  forall ps hps, representsProps A h ps hps -> representsProps A' h' ps hps.
Proof.
  intros Hagree ps. induction ps as [|[k x] ps IH]; intros [|[hk hx] hps]; simpl; try tauto.
  intros (Hk & Hr & Hrest). repeat split; [exact Hk| |now apply IH].
  now apply (represents_agree A A' h h' Hagree).
Qed.

(** The references a representation follows are cells of the store. *)
Lemma represents_bound (A : loc -> Prop) (h : heap) :
  forall v hv, represents A h v hv ->
               represents (fun l => A l /\ l < length h) h v hv.
Proof.
  intros v. induction v as [| | | | |items IH|props IH] using value_nested_ind;
    intros hv; try (simpl; tauto).
  - rewrite !represents_array. intros (l & hitems & -> & Hl & Hcell & Hitems).
    exists l, hitems. repeat split; try assumption.
    { now apply lookup_lt_Some in Hcell. }
    clear Hcell. revert hitems Hitems.
    induction IH as [|x items Hx _ IHitems]; intros [|hx hitems]; simpl; try tauto.
    intros [Hr Hrest]. split; [now apply Hx|now apply IHitems].
  - rewrite !represents_object. intros (l & hprops & -> & Hl & Hcell & Hprops).
    exists l, hprops. repeat split; try assumption.
    { now apply lookup_lt_Some in Hcell. }
    clear Hcell. revert hprops Hprops.
    induction IH as [|[k x] props Hx _ IHprops]; intros [|[hk hx] hprops]; simpl; try tauto.
    intros (Hk & Hr & Hrest). repeat split; [exact Hk|now apply Hx|now apply IHprops].
Qed.

Lemma representsProps_getProp A h ps hps k :
  representsProps A h ps hps ->
  match getProp k ps, getProp k hps with
  | Some v, Some hv => represents A h v hv
  | None, None => True
  | _, _ => False
  end.
Proof.
  revert hps. induction ps as [|[k' x] ps IH]; intros [|[hk hx] hps]; simpl; try tauto.
  intros (<- & Hx & Hrest). destruct (String.eqb k k'); [exact Hx|now apply IH].
Qed.

Lemma representsProps_setProp A h ps hps k v hv :
  representsProps A h ps hps -> represents A h v hv ->
  representsProps A h (setProp k v ps) (setProp k hv hps).
Proof.
  intros Hps Hv. revert hps Hps.
  induction ps as [|[k' x] ps IH]; intros [|[hk hx] hps]; simpl; try tauto.
  intros (<- & Hx & Hrest). destruct (String.eqb k k'); simpl; auto.
Qed.

(** The test for a plain object, read on the tree. *)
Lemma plainObject_represents A h v hv :
  represents A h v hv ->
  plainObject h hv =
  match v, hv with
  | VObject _, HRef l => Some l
  | _, _ => None
  end.
Proof.
  destruct v; try (simpl; intros ->; reflexivity).
  - rewrite represents_array. intros (l & hitems & -> & _ & Hcell & _).
    simpl. now rewrite Hcell.
  - rewrite represents_object. intros (l & hprops & -> & _ & Hcell & _).
    simpl. now rewrite Hcell.
Qed.

(** The loop of [deepMerge] on the store computes the loop on trees, writes
    to the result object only, and otherwise only allocates. *)
Lemma mergeLoop_correct (fuel : nat) (IH : mergesCorrectly fuel) :
  forall (es : list (string * value)) (A : loc -> Prop) (hc : heap) (s r : loc)
         (sp : list (string * value)) (hsp : list (string * hvalue))
         (cur : list (string * value)) (hcur : list (string * hvalue)),
    (forall l, A l -> l < length hc) -> r < length hc -> ~ A r -> s <> r ->
    hc !! s = Some (CObject hsp) -> representsProps A hc sp hsp ->
    hc !! r = Some (CObject hcur) -> representsProps A hc cur hcur ->
    (forall k v, In (k, v) es ->
       getProp k sp = Some v /\ depth v <= fuel /\ distinctKeys v = true) ->
    exists h' hres,
      mergeLoop (deepMerge fuel) s r (keys es) hc = Some h' /\
      length hc <= length h' /\
      (forall l, l < length hc -> l <> r -> h' !! l = hc !! l) /\
      h' !! r = Some (CObject hres) /\
      representsProps (fun l => A l \/ length hc <= l < length h') h'
        (ConfigManager.mergeInto cur (VObject es)) hres.
Proof.
  induction es as [|[k v] es IHes];
    intros A hc s r sp hsp cur hcur HA Hr HnA Hsr Hs Hsp Hres Hcur Hes.
  - exists hc, hcur. simpl. repeat split; auto.
    apply (representsProps_agree A _ hc hc); [|exact Hcur]. intros l Hl; split; auto.
  - destruct (Hes k v (or_introl eq_refl)) as (Hget & Hdepth & Hdk).
    assert (Hrest : forall k' v', In (k', v') es ->
              getProp k' sp = Some v' /\ depth v' <= fuel /\ distinctKeys v' = true).
    { intros k' v' Hin. apply Hes. now right. }
    pose proof (representsProps_getProp A hc sp hsp k Hsp) as Hsv. rewrite Hget in Hsv.
    destruct (getProp k hsp) as [hv|] eqn:Ehv; [|contradiction].
    pose proof (representsProps_getProp A hc cur hcur k Hcur) as Htv.
    rewrite Merge.mergeInto_cons.
    change (keys ((k, v) :: es)) with (k :: keys es). cbn [mergeLoop].
    unfold readProp. rewrite Hs, Hres, Ehv. cbn [from_option id]. cbv zeta.
    rewrite (plainObject_represents A hc v hv Hsv).
    (* the rest of the loop after the assignment [result[key] = sourceValue] *)
    assert (Hwrite : forall v' hv', represents A hc v' hv' ->
      exists h' hres,
        mergeLoop (deepMerge fuel) s r (keys es) (writeProp hc r k hv') = Some h' /\
        length hc <= length h' /\
        (forall l, l < length hc -> l <> r -> h' !! l = hc !! l) /\
        h' !! r = Some (CObject hres) /\
        representsProps (fun l => A l \/ length hc <= l < length h') h'
          (ConfigManager.mergeInto (setProp k v' cur) (VObject es)) hres).
    { intros v' hv' Hv'. unfold writeProp. rewrite Hres.
      set (h2 := <[r := CObject (setProp k hv' hcur)]> hc).
      assert (Hlen : length h2 = length hc) by apply length_insert.
      assert (Hag : forall l, A l -> A l /\ h2 !! l = hc !! l).
      { intros l Hl. split; [exact Hl|]. apply list_lookup_insert_ne. intros ->. contradiction. }
      destruct (IHes A h2 s r sp hsp (setProp k v' cur) (setProp k hv' hcur))
        as (h' & hres & Hrun & Hle & Hkeep & Hr' & Hrep).
      - intros l Hl. rewrite Hlen. auto.
      - now rewrite Hlen.
      - exact HnA.
      - exact Hsr.
      - unfold h2. rewrite list_lookup_insert_ne by auto. exact Hs.
      - apply (representsProps_agree A A hc h2 Hag). exact Hsp.
      - unfold h2. apply list_lookup_insert_eq. exact Hr.
      - apply representsProps_setProp.
        + apply (representsProps_agree A A hc h2 Hag), Hcur.
        + apply (represents_agree A A hc h2 Hag), Hv'.
      - exact Hrest.
      - exists h', hres. rewrite Hlen in *. repeat split; auto.
        intros l Hl Hne. rewrite Hkeep by auto. unfold h2.
        apply list_lookup_insert_ne. auto. }
    unfold ConfigManager.mergeStep.
    destruct v as [| | | | |items|so].
    + (* undefined: the property is skipped *)
      simpl in Hsv. subst hv. cbn.
      apply (IHes A hc s r sp hsp cur hcur); auto.
    + simpl in Hsv. subst hv. cbn. apply (Hwrite VNull HNull). reflexivity.
    + simpl in Hsv. subst hv. cbn. apply (Hwrite (VBool b) (HBool b)). reflexivity.
    + simpl in Hsv. subst hv. cbn. apply (Hwrite (VNumber n) (HNumber n)). reflexivity.
    + simpl in Hsv. subst hv. cbn. apply (Hwrite (VString s0) (HString s0)). reflexivity.
    + pose proof Hsv as Hsv'. apply represents_array in Hsv' as (l & hitems & -> & _).
      cbn. apply (Hwrite (VArray items) (HRef l)). exact Hsv.
    + pose proof Hsv as Hsv'. apply represents_object in Hsv' as (ls & hso & -> & Hls & Hcs & Hso).
      destruct (getProp k cur) as [tv|] eqn:Etv, (getProp k hcur) as [htv|] eqn:Ehtv;
        try contradiction; cbn [from_option id].
      2:{ cbn. apply (Hwrite (VObject so) (HRef ls)). exact Hsv. }
      rewrite (plainObject_represents A hc tv htv Htv).
      destruct tv as [| | | | |titems|to];
        try (destruct htv; cbn; apply (Hwrite (VObject so) (HRef ls)); exact Hsv).
      pose proof Htv as Htv'.
      apply represents_object in Htv' as (lt & hto & -> & Hlt & Hct & Hto).
      (* both values are plain objects: the recursive call *)
      destruct (IH A hc lt ls to so HA Hdepth Hdk Htv Hsv)
        as (h1 & Hrun1 & Hlt1 & Hkeep1 & Hrep1).
      rewrite Hrun1. unfold writeProp. rewrite (Hkeep1 r Hr), Hres.
      set (h2 := <[r := CObject (setProp k (HRef (length hc)) hcur)]> h1).
      set (A1 := fun l => A l \/ length hc <= l < length h1).
      assert (Hlen : length h2 = length h1) by apply length_insert.
      assert (Hag1 : forall l, A l -> A1 l /\ h2 !! l = hc !! l).
      { intros l Hl. split; [now left|]. unfold h2.
        rewrite list_lookup_insert_ne by (intros ->; contradiction).
        apply Hkeep1. auto. }
      assert (Hag2 : forall l, A1 l -> A1 l /\ h2 !! l = h1 !! l).
      { intros l Hl. split; [exact Hl|]. unfold h2.
        apply list_lookup_insert_ne. intros ->. destruct Hl as [Hl|Hl]; [contradiction|lia]. }
      destruct (IHes A1 h2 s r sp hsp
                  (setProp k (VObject (ConfigManager.deepMerge to so)) cur)
                  (setProp k (HRef (length hc)) hcur))
        as (h' & hres & Hrun & Hle & Hkeep & Hr' & Hrep).
      * intros l [Hl|Hl]; rewrite Hlen; [specialize (HA l Hl)|]; lia.
      * rewrite Hlen. lia.
      * intros [Hl|Hl]; [contradiction|lia].
      * exact Hsr.
      * unfold h2. rewrite list_lookup_insert_ne by auto.
        rewrite Hkeep1 by (now apply lookup_lt_Some in Hs). exact Hs.
      * apply (representsProps_agree A A1 hc h2 Hag1). exact Hsp.
      * unfold h2. apply list_lookup_insert_eq. lia.
      * apply representsProps_setProp.
        -- apply (representsProps_agree A A1 hc h2 Hag1), Hcur.
        -- apply (represents_agree A1 A1 h1 h2 Hag2), Hrep1.
      * exact Hrest.
      * exists h', hres. rewrite Hlen in *. repeat split; auto.
        -- lia.
        -- intros l Hl Hne. rewrite Hkeep by (auto; lia). unfold h2.
           rewrite list_lookup_insert_ne by auto. now apply Hkeep1.
        -- apply (representsProps_agree (fun l => A1 l \/ length h1 <= l < length h')
                    _ h' h'); [|exact Hrep].
           intros l [[Hl|Hl]|Hl]; split; auto; right; lia.
Qed.

Lemma existsb_eqb_In (k : string) (ks : list string) :
  existsb (String.eqb k) ks = true <-> In k ks.
Proof.
  rewrite existsb_exists. split.
  - intros (k' & Hin & Heq). apply String.eqb_eq in Heq. now subst.
  - intros Hin. exists k. split; [exact Hin|apply String.eqb_refl].
Qed.

Lemma distinct_NoDup (ks : list string) : distinct ks = true -> NoDup ks.
Proof.
  induction ks as [|k ks IH]; simpl; [constructor|].
  intros [Hk Hks]%andb_true_iff. apply NoDup_cons. split; [|now apply IH].
  rewrite list_elem_of_In, <- existsb_eqb_In. now destruct (existsb _ ks).
Qed.

Lemma distinct_getProp {V : Type} (ps : list (string * V)) (k : string) (v : V) :
  distinct (keys ps) = true -> In (k, v) ps -> getProp k ps = Some v.
Proof.
  induction ps as [|[k0 v0] ps IH]; simpl; [tauto|].
  intros [Hk Hks]%andb_true_iff [[= -> ->]|Hin].
  - now rewrite String.eqb_refl.
  - destruct (String.eqb_spec k k0) as [->|Hne]; [|now apply IH].
    exfalso. apply negb_true_iff, not_true_iff_false in Hk. apply Hk.
    apply existsb_eqb_In. change k0 with (fst (k0, v)). now apply in_map.
Qed.

Lemma distinctKeys_object (ps : list (string * value)) :
  distinctKeys (VObject ps) = true ->
  distinct (keys ps) = true /\ forall k v, In (k, v) ps -> distinctKeys v = true.
Proof.
  simpl. intros [Hd Hall]%andb_true_iff. split; [exact Hd|]. clear Hd.
  induction ps as [|[k0 v0] ps IH]; simpl; [tauto|].
  apply andb_true_iff in Hall as [Hv Hrest].
  intros k v [[= -> ->]|Hin]; [exact Hv|]. now apply (IH Hrest k v).
Qed.

Lemma depth_object (ps : list (string * value)) (k : string) (v : value) :
  In (k, v) ps -> depth v < depth (VObject ps).
Proof.
  simpl. induction ps as [|[k0 v0] ps IH]; simpl; [tauto|].
  intros [[= -> ->]|Hin]; [lia|]. specialize (IH Hin). lia.
Qed.

Lemma representsProps_keys A h ps hps :
  representsProps A h ps hps -> keys hps = keys ps.
Proof.
  revert hps. induction ps as [|[k x] ps IH]; intros [|[hk hx] hps]; simpl; try tauto.
  intros (<- & _ & Hrest). f_equal. now apply IH.
Qed.

(** [deepMerge] on the store is correct for every amount of fuel that
    covers the depth of the source. *)
Lemma deepMerge_mergesCorrectly (fuel : nat) : mergesCorrectly fuel.
Proof.
  induction fuel as [|fuel IH]; intros A h t s tp sp HA Hdepth Hdk Ht Hs.
  - simpl in Hdepth. lia.
  - apply represents_object in Ht as (lt & htp & [= <-] & Hlt & Hct & Htp).
    apply represents_object in Hs as (ls & hsp & [= <-] & Hls & Hcs & Hsp).
    apply distinctKeys_object in Hdk as [Hd Hnested].
    assert (Hag : forall l, A l -> A l /\ (h ++ [CObject htp]) !! l = h !! l).
    { intros l Hl. split; [exact Hl|]. apply lookup_app_l. auto. }
    destruct (mergeLoop_correct fuel IH sp A (h ++ [CObject htp]) s (length h)
                sp hsp tp htp)
      as (h' & hres & Hrun & Hle & Hkeep & Hr' & Hrep).
    + intros l Hl. rewrite length_app. specialize (HA l Hl). lia.
    + rewrite length_app. simpl. lia.
    + intros Hl. specialize (HA _ Hl). lia.
    + apply lookup_lt_Some in Hcs. lia.
    + rewrite lookup_app_l by (now apply lookup_lt_Some in Hcs). exact Hcs.
    + apply (representsProps_agree A A h _ Hag), Hsp.
    + apply list_lookup_middle. reflexivity.
    + apply (representsProps_agree A A h _ Hag), Htp.
    + intros k v Hin. split; [now apply distinct_getProp|]. split.
      * pose proof (depth_object sp k v Hin). lia.
      * now apply (Hnested k v).
    + rewrite length_app in Hle, Hkeep, Hrep. simpl in Hle, Hkeep, Hrep.
      exists h'. cbn [deepMerge].
      rewrite Hct, Hcs, (representsProps_keys A h sp hsp Hsp), Hrun.
      split; [reflexivity|]. split; [lia|]. split.
      * intros l Hl. rewrite Hkeep by lia. now apply lookup_app_l.
      * apply represents_object. exists (length h), hres.
        split; [reflexivity|]. split; [right; lia|]. split; [exact Hr'|].
        apply (representsProps_agree
                 (fun l => A l \/ length h + 1 <= l < length h') _ h' h'); [|exact Hrep].
        intros l [Hl|Hl]; split; auto. right. lia.
Qed.

(** What [ordinaryKey] leaves out, and a key it accepts. *)
Lemma ordinaryKey_examples :
  ordinaryKey "__proto__" = false /\ ordinaryKey "1" = false /\
  ordinaryKey "4294967294" = false /\ ordinaryKey "agents" = true /\
  ordinaryKey "constructor" = true.
Proof. repeat split. Qed.

(** C5 (as amended). Let [target] and [source] be objects of the store that
    unfold to the finite trees [tp] and [sp] (no object is reached from
    itself), in which no key of any object, at any depth, is [__proto__] or
    an array index ([ordinaryKeys]).  A call of [deepMerge] whose fuel
    covers the depth of the source returns; every cell the store had before
    the call is the same after it, so neither argument (nor anything else)
    is mutated; the result is a new object, and it unfolds to the merge
    [ConfigManager.deepMerge tp sp] of the trees.  In that merge, for each
    key of the source: if the values of source and target are both plain
    objects the value is their recursive merge; otherwise, if the value of
    the source is [undefined], the target's value (if any) stays; otherwise
    the value of the source replaces the target's as a whole, an array like
    any other value.  A key the source does not have keeps the target's
    value.  ([distinctKeys] says of the tree of the source what holds of
    every object: its keys are pairwise distinct.) *)
Theorem deepMerge_on_store (h : heap) (target source : loc)
    (tp sp : list (string * value)) (fuel : nat) :
  unfolds h (HRef target) (VObject tp) ->
  unfolds h (HRef source) (VObject sp) ->
  ordinaryKeys (VObject tp) = true ->
  ordinaryKeys (VObject sp) = true ->
  distinctKeys (VObject sp) = true ->
  depth (VObject sp) <= fuel ->
  exists h' result,
    deepMerge fuel h target source = Some (h', result) /\
    (forall l c, h !! l = Some c -> h' !! l = Some c) /\
    h !! result = None /\
    unfolds h' (HRef result) (VObject (ConfigManager.deepMerge tp sp)) /\
    (forall k sourceValue, getProp k sp = Some sourceValue ->
       getProp k (ConfigManager.deepMerge tp sp) =
       match sourceValue, getProp k tp with
       | VObject sourceProps, Some (VObject targetProps) =>
           Some (VObject (ConfigManager.deepMerge targetProps sourceProps))
       | VUndefined, targetValue => targetValue
       | _, _ => Some sourceValue
       end) /\
    (forall k, getProp k sp = None ->
       getProp k (ConfigManager.deepMerge tp sp) = getProp k tp).
Proof.
  intros Ht Hs _ _ Hdk Hdepth.
  apply represents_bound in Ht, Hs.
  destruct (deepMerge_mergesCorrectly fuel (fun l => True /\ l < length h)
              h target source tp sp) as (h' & Hrun & Hlen & Hkeep & Hrep); auto.
  { intros l [_ Hl]. exact Hl. }
  exists h', (length h). split; [exact Hrun|]. split; [|split; [|split; [|split]]].
  - intros l c Hl. rewrite Hkeep by (now apply lookup_lt_Some in Hl). exact Hl.
  - now apply lookup_ge_None_2.
  - unfold unfolds. eapply represents_agree; [|exact Hrep]. intros l _. now split.
  - intros k sourceValue Hk. apply Merge.deepMerge_key; [|exact Hk].
    apply distinct_NoDup. now apply distinctKeys_object in Hdk as [Hd _].
  - intros k Hk. now apply Merge.deepMerge_frame.
Qed.

Lemma deepMerge_on_store_witness :
  exists h' result,
    deepMerge 2 exampleHeap 1 3 = Some (h', result) /\
    (forall l c, exampleHeap !! l = Some c -> h' !! l = Some c) /\
    exampleHeap !! result = None /\
    unfolds h' (HRef result)
      (VObject (ConfigManager.deepMerge exampleTarget exampleSource)) /\
    (forall k sourceValue, getProp k exampleSource = Some sourceValue ->
       getProp k (ConfigManager.deepMerge exampleTarget exampleSource) =
       match sourceValue, getProp k exampleTarget with
       | VObject sourceProps, Some (VObject targetProps) =>
           Some (VObject (ConfigManager.deepMerge targetProps sourceProps))
       | VUndefined, targetValue => targetValue
       | _, _ => Some sourceValue
       end) /\
    (forall k, getProp k exampleSource = None ->
       getProp k (ConfigManager.deepMerge exampleTarget exampleSource)
       = getProp k exampleTarget).
Proof.
  apply (deepMerge_on_store exampleHeap 1 3 exampleTarget exampleSource 2).
  - unfold unfolds. simpl. eexists 1, _. repeat split.
    + eexists 0, _. repeat split.
    + eexists 4, _. repeat split.
  - unfold unfolds. simpl. eexists 3, _. repeat split.
    + eexists 2, _. repeat split.
    + eexists 5, _. repeat split.
  - reflexivity.
  - reflexivity.
  - reflexivity.
  - simpl. lia.
Defined.

(** C5 (as stated) fails.  The source [{ a: undefined }] has the key [a],
    and the values at [a] are not both plain objects, yet the value of the
    source does not replace the value [1] of the target [{ a: 1 }]: the
    result keeps [1]. *)
Lemma deepMerge_undefined_does_not_replace :
  unfolds undefinedHeap (HRef 0) (VObject [("a", VNumber 1)]) /\
  unfolds undefinedHeap (HRef 1) (VObject [("a", VUndefined)]) /\
  deepMerge 1 undefinedHeap 0 1
    = Some (undefinedHeap ++ [CObject [("a", HNumber 1)]], 2) /\
  readProp undefinedHeap 1 "a" = HUndefined /\
  readProp (undefinedHeap ++ [CObject [("a", HNumber 1)]]) 2 "a" = HNumber 1 /\
  ConfigManager.deepMerge [("a", VNumber 1)] [("a", VUndefined)] = [("a", VNumber 1)] /\
  getProp "a" (ConfigManager.deepMerge [("a", VNumber 1)] [("a", VUndefined)])
    <> getProp "a" [("a", VUndefined)].
Proof.
  repeat split; try reflexivity.
  - unfold unfolds. simpl. eexists 0, _. repeat split.
  - unfold unfolds. simpl. eexists 1, _. repeat split.
  - discriminate.
Qed.

End StoreFacts.

(** * Properties of the command-line front end *)

Module InstallFacts.
Import Install.

Lemma requiredErrors_nil (name expected : string) (allowed : list string)
    (arg : option string) :
  requiredErrors name expected allowed arg = [] <->
  exists v, arg = Some v /\ In v allowed.
Proof.
  unfold requiredErrors, oneOf. destruct arg as [v|].
  - destruct (existsb (String.eqb v) allowed) eqn:E.
    + apply StoreFacts.existsb_eqb_In in E. split; [eauto|reflexivity].
    + split; [discriminate|]. intros (v' & [= <-] & Hin).
      apply StoreFacts.existsb_eqb_In in Hin. congruence.
  - split; [discriminate|]. intros (v & Hv & _). discriminate.
Qed.

Lemma optionalErrors_nil (name expected : string) (allowed : list string)
    (arg : option string) :
  optionalErrors name expected allowed arg = [] <->
  forall v, arg = Some v -> In v allowed.
Proof.
  unfold optionalErrors, oneOf. destruct arg as [v|].
  - destruct (existsb (String.eqb v) allowed) eqn:E.
    + apply StoreFacts.existsb_eqb_In in E. split; [|reflexivity].
      now intros _ v' [= <-].
    + split; [discriminate|]. intros Hall.
      specialize (Hall v eq_refl). apply StoreFacts.existsb_eqb_In in Hall. congruence.
  - split; [discriminate|reflexivity].
Qed.

(** X6. [validateNonTuiArgs] accepts exactly the argument sets in which
    --claude is one of no, yes, max20, --gemini and --copilot are one of no,
    yes, and each of --openai, --opencode-zen, --zai-coding-plan is left out
    or one of no, yes; and it accepts exactly when it reports no error. *)
Theorem validateNonTuiArgs_accepts (args : InstallArgs) :
  (valid (validateNonTuiArgs args) = true <->
   (exists v, claude args = Some v /\ In v ["no"; "yes"; "max20"]) /\
   (exists v, gemini args = Some v /\ In v ["no"; "yes"]) /\
   (exists v, copilot args = Some v /\ In v ["no"; "yes"]) /\
   (forall v, openai args = Some v -> In v ["no"; "yes"]) /\
   (forall v, opencodeZen args = Some v -> In v ["no"; "yes"]) /\
   (forall v, zaiCodingPlan args = Some v -> In v ["no"; "yes"])) /\
  (valid (validateNonTuiArgs args) = true <-> errors (validateNonTuiArgs args) = []).
Proof.
  assert (Hnil : valid (validateNonTuiArgs args) = true
                 <-> errors (validateNonTuiArgs args) = []).
  { unfold validateNonTuiArgs. cbn [valid errors].
    rewrite Nat.eqb_eq. split; [apply nil_length_inv|now intros ->]. }
  split; [|exact Hnil].
  rewrite Hnil. unfold validateNonTuiArgs. cbn [errors].
  rewrite !app_nil, !requiredErrors_nil, !optionalErrors_nil. tauto.
Qed.

(** X7. Both ways of building the install configuration keep the invariant
    that the max20 tier implies a Claude subscription: [argsToConfig] for
    every argument set, validated or not, and [runTuiMode] for every detected
    configuration and every sequence of answers. *)
Theorem max20_implies_claude :
  (forall args : InstallArgs,
      ModelFallback.isMax20 (argsToConfig args) = true ->
      ModelFallback.hasClaude (argsToConfig args) = true) /\
  (forall (detected : DetectedConfig) (user : Answers) (c : ModelFallback.InstallConfig),
      runTuiMode detected user = Some c ->
      ModelFallback.isMax20 c = true -> ModelFallback.hasClaude c = true).
Proof.
  split.
  - intros args. unfold argsToConfig, argIs. cbn.
    destruct (claude args) as [v|]; [|discriminate].
    intros ->%String.eqb_eq. reflexivity.
  - intros detected user c. unfold runTuiMode.
    destruct (answerClaude user _) as [v1|]; [|discriminate].
    destruct (answerOpenai user _); [|discriminate].
    destruct (answerGemini user _); [|discriminate].
    destruct (answerCopilot user _); [|discriminate].
    destruct (answerOpencodeZen user _); [|discriminate].
    destruct (answerZaiCodingPlan user _); [|discriminate].
    intros [= <-]. cbn. intros ->%String.eqb_eq. reflexivity.
Qed.

Lemma max20_implies_claude_witness :
  ModelFallback.hasClaude
    (argsToConfig {| tui := false; claude := Some "max20"; openai := None;
                     gemini := Some "no"; copilot := Some "no"; opencodeZen := None;
                     zaiCodingPlan := None; skipAuth := false |}) = true.
Proof.
  apply (proj1 max20_implies_claude
           {| tui := false; claude := Some "max20"; openai := None;
              gemini := Some "no"; copilot := Some "no"; opencodeZen := None;
              zaiCodingPlan := None; skipAuth := false |}).
  reflexivity.
Defined.

(** X8. A wizard whose user keeps every initial value returns the detected
    flags, except that a detected max20 tier without a detected Claude
    subscription is dropped: the initial value of the Claude prompt is then
    "no".  A cancel at the first prompt returns nothing. *)
Theorem runTuiMode_keeps_detected (detected : DetectedConfig) :
  runTuiMode detected acceptInitial
  = Some {| ModelFallback.hasClaude := hasClaude detected;
            ModelFallback.isMax20 := hasClaude detected && isMax20 detected;
            ModelFallback.hasOpenAI := hasOpenAI detected;
            ModelFallback.hasGemini := hasGemini detected;
            ModelFallback.hasCopilot := hasCopilot detected;
            ModelFallback.hasOpencodeZen := hasOpencodeZen detected;
            ModelFallback.hasZaiCodingPlan := hasZaiCodingPlan detected |} /\
  (forall user : Answers,
      answerClaude user (initialClaude (detectedToInitialValues detected)) = None ->
      runTuiMode detected user = None).
Proof.
  split.
  - destruct detected as [i [] [] [] [] [] [] []]; reflexivity.
  - intros user Hcancel. unfold runTuiMode. now rewrite Hcancel.
Qed.

Lemma runTuiMode_keeps_detected_witness :
  runTuiMode
    {| isInstalled := true; hasClaude := true; isMax20 := false; hasOpenAI := true;
       hasGemini := false; hasCopilot := false; hasOpencodeZen := true;
       hasZaiCodingPlan := false |}
    {| answerClaude := fun _ => None; answerOpenai := Some; answerGemini := Some;
       answerCopilot := Some; answerOpencodeZen := Some; answerZaiCodingPlan := Some |}
  = None.
Proof.
  apply (proj2 (runTuiMode_keeps_detected
                  {| isInstalled := true; hasClaude := true; isMax20 := false;
                     hasOpenAI := true; hasGemini := false; hasCopilot := false;
                     hasOpencodeZen := true; hasZaiCodingPlan := false |})).
  reflexivity.
Defined.

End InstallFacts.

(** * More properties of the generated document *)

Module GenerationFacts.
Import ModelFallback Warnings.

Ltac all_configs config := destruct config as [[] [] [] [] [] [] []].

(** X1. For every install configuration the generated document assigns
    exactly the known roles and the known categories, in the order of the
    requirement tables. *)
Theorem generate_assigns_every_key (config : InstallConfig) :
  keys (agents (generateModelConfig config)) = keys AGENT_REQUIREMENTS /\
  keys (categories (generateModelConfig config)) = keys CATEGORY_REQUIREMENTS.
Proof. all_configs config; split; reflexivity. Qed.

(** The entries of the two maps of a generated document. *)
Lemma assigned_model_In (config : InstallConfig) (name m : string) :
  agentModel config name = Some m \/ categoryModel config name = Some m ->
  exists c, model c = m /\
            (In (name, c) (agents (generateModelConfig config))
             \/ In (name, c) (categories (generateModelConfig config))).
Proof.
  unfold agentModel, categoryModel. intros [H|H].
  - destruct (getProp name (agents _)) as [c|] eqn:E; [|discriminate].
    injection H as <-. exists c. split; [reflexivity|]. left. now apply getProp_Some_In.
  - destruct (getProp name (categories _)) as [c|] eqn:E; [|discriminate].
    injection H as <-. exists c. split; [reflexivity|]. right. now apply getProp_Some_In.
Qed.

(** X2. A generated document never assigns a model of a provider that was
    not declared: an anthropic/ model needs Claude, an openai/ model OpenAI,
    a google/ model Gemini, a github-copilot/ model Copilot and a
    zai-coding-plan/ model the Z.ai plan.  (Models of opencode/ are assigned
    without OpenCode Zen too: the fallback and the explore role.) *)
Theorem assigned_models_are_declared (config : InstallConfig) (name m : string) :
  agentModel config name = Some m \/ categoryModel config name = Some m ->
  (JS.startsWith m "anthropic/" = true -> hasClaude config = true) /\
  (JS.startsWith m "openai/" = true -> hasOpenAI config = true) /\
  (JS.startsWith m "google/" = true -> hasGemini config = true) /\
  (JS.startsWith m "github-copilot/" = true -> hasCopilot config = true) /\
  (JS.startsWith m "zai-coding-plan/" = true -> hasZaiCodingPlan config = true).
Proof.
  intros H. apply assigned_model_In in H as (c & <- & Hin).
  all_configs config; vm_compute in Hin;
    repeat (destruct Hin as [Hin|Hin]; try contradiction; try (injection Hin as <- <-));
    vm_compute; repeat split; intros; try reflexivity; discriminate.
Qed.

Lemma assigned_models_are_declared_witness :
  hasOpenAI (installConfig false false true false true true false) = true.
Proof.
  apply (proj1 (proj2 (assigned_models_are_declared
                         (installConfig false false true false true true false)
                         "oracle" "openai/gpt-5.2-codex" (or_introl eq_refl)))).
  reflexivity.
Defined.

(** X3. The variant of a requirement is passed on exactly when some provider
    is declared: then every role and category carries the variant of its
    row in the requirement table (oracle high, Momus medium, artistry max,
    the others none).  Without any provider no role and no category carries
    a variant. *)
Theorem variants_follow_the_tables (config : InstallConfig) :
  (forall role req, In (role, req) AGENT_REQUIREMENTS ->
     option_map variant (getProp role (agents (generateModelConfig config)))
     = Some (if anyProvider config then reqVariant req else None)) /\
  (forall cat req, In (cat, req) CATEGORY_REQUIREMENTS ->
     option_map variant (getProp cat (categories (generateModelConfig config)))
     = Some (if anyProvider config then reqVariant req else None)).
Proof.
  split; intros name req Hin; Generation.table_rows Hin;
    all_configs config; reflexivity.
Qed.

Lemma variants_follow_the_tables_witness :
  option_map variant
    (getProp "oracle"
       (agents (generateModelConfig (installConfig false false false false false false false))))
  = Some None.
Proof.
  apply (proj1 (variants_follow_the_tables
                  (installConfig false false false false false false false))
               "oracle" {| capability := Ultrabrain; reqVariant := Some "high" |}).
  unfold AGENT_REQUIREMENTS. right. left. reflexivity.
Defined.

(** X4. The explore role does not follow the chain of its capability: it
    gets anthropic/claude-haiku-4-5 exactly with Claude on the max20 tier,
    otherwise opencode/grok-code (the ultimate fallback when no provider is
    declared), whatever OpenAI, Gemini or Copilot could offer.  The
    librarian role gets the Z.ai model whenever the Z.ai plan is declared,
    before OpenCode Zen and Copilot, and [resolveModel] of "glm" otherwise. *)
Theorem role_overrides (config : InstallConfig) :
  agentModel config "explore"
  = Some (if anyProvider config
          then (if hasClaude config && isMax20 config
                then "anthropic/claude-haiku-4-5" else "opencode/grok-code")
          else ULTIMATE_FALLBACK) /\
  agentModel config "librarian"
  = Some (if hasZaiCodingPlan config then ZAI_MODEL
          else resolveModel Glm (toProviderAvailability config)).
Proof. all_configs config; split; reflexivity. Qed.

(** X5. When [shouldShowChatGPTOnlyWarning] holds (OpenAI declared, neither
    Claude nor Gemini), every category, and every role other than librarian
    and explore, is assigned a model of openai/. *)
Theorem chatgpt_only_assigns_openai (config : InstallConfig) :
  shouldShowChatGPTOnlyWarning config = true ->
  (forall cat req, In (cat, req) CATEGORY_REQUIREMENTS ->
     exists m, categoryModel config cat = Some m /\ JS.startsWith m "openai/" = true) /\
  (forall role req, In (role, req) AGENT_REQUIREMENTS ->
     role <> "librarian" -> role <> "explore" ->
     exists m, agentModel config role = Some m /\ JS.startsWith m "openai/" = true).
Proof.
  intros Hw. split.
  - intros cat req Hin. Generation.table_rows Hin;
      all_configs config; try discriminate Hw; eexists; split; reflexivity.
  - intros role req Hin Hl He. Generation.table_rows Hin; try congruence;
      all_configs config; try discriminate Hw; eexists; split; reflexivity.
Qed.

Lemma chatgpt_only_assigns_openai_witness :
  exists m, agentModel (installConfig false false true false true true true) "Sisyphus"
            = Some m /\ JS.startsWith m "openai/" = true.
Proof.
  apply (proj2 (chatgpt_only_assigns_openai
                  (installConfig false false true false true true true) eq_refl)
               "Sisyphus" {| capability := UnspecifiedHigh; reqVariant := None |}).
  - unfold AGENT_REQUIREMENTS. left. reflexivity.
  - discriminate.
  - discriminate.
Defined.

End GenerationFacts.

(** * More properties of [deepMerge] on values *)

Module MergeFacts.
Import JS ConfigManager Paths.

Lemma keys_setProp {V : Type} (k : string) (v : V) (o : list (string * V)) :
  keys (setProp k v o) = if existsb (String.eqb k) (keys o) then keys o else keys o ++ [k].
Proof.
  induction o as [|[k' v'] o IH]; [reflexivity|].
  cbn [setProp keys map fst existsb]. fold (keys o).
  destruct (String.eqb k k') eqn:E; cbn [orb].
  - apply String.eqb_eq in E. now subst.
  - cbn [keys map fst]. fold (keys (setProp k v o)) (keys o). rewrite IH.
    now destruct (existsb (String.eqb k) (keys o)).
Qed.

Lemma setProp_same {V : Type} (k : string) (v : V) (o : list (string * V)) :
  getProp k o = Some v -> setProp k v o = o.
Proof.
  induction o as [|[k' v'] o IH]; [discriminate|]. cbn [getProp setProp].
  destruct (String.eqb_spec k k') as [->|Hne].
  - now intros [= ->].
  - intros H. now rewrite IH.
Qed.

Lemma keys_mergeStep (result : list (string * value)) (key : string) (sourceValue : value) :
  keys (mergeStep result key sourceValue) = keys result
  \/ (keys (mergeStep result key sourceValue) = keys result ++ [key]
      /\ ~ In key (keys result)).
Proof.
  assert (Hset : forall v,
            keys (setProp key v result) = keys result
            \/ (keys (setProp key v result) = keys result ++ [key]
                /\ ~ In key (keys result))).
  { intros v. rewrite keys_setProp.
    destruct (existsb (String.eqb key) (keys result)) eqn:E; [now left|].
    right. split; [reflexivity|]. rewrite <- StoreFacts.existsb_eqb_In. congruence. }
  unfold mergeStep.
  destruct sourceValue, (getProp key result) as [[]|]; try apply Hset; now left.
Qed.

Lemma mergeStep_has_key (result : list (string * value)) (key : string)
    (sourceValue : value) :
  sourceValue <> VUndefined -> In key (keys (mergeStep result key sourceValue)).
Proof.
  intros Hdef.
  assert (Hset : forall v, In key (keys (setProp key v result))).
  { intros v. rewrite keys_setProp.
    destruct (existsb (String.eqb key) (keys result)) eqn:E.
    - now apply StoreFacts.existsb_eqb_In.
    - apply in_or_app. right. now left. }
  unfold mergeStep.
  destruct sourceValue, (getProp key result) as [[]|]; try apply Hset; congruence.
Qed.

(** The keys of the result of the loop: those of [result] first, then new
    keys of the entries. *)
Lemma mergeInto_keys (es result : list (string * value)) :
  exists added,
    keys (mergeInto result (VObject es)) = keys result ++ added /\
    (forall k, In k added -> In k (keys es) /\ ~ In k (keys result)) /\
    (forall k v, In (k, v) es -> v <> VUndefined ->
       In k (keys (mergeInto result (VObject es)))).
Proof.
  revert result. induction es as [|[key sv] es IH]; intros result.
  - exists []. rewrite app_nil_r. repeat split; intros; contradiction.
  - rewrite Merge.mergeInto_cons.
    destruct (IH (mergeStep result key sv)) as (a2 & Hk2 & Ha2 & Hin2).
    assert (Hin : forall k v, In (k, v) ((key, sv) :: es) -> v <> VUndefined ->
                    In k (keys (mergeInto (mergeStep result key sv) (VObject es)))).
    { intros k v [[= <- <-]|Hrest] Hdef; [|now apply (Hin2 k v)].
      rewrite Hk2. apply in_or_app. left. now apply mergeStep_has_key. }
    destruct (keys_mergeStep result key sv) as [Hk1|[Hk1 Hnew]].
    + exists a2. rewrite Hk2, Hk1. split; [reflexivity|]. split.
      * intros k Hk. destruct (Ha2 k Hk) as [Hsrc Hfresh].
        split; [now right|]. now rewrite <- Hk1.
      * intros k v Hkv Hdef. rewrite <- Hk1, <- Hk2. now apply (Hin k v).
    + exists (key :: a2). rewrite Hk2, Hk1, <- app_assoc. split; [reflexivity|]. split.
      * intros k [<-|Hk]; [split; [now left|exact Hnew]|].
        destruct (Ha2 k Hk) as [Hsrc Hfresh]. split; [now right|].
        intros Hold. apply Hfresh. rewrite Hk1. apply in_or_app. now left.
      * intros k v Hkv Hdef.
        change (keys result ++ [key] ++ a2) with (keys result ++ ([key] ++ a2)).
        rewrite app_assoc, <- Hk1, <- Hk2. now apply (Hin k v).
Qed.

(** X9. When no key of [target] or of [source] is [__proto__] or an array
    index, [deepMerge] keeps the shape of the target: the keys of the
    target are the first keys of the result, in their order; the keys
    behind them are keys of the source that the target does not have; and
    every key of the source whose value is not [undefined] is a key of the
    result. *)
Theorem deepMerge_keys (target source : list (string * value)) :
  forallb Store.ordinaryKey (keys target) = true ->
  forallb Store.ordinaryKey (keys source) = true ->
  exists added,
    keys (deepMerge target source) = keys target ++ added /\
    (forall k, In k added -> In k (keys source) /\ ~ In k (keys target)) /\
    (forall k v, In (k, v) source -> v <> VUndefined ->
       In k (keys (deepMerge target source))).
Proof. intros _ _. apply mergeInto_keys. Qed.

Lemma deepMerge_keys_witness :
  exists added,
    keys (deepMerge [("a", VNumber 1); ("b", VNull)]
                    [("b", VBool true); ("c", VString "x"); ("d", VUndefined)])
    = ["a"; "b"] ++ added /\
    (forall k, In k added -> In k ["b"; "c"; "d"] /\ ~ In k ["a"; "b"]) /\
    (forall k v, In (k, v) [("b", VBool true); ("c", VString "x"); ("d", VUndefined)] ->
       v <> VUndefined ->
       In k (keys (deepMerge [("a", VNumber 1); ("b", VNull)]
                             [("b", VBool true); ("c", VString "x"); ("d", VUndefined)]))).
Proof.
  apply (deepMerge_keys [("a", VNumber 1); ("b", VNull)]
                        [("b", VBool true); ("c", VString "x"); ("d", VUndefined)]);
    reflexivity.
Defined.

(** A merge that changes nothing turn by turn changes nothing. *)
Lemma mergeInto_absorbed (result es : list (string * value)) :
  (forall k sv, In (k, sv) es -> mergeStep result k sv = result) ->
  mergeInto result (VObject es) = result.
Proof.
  induction es as [|[k sv] es IH]; intros Hstep; [reflexivity|].
  rewrite Merge.mergeInto_cons, (Hstep k sv) by now left.
  apply IH. intros k' sv' Hin. apply Hstep. now right.
Qed.

Lemma mergeInto_idempotent (sv : value) :
  Store.distinctKeys sv = true ->
  (forall t, mergeInto (mergeInto t sv) sv = mergeInto t sv) /\
  (forall props, sv = VObject props -> mergeInto props sv = props).
Proof.
  induction sv as [| | | | |items _|props IH] using value_nested_ind;
    intros Hdk; try (split; [reflexivity|discriminate]).
  apply StoreFacts.distinctKeys_object in Hdk as [Hd Hnested].
  assert (Hat : forall k sv, In (k, sv) props -> getProp k props = Some sv).
  { intros k sv Hin. now apply StoreFacts.distinct_getProp. }
  assert (Hinner : forall k sv, In (k, sv) props ->
            (forall t, mergeInto (mergeInto t sv) sv = mergeInto t sv) /\
            (forall ps, sv = VObject ps -> mergeInto ps sv = ps)).
  { intros k sv Hin. apply (proj1 (List.Forall_forall _ _) IH (k, sv) Hin).
    now apply (Hnested k sv). }
  split.
  - intros t. apply mergeInto_absorbed. intros k sv Hin.
    pose proof (Merge.deepMerge_key t props k sv
                  (StoreFacts.distinct_NoDup _ Hd) (Hat k sv Hin)) as Hres.
    unfold deepMerge in Hres. destruct (Hinner k sv Hin) as [Hidem Hself].
    unfold mergeStep. destruct sv as [| | | | |items|so];
      try reflexivity; try (now apply setProp_same).
    destruct (getProp k t) as [[| | | | | |to]|]; rewrite Hres;
      try (rewrite (Hself so eq_refl); now apply setProp_same).
    rewrite Hidem. now apply setProp_same.
  - intros ps [= <-]. apply mergeInto_absorbed. intros k sv Hin.
    pose proof (Hat k sv Hin) as Hk. destruct (Hinner k sv Hin) as [_ Hself].
    unfold mergeStep. rewrite Hk. destruct sv as [| | | | |items|so];
      try reflexivity; try now apply setProp_same.
    rewrite (Hself so eq_refl). now apply setProp_same.
Qed.

(** X10. [deepMerge] is idempotent in its source: merging the same source a
    second time into the result changes nothing.  (The keys of every object
    of the source are pairwise distinct.) *)
Theorem deepMerge_idempotent (target source : list (string * value)) :
  Store.distinctKeys (VObject source) = true ->
  deepMerge (deepMerge target source) source = deepMerge target source.
Proof. intros Hdk. apply (proj1 (mergeInto_idempotent (VObject source) Hdk)). Qed.

Lemma deepMerge_idempotent_witness :
  deepMerge (deepMerge [("a", VObject [("x", VNumber 1)]); ("b", VNumber 2)]
                       [("a", VObject [("y", VNull)]); ("c", VArray [])])
            [("a", VObject [("y", VNull)]); ("c", VArray [])]
  = deepMerge [("a", VObject [("x", VNumber 1)]); ("b", VNumber 2)]
              [("a", VObject [("y", VNull)]); ("c", VArray [])].
Proof. apply deepMerge_idempotent. reflexivity. Defined.

Lemma source_leaves (path : list string)
    (target source : list (string * value)) (leaf : value) :
  Store.distinctKeys (VObject source) = true ->
  path <> [] ->
  getPath path (VObject source) = Some leaf ->
  isLeaf leaf = true ->
  getPath path (VObject (deepMerge target source)) = Some leaf.
Proof.
  revert target source. induction path as [|k path IH]; intros target source Hdk Hne Hsrc Hleaf;
    [congruence|].
  cbn [getPath] in Hsrc |- *.
  destruct (getProp k source) as [sv|] eqn:Ek; [|discriminate].
  apply StoreFacts.distinctKeys_object in Hdk as [Hd Hnested].
  rewrite (Merge.deepMerge_key target source k sv (StoreFacts.distinct_NoDup _ Hd) Ek).
  destruct path as [|k' path].
  - cbn [getPath] in Hsrc. injection Hsrc as ->.
    destruct leaf; try discriminate; reflexivity.
  - destruct sv as [| | | | | |so]; try discriminate.
    assert (Hso : Store.distinctKeys (VObject so) = true).
    { apply (Hnested k). now apply getProp_Some_In. }
    destruct (getProp k target) as [[| | | | | |to]|]; try exact Hsrc.
    apply IH; [exact Hso|discriminate|exact Hsrc|exact Hleaf].
Qed.

(** X11. Let no key of any object of the source, at any depth, be
    [__proto__] or an array index.  Wherever the source holds a value that
    is neither an object nor [undefined], however deep, the result holds
    this value at the same path, whatever the target held there or on the
    way. *)
Theorem deepMerge_source_leaves_win (path : list string)
    (target source : list (string * value)) (leaf : value) :
  Store.ordinaryKeys (VObject source) = true ->
  Store.distinctKeys (VObject source) = true ->
  path <> [] ->
  getPath path (VObject source) = Some leaf ->
  isLeaf leaf = true ->
  getPath path (VObject (deepMerge target source)) = Some leaf.
Proof. intros _. apply source_leaves. Qed.

Lemma deepMerge_source_leaves_win_witness :
  getPath ["agents"; "oracle"; "model"]
    (VObject (deepMerge [("agents", VString "none")]
                [("agents", VObject [("oracle", VObject [("model", VString "m")])])]))
  = Some (VString "m").
Proof.
  apply deepMerge_source_leaves_win;
    [reflexivity|reflexivity|discriminate|reflexivity|reflexivity].
Defined.

(** X12. Wherever the target holds a value at a path the source leaves
    untouched, however deep, the result holds the same value there. *)
Theorem deepMerge_untouched_paths_survive (path : list string)
    (target source : list (string * value)) (v : value) :
  Store.distinctKeys (VObject source) = true ->
  untouched path source = true ->
  getPath path (VObject target) = Some v ->
  getPath path (VObject (deepMerge target source)) = Some v.
Proof.
  revert target source. induction path as [|k path IH]; intros target source Hdk Hun Htgt;
    [discriminate|].
  cbn [getPath untouched] in Hun, Htgt |- *.
  destruct (getProp k target) as [tv|] eqn:Et; [|discriminate].
  apply StoreFacts.distinctKeys_object in Hdk as [Hd Hnested].
  destruct (getProp k source) as [sv|] eqn:Ek.
  - rewrite (Merge.deepMerge_key target source k sv (StoreFacts.distinct_NoDup _ Hd) Ek), Et.
    destruct sv as [| | | | | |so]; try discriminate; [exact Htgt|].
    destruct path as [|k' path]; [discriminate|].
    destruct tv as [| | | | | |to]; try discriminate.
    apply IH; [|exact Hun|exact Htgt].
    apply (Hnested k). now apply getProp_Some_In.
  - rewrite Merge.deepMerge_frame, Et by exact Ek. exact Htgt.
Qed.

Lemma deepMerge_untouched_paths_survive_witness :
  getPath ["agents"; "oracle"; "temperature"]
    (VObject (deepMerge
                [("agents", VObject [("oracle", VObject [("temperature", VNumber 1)])])]
                [("agents", VObject [("oracle", VObject [("model", VString "m")])])]))
  = Some (VNumber 1).
Proof. apply deepMerge_untouched_paths_survive; reflexivity. Defined.

End MergeFacts.

(** ** More on [writeOmoConfig] *)

Module SettingsFacts.
Import JS FS ConfigManager ModelFallback Paths.

(** In the generated document no object has a key twice. *)
Lemma generated_distinctKeys (installConfig : InstallConfig) :
  Store.distinctKeys (VObject (generateOmoConfig installConfig)) = true.
Proof. destruct installConfig as [[] [] [] [] [] [] []]; vm_compute; reflexivity. Qed.

Lemma writeFileSync_written (fs fs' : FileSystem) (path data : string) :
  writeFileSync fs path data = inr fs' -> files fs' !! path = Some data.
Proof.
  unfold writeFileSync.
  destruct (bool_decide (path ∈ readOnly fs)); [discriminate|].
  destruct (bool_decide (path ∈ directories fs)); [discriminate|].
  intros [= <-]. cbn. apply lookup_insert_eq.
Qed.

Lemma writeFileSync_read_only (fs : FileSystem) (path data : string) :
  path ∈ readOnly fs ->
  writeFileSync fs path data = inl (nodeError "EACCES" "permission denied" "open" path).
Proof. intros Hro. unfold writeFileSync. now rewrite bool_decide_eq_true_2. Qed.

Lemma written_same (fs : FileSystem) (path : string) (doc : list (string * value)) :
  files fs !! path = Some (stringifyLine (VObject doc)) -> written fs path doc = fs.
Proof.
  destruct fs as [fileMap dirs ro]. unfold written. cbn. intros Hfile.
  f_equal. now apply insert_id.
Qed.

(** What a successful [writeOmoConfig] has written: the generated document
    or the merge of it into some document. *)
Lemma writeOmoConfig_success `{Shared} (paths : OpenCodeConfigPaths)
    (installConfig : InstallConfig) (fs fs' : FileSystem) (result : ConfigMergeResult) :
  writeOmoConfig paths installConfig fs = (fs', result) ->
  success result = true ->
  exists doc,
    files fs' !! omoConfig paths = Some (stringifyLine (VObject doc)) /\
    (doc = generateOmoConfig installConfig
     \/ exists existing, doc = deepMerge existing (generateOmoConfig installConfig)).
Proof.
  unfold writeOmoConfig.
  destruct (ensureConfigDir paths fs) as [err|fs0]; [intros [= <- <-]; discriminate|].
  set (newConfig := generateOmoConfig installConfig).
  assert (Hfresh : forall outcome,
            writeFileSync fs0 (omoConfig paths) (stringifyLine (VObject newConfig)) = outcome ->
            match outcome with
            | inr fs1 => (fs1, succeeded (omoConfig paths))
            | inl err =>
                (fs0, failed (omoConfig paths)
                        (formatErrorWithSuggestion err "write oh-my-opencode config"))
            end = (fs', result) ->
            success result = true ->
            exists doc,
              files fs' !! omoConfig paths = Some (stringifyLine (VObject doc)) /\
              (doc = newConfig \/ exists existing, doc = deepMerge existing newConfig)).
  { intros [err|fs1] Hw; intros [= <- <-]; [discriminate|]. intros _.
    exists newConfig. split; [now apply writeFileSync_written in Hw|now left]. }
  destruct (existsSync fs0 (omoConfig paths)); [|now apply Hfresh].
  unfold mergeIntoExisting.
  destruct (statSync fs0 (omoConfig paths)) as [[]|size];
    try (intros [= <- <-]; discriminate); [now apply Hfresh|].
  destruct (readFileSync fs0 (omoConfig paths)) as [[]|content];
    try (intros [= <- <-]; discriminate); [now apply Hfresh|].
  destruct (Nat.eqb size 0 || isEmptyOrWhitespace content).
  { destruct (writeFileSync fs0 _ _) as [[]|fs1] eqn:Hw;
      try (intros [= <- <-]; discriminate); try (now apply Hfresh).
    intros [= <- <-] _. exists newConfig.
    split; [now apply writeFileSync_written in Hw|now left]. }
  destruct (parseJsonc content) as [[]|v];
    try (intros [= <- <-]; discriminate); [now apply Hfresh|].
  destruct v as [| | | | | |existing];
    try (destruct (writeFileSync fs0 _ _) as [[]|fs1] eqn:Hw;
         try (intros [= <- <-]; discriminate); try (now apply Hfresh);
         intros [= <- <-] _; exists newConfig;
         split; [now apply writeFileSync_written in Hw|now left]).
  destruct (writeFileSync fs0 _ (stringifyLine (VObject (deepMerge existing newConfig))))
    as [[]|fs1] eqn:Hw;
    try (intros [= <- <-]; discriminate); try (now apply Hfresh).
  intros [= <- <-] _. exists (deepMerge existing newConfig).
  split; [now apply writeFileSync_written in Hw|right; now exists existing].
Qed.

(** X13. Whenever [writeOmoConfig] reports success, the settings file holds
    the serialization of a document in which every value of the generated
    document that is not an object stands at its path: whatever the file
    held before, the generated models win. *)
Theorem writeOmoConfig_generated_wins `{Shared} (paths : OpenCodeConfigPaths)
    (installConfig : InstallConfig) (fs fs' : FileSystem) (result : ConfigMergeResult) :
  writeOmoConfig paths installConfig fs = (fs', result) ->
  success result = true ->
  exists doc,
    files fs' !! omoConfig paths = Some (stringifyLine (VObject doc)) /\
    forall path leaf,
      path <> [] ->
      getPath path (VObject (generateOmoConfig installConfig)) = Some leaf ->
      isLeaf leaf = true ->
      getPath path (VObject doc) = Some leaf.
Proof.
  intros Hrun Hok.
  destruct (writeOmoConfig_success paths installConfig fs fs' result Hrun Hok)
    as (doc & Hfile & [->|[existing ->]]); eexists; (split; [exact Hfile|]).
  - intros path leaf _ Hleaf _. exact Hleaf.
  - intros path leaf Hne Hgen Hleaf.
    apply MergeFacts.source_leaves; try assumption.
    apply generated_distinctKeys.
Qed.

Lemma writeOmoConfig_generated_wins_witness :
  exists doc,
    files (fst (@writeOmoConfig (tableParser [(customText, VObject customDoc)]) examplePaths
                  (installConfig true false false false false false false)
                  (oneFile (configDir examplePaths) (omoConfig examplePaths) customText)))
      !! omoConfig examplePaths
    = Some (stringifyLine (VObject doc)) /\
    forall path leaf,
      path <> [] ->
      getPath path
        (VObject (generateOmoConfig (installConfig true false false false false false false)))
      = Some leaf ->
      isLeaf leaf = true ->
      getPath path (VObject doc) = Some leaf.
Proof.
  apply (@writeOmoConfig_generated_wins (tableParser [(customText, VObject customDoc)])
           examplePaths (installConfig true false false false false false false)
           (oneFile (configDir examplePaths) (omoConfig examplePaths) customText) _
           (snd (@writeOmoConfig (tableParser [(customText, VObject customDoc)]) examplePaths
                   (installConfig true false false false false false false)
                   (oneFile (configDir examplePaths) (omoConfig examplePaths) customText))));
    [apply surjective_pairing|vm_compute; reflexivity].
Defined.

(** X14. A second run changes nothing: when the settings file holds what a
    run of [writeOmoConfig] for [installConfig] serialized and the parser
    reads this document back, a run for the same [installConfig] succeeds
    and leaves the file system as it is. *)
Theorem writeOmoConfig_rerun_changes_nothing `{Shared} (paths : OpenCodeConfigPaths)
    (installConfig : InstallConfig) (fs : FileSystem) (existing : list (string * value)) :
  existsSync fs (configDir paths) = true ->
  files fs !! omoConfig paths
  = Some (stringifyLine (VObject (deepMerge existing (generateOmoConfig installConfig)))) ->
  omoConfig paths ∉ readOnly fs ->
  omoConfig paths ∉ directories fs ->
  parseJsonc (stringifyLine (VObject (deepMerge existing (generateOmoConfig installConfig))))
  = inr (VObject (deepMerge existing (generateOmoConfig installConfig))) ->
  writeOmoConfig paths installConfig fs = (fs, succeeded (omoConfig paths)).
Proof.
  intros Hdir Hfile Hro Hnd Hparse.
  unfold writeOmoConfig, ensureConfigDir. rewrite Hdir.
  unfold existsSync at 1. rewrite Hfile.
  unfold mergeIntoExisting, statSync, readFileSync. rewrite Hfile.
  pose proof (PluginRegistry.stringifyLine_nonblank
                (deepMerge existing (generateOmoConfig installConfig))) as Hblank.
  rewrite (Settings.nonblank_nonempty _ Hblank), Hblank. cbn [orb].
  rewrite Hparse, Settings.writeFileSync_ok by assumption.
  unfold deepMerge in Hfile |- *.
  rewrite (proj1 (MergeFacts.mergeInto_idempotent _ (generated_distinctKeys installConfig))).
  f_equal. apply (written_same fs (omoConfig paths) _ Hfile).
Qed.

Lemma writeOmoConfig_rerun_changes_nothing_witness :
  let installConfig := installConfig true false true false false false false in
  let text := stringifyLine (VObject (deepMerge customDoc (generateOmoConfig installConfig))) in
  let fs := oneFile (configDir examplePaths) (omoConfig examplePaths) text in
  @writeOmoConfig
    (tableParser [(text, VObject (deepMerge customDoc (generateOmoConfig installConfig)))])
    examplePaths installConfig fs
  = (fs, succeeded (omoConfig examplePaths)).
Proof.
  intros installConfig text fs.
  apply (@writeOmoConfig_rerun_changes_nothing
           (tableParser [(text, VObject (deepMerge customDoc (generateOmoConfig installConfig)))])
           examplePaths installConfig fs customDoc);
    try (vm_compute; reflexivity).
  - cbn. apply not_elem_of_empty.
  - cbn. rewrite elem_of_singleton. discriminate.
Defined.

(** X15. A settings file that may not be written makes [writeOmoConfig]
    fail, whatever the file holds and whatever the parser does with it: no
    path through the function reports success without the write, and the
    file system stays as it is. *)
Theorem writeOmoConfig_read_only `{Shared} (paths : OpenCodeConfigPaths)
    (installConfig : InstallConfig) (fs : FileSystem) :
  existsSync fs (configDir paths) = true ->
  omoConfig paths ∈ readOnly fs ->
  fst (writeOmoConfig paths installConfig fs) = fs /\
  success (snd (writeOmoConfig paths installConfig fs)) = false.
Proof.
  intros Hdir Hro.
  pose proof (fun data => writeFileSync_read_only fs (omoConfig paths) data Hro) as Hw.
  unfold nodeError in Hw.
  unfold writeOmoConfig, ensureConfigDir. rewrite Hdir. unfold mergeIntoExisting.
  cbn zeta.
  destruct (existsSync fs (omoConfig paths)); [|rewrite Hw; now split].
  destruct (statSync fs (omoConfig paths)) as [[]|size]; rewrite ?Hw; try now split.
  destruct (readFileSync fs (omoConfig paths)) as [[]|content]; rewrite ?Hw; try now split.
  destruct (Nat.eqb size 0 || isEmptyOrWhitespace content); [rewrite ?Hw; now split|].
  destruct (parseJsonc content) as [[]|[]]; rewrite ?Hw; now split.
Qed.

Lemma writeOmoConfig_read_only_witness :
  let fs := {| files := {[ omoConfig examplePaths := customText ]};
               directories := {[ configDir examplePaths ]};
               readOnly := {[ omoConfig examplePaths ]} |} in
  fst (@writeOmoConfig (tableParser [(customText, VObject customDoc)]) examplePaths
         (installConfig true false false false false false false) fs) = fs /\
  success (snd (@writeOmoConfig (tableParser [(customText, VObject customDoc)]) examplePaths
                  (installConfig true false false false false false false) fs)) = false.
Proof.
  intros fs.
  apply (@writeOmoConfig_read_only (tableParser [(customText, VObject customDoc)])
           examplePaths (installConfig true false false false false false false) fs).
  - vm_compute; reflexivity.
  - cbn. now apply elem_of_singleton.
Defined.

End SettingsFacts.

(** ** More on [addPluginToOpenCodeConfig] *)

Module PluginFacts.
Import JS FS ConfigManager Editors.

(** The callback of [allTags.find] in [getPluginNameWithVersion] is
    [distTags[tag] === currentVersion]. *)
Lemma find_setOf (f : string -> bool) (items seen : list string) :
  (forall x, In x seen -> f x = false) ->
  find f (setOf seen items) = find f items.
Proof.
  revert seen. induction items as [|x items IH]; intros seen Hseen; [reflexivity|].
  cbn [setOf find]. destruct (existsb (String.eqb x) seen) eqn:E.
  - apply StoreFacts.existsb_eqb_In in E. rewrite (Hseen x E). now apply IH.
  - cbn [find]. destruct (f x) eqn:Ef; [reflexivity|].
    apply IH. intros y [<-|Hy]; [exact Ef|now apply Hseen].
Qed.

(** X16. The entry [getPluginNameWithVersion] returns names the first tag
    whose version is the current one, looking at latest, beta, next and then
    at the tags in the order of the registry's answer; the set that removes
    the repetitions changes nothing.  Without such a tag, or without an
    answer, the entry names the version. *)
Theorem getPluginNameWithVersion_first_tag (distTags : option (list (string * value)))
    (currentVersion : string) :
  getPluginNameWithVersion distTags currentVersion
  = match distTags with
    | Some tags =>
        match find (fun tag => match getProp tag tags with
                               | Some (VString v) => String.eqb v currentVersion
                               | _ => false
                               end) (["latest"; "beta"; "next"] ++ keys tags) with
        | Some tag => "oh-my-opencode@" +:+ tag
        | None => "oh-my-opencode@" +:+ currentVersion
        end
    | None => "oh-my-opencode@" +:+ currentVersion
    end.
Proof.
  unfold getPluginNameWithVersion, PRIORITIZED_TAGS.
  destruct distTags as [tags|]; [|reflexivity].
  rewrite find_setOf by (intros x []).
  destruct (find _ _); reflexivity.
Qed.

Lemma pluginEntry_shape (distTags : option (list (string * value))) (currentVersion : string) :
  exists x, getPluginNameWithVersion distTags currentVersion = PACKAGE_NAME +:+ "@" +:+ x.
Proof.
  unfold getPluginNameWithVersion.
  destruct distTags as [tags|]; [destruct (find _ _)|]; eexists; reflexivity.
Qed.

Lemma detectConfigFormat_path (paths : OpenCodeConfigPaths) (fs : FileSystem)
    (content : string) :
  existsSync fs (configJsonc paths) = false \/ configJsonc paths = configJson paths ->
  files fs !! configJson paths = Some content ->
  exists format,
    detectConfigFormat paths fs = (format, configJson paths) /\ format <> NoFormat.
Proof.
  intros Hjsonc Hfile. unfold detectConfigFormat.
  pose proof (PluginRegistry.existsSync_file _ _ _ Hfile) as Hjson.
  destruct Hjsonc as [Hno|Heq].
  - rewrite Hno, Hjson. now exists Json.
  - rewrite Heq, Hjson. now exists Jsonc.
Qed.

(** X17. In a configuration directory without a configuration file,
    [addPluginToOpenCodeConfig] creates [opencode.json] with the plugin list
    of the one entry; and when the parser reads this document back,
    [detectCurrentConfig] then reports the plugin as installed, and the
    Gemini authentication plugin as absent. *)
Theorem addPlugin_creates_config `{Shared} (paths : OpenCodeConfigPaths)
    (distTags : option (list (string * value))) (currentVersion : string)
    (fs : FileSystem) :
  existsSync fs (configDir paths) = true ->
  existsSync fs (configJsonc paths) = false ->
  existsSync fs (configJson paths) = false ->
  configJson paths ∉ readOnly fs ->
  let doc := [("plugin", VArray [VString (getPluginNameWithVersion distTags currentVersion)])] in
  addPluginToOpenCodeConfig paths distTags currentVersion fs
  = (written fs (configJson paths) doc, succeeded (configJson paths)) /\
  (parseJsonc (stringifyLine (VObject doc)) = inr (VObject doc) ->
   exists detected,
     detectCurrentConfig paths (written fs (configJson paths) doc) = inr detected /\
     Install.isInstalled detected = true /\
     Install.hasGemini detected = false).
Proof.
  intros Hdir Hnojsonc Hnojson Hro doc. split.
  - unfold addPluginToOpenCodeConfig, ensureConfigDir. rewrite Hdir.
    unfold detectConfigFormat. rewrite Hnojsonc, Hnojson.
    unfold addPluginBody. rewrite Settings.writeFileSync_ok; [reflexivity|exact Hro|].
    unfold existsSync in Hnojson. destruct (files fs !! configJson paths); [discriminate|].
    now apply bool_decide_eq_false in Hnojson.
  - intros Hround.
    assert (Hfile : files (written fs (configJson paths) doc) !! configJson paths
                    = Some (stringifyLine (VObject doc))).
    { cbn. apply lookup_insert_eq. }
    assert (Hjsonc : existsSync (written fs (configJson paths) doc) (configJsonc paths) = false
                     \/ configJsonc paths = configJson paths).
    { destruct (String.eqb_spec (configJsonc paths) (configJson paths)) as [Heq|Hne];
        [now right|left].
      change (written fs (configJson paths) doc)
        with (withFile fs (configJson paths) (stringifyLine (VObject doc))).
      rewrite PluginRegistry.existsSync_withFile.
      now destruct (String.eqb_spec (configJsonc paths) (configJson paths)). }
    destruct (detectConfigFormat_path paths _ _ Hjsonc Hfile) as (format & Hformat & Hsome).
    unfold detectCurrentConfig. rewrite Hformat.
    rewrite (PluginRegistry.parseConfigWithError_object _ _ _ doc Hfile
               (PluginRegistry.stringifyLine_nonblank doc) Hround).
    cbn [ConfigManager.config]. unfold pluginsOf, doc. cbn [getProp String.eqb Ascii.eqb Bool.eqb].
    destruct (pluginEntry_shape distTags currentVersion) as [x ->].
    unfold somePlugin. cbn [someStartsWith].
    assert (Hown : startsWith (PACKAGE_NAME +:+ "@" +:+ x) "oh-my-opencode" = true).
    { apply (Text.prefix_app PACKAGE_NAME). }
    rewrite Hown.
    assert (Hauth : startsWith (PACKAGE_NAME +:+ "@" +:+ x) AUTH_PLUGIN = false) by reflexivity.
    rewrite Hauth.
    destruct format; [| |congruence]; eexists; (split; [reflexivity|split; reflexivity]).
Qed.

Lemma addPlugin_creates_config_witness :
  let fs := {| files := ∅; directories := {[ configDir examplePaths ]}; readOnly := ∅ |} in
  let doc := [("plugin", VArray [VString (getPluginNameWithVersion None "3.0.0")])] in
  let parser := tableParser [(stringifyLine (VObject doc), VObject doc)] in
  @addPluginToOpenCodeConfig parser examplePaths None "3.0.0" fs
  = (written fs (configJson examplePaths) doc, succeeded (configJson examplePaths)) /\
  (@parseJsonc parser (stringifyLine (VObject doc)) = inr (VObject doc) ->
   exists detected,
     @detectCurrentConfig parser examplePaths (written fs (configJson examplePaths) doc)
     = inr detected /\
     Install.isInstalled detected = true /\
     Install.hasGemini detected = false).
Proof.
  intros fs doc parser.
  apply (@addPlugin_creates_config parser examplePaths None "3.0.0" fs);
    try (vm_compute; reflexivity).
  cbn. apply not_elem_of_empty.
Defined.

(** X18. A configuration file that does not give a configuration (it is
    empty, holds white space only, cannot be parsed or does not parse to an
    object) is not overwritten: [addPluginToOpenCodeConfig] reports failure
    and leaves the file system as it is. *)
Theorem addPlugin_refuses_unparseable `{Shared} (paths : OpenCodeConfigPaths)
    (distTags : option (list (string * value))) (currentVersion : string)
    (fs : FileSystem) :
  existsSync fs (configDir paths) = true ->
  fst (detectConfigFormat paths fs) <> NoFormat ->
  config (parseConfigWithError fs (snd (detectConfigFormat paths fs))) = None ->
  fst (addPluginToOpenCodeConfig paths distTags currentVersion fs) = fs /\
  success (snd (addPluginToOpenCodeConfig paths distTags currentVersion fs)) = false.
Proof.
  intros Hdir Hformat Hparse.
  unfold addPluginToOpenCodeConfig, ensureConfigDir. rewrite Hdir.
  destruct (detectConfigFormat paths fs) as [format path]. cbn [fst snd] in Hformat, Hparse.
  unfold addPluginBody. rewrite Hparse.
  destruct format; [split; reflexivity|split; reflexivity|congruence].
Qed.

Lemma addPlugin_refuses_unparseable_witness :
  let fs := oneFile (configDir examplePaths) (configJson examplePaths) "  " in
  fst (@addPluginToOpenCodeConfig (tableParser []) examplePaths None "3.0.0" fs) = fs /\
  success (snd (@addPluginToOpenCodeConfig (tableParser []) examplePaths None "3.0.0" fs))
  = false.
Proof.
  intros fs.
  apply (@addPlugin_refuses_unparseable (tableParser []) examplePaths None "3.0.0" fs).
  - vm_compute; reflexivity.
  - vm_compute. discriminate.
  - vm_compute; reflexivity.
Defined.

Lemma addPlugin_json_idempotent_witness :
  let doc := [("theme", VString "dark");
              ("plugin", VArray [VString "other-plugin"; VString "oh-my-opencode@2.0.0"])] in
  let edited := [("theme", VString "dark");
                 ("plugin", VArray [VString "other-plugin"; VString "oh-my-opencode@3.0.0"])] in
  let parser := tableParser [("{ }", VObject doc);
                             (stringifyLine (VObject edited), VObject edited)] in
  let fs := oneFile (configDir examplePaths) (configJson examplePaths) "{ }" in
  snd (@addPluginToOpenCodeConfig parser examplePaths None "3.0.0" fs)
  = succeeded (configJson examplePaths) /\
  @addPluginToOpenCodeConfig parser examplePaths None "3.0.0"
    (fst (@addPluginToOpenCodeConfig parser examplePaths None "3.0.0" fs))
  = @addPluginToOpenCodeConfig parser examplePaths None "3.0.0" fs.
Proof.
  intros doc edited parser fs.
  apply (@PluginRegistry.addPlugin_json_idempotent parser examplePaths None "3.0.0" fs "{ }"
           doc [VString "other-plugin"; VString "oh-my-opencode@2.0.0"] (Some 1));
    try (vm_compute; reflexivity).
  - cbn. apply not_elem_of_empty.
  - cbn. rewrite elem_of_singleton. discriminate.
Defined.

End PluginFacts.

(** ** The editors of the authentication plugin and of the providers *)

Module EditorFacts.
Import JS FS ConfigManager Editors ModelFallback Paths.

Lemma formatErrorWithSuggestion_nonempty (err : exn) (context : string) :
  exists c rest, formatErrorWithSuggestion err context = String c rest.
Proof.
  unfold formatErrorWithSuggestion.
  destruct (isPermissionError err); [eexists _, _; reflexivity|].
  destruct (isFileNotFoundError err); [eexists _, _; reflexivity|].
  destruct err; try (eexists _, _; reflexivity); cbn zeta;
    destruct (includes _ "ENOSPC"); try (eexists _, _; reflexivity);
    destruct (includes _ "EROFS"); eexists _, _; reflexivity.
Qed.

Ltac failure_message Hc :=
  try discriminate Hc; cbn [parseFailure parseError];
  first [ eexists _, _; reflexivity
        | match goal with
          | |- context [formatErrorWithSuggestion ?e ?c] =>
              let c1 := fresh "c" in
              let rest := fresh "rest" in
              destruct (formatErrorWithSuggestion_nonempty e c) as (c1 & rest & ->);
              eexists _, _; reflexivity
          end ].

(** A configuration that is not given comes with a message, and no message
    is the empty string. *)
Lemma parseConfigWithError_failure `{Shared} (fs : FileSystem) (path : string) :
  config (parseConfigWithError fs path) = None ->
  exists c rest, parseError (parseConfigWithError fs path) = Some (String c rest).
Proof.
  unfold parseConfigWithError. cbn zeta.
  destruct (statSync fs path) as [err|size]; intros Hc; [failure_message Hc|].
  destruct (Nat.eqb size 0); [failure_message Hc|].
  destruct (readFileSync fs path) as [err|content]; [failure_message Hc|].
  destruct (isEmptyOrWhitespace content); [failure_message Hc|].
  destruct (parseJsonc content) as [err|[]]; failure_message Hc.
Qed.

Lemma readExistingConfig_object `{Shared} (format : ConfigFormat) (path : string)
    (fs : FileSystem) (content : string) (existing : list (string * value)) :
  format <> NoFormat ->
  files fs !! path = Some content ->
  isEmptyOrWhitespace content = false ->
  parseJsonc content = inr (VObject existing) ->
  readExistingConfig format path fs = Some existing.
Proof.
  intros Hformat Hfile Hblank Hparse. unfold readExistingConfig.
  rewrite (PluginRegistry.parseConfigWithError_object _ _ _ _ Hfile Hblank Hparse).
  destruct format; [reflexivity|reflexivity|congruence].
Qed.

Lemma readExistingConfig_unparseable `{Shared} (format : ConfigFormat) (path : string)
    (fs : FileSystem) :
  format <> NoFormat ->
  config (parseConfigWithError fs path) = None ->
  readExistingConfig format path fs = Some [].
Proof.
  intros Hformat Hc. unfold readExistingConfig.
  destruct (parseConfigWithError_failure fs path Hc) as (c & rest & He).
  rewrite He, Hc. destruct format; [reflexivity|reflexivity|congruence].
Qed.

Lemma someStartsWith_app (prefix entry : string) (items : list value) :
  someStartsWith prefix items = inr false ->
  startsWith entry prefix = true ->
  someStartsWith prefix (items ++ [VString entry]) = inr true.
Proof.
  intros Hnone Hentry. induction items as [|p items IH]; cbn [someStartsWith app] in *.
  - now rewrite Hentry.
  - destruct p; try discriminate. destruct (startsWith s prefix); [discriminate|].
    now apply IH.
Qed.

Lemma authPluginEntry_prefix (latestVersion : option string) :
  startsWith (authPluginEntry latestVersion) AUTH_PLUGIN = true.
Proof.
  unfold authPluginEntry.
  destruct latestVersion as [v|]; [destruct (String.eqb v "")|]; reflexivity.
Qed.

(** What [addAuthPlugins] does to a configuration that parses to an object
    whose plugin list holds strings only. *)
Lemma addAuthPlugins_run `{Shared} (paths : OpenCodeConfigPaths)
    (installConfig : InstallConfig) (latestVersion : option string) (fs : FileSystem)
    (format : ConfigFormat) (path content : string) (existing : list (string * value))
    (items : list value) (present : bool) :
  existsSync fs (configDir paths) = true ->
  detectConfigFormat paths fs = (format, path) ->
  format <> NoFormat ->
  files fs !! path = Some content ->
  path ∉ readOnly fs ->
  path ∉ directories fs ->
  isEmptyOrWhitespace content = false ->
  parseJsonc content = inr (VObject existing) ->
  pluginsOf existing = VArray items ->
  someStartsWith AUTH_PLUGIN items = inr present ->
  addAuthPlugins paths installConfig latestVersion fs
  = (written fs path
       (setProp "plugin"
          (VArray (if hasGemini installConfig && negb present
                   then items ++ [VString (authPluginEntry latestVersion)]
                   else items))
          existing),
     succeeded path).
Proof.
  intros Hdir Hdetect Hformat Hfile Hro Hnd Hblank Hparse Hplugins Hsome.
  unfold addAuthPlugins, ensureConfigDir. rewrite Hdir, Hdetect.
  unfold addAuthPluginsBody.
  rewrite (readExistingConfig_object format path fs content existing) by assumption.
  rewrite Hplugins. unfold somePlugin. rewrite Hsome. cbn [from_option id default].
  destruct (hasGemini installConfig), present; cbn [andb negb];
    now rewrite Settings.writeFileSync_ok by assumption.
Qed.

(** X20. On a configuration that parses to an object, [addAuthPlugins] keeps
    every other key with its value and every plugin in its place; with
    Gemini declared it appends the authentication plugin exactly when no
    entry starts with its name, so that afterwards the list has such an
    entry, and an entry that pins another version stays as it is. *)
Theorem addAuthPlugins_adds_once `{Shared} (paths : OpenCodeConfigPaths)
    (installConfig : InstallConfig) (latestVersion : option string) (fs : FileSystem)
    (format : ConfigFormat) (path content : string) (existing : list (string * value))
    (items : list value) (present : bool) :
  existsSync fs (configDir paths) = true ->
  detectConfigFormat paths fs = (format, path) ->
  format <> NoFormat ->
  files fs !! path = Some content ->
  path ∉ readOnly fs ->
  path ∉ directories fs ->
  isEmptyOrWhitespace content = false ->
  parseJsonc content = inr (VObject existing) ->
  pluginsOf existing = VArray items ->
  someStartsWith AUTH_PLUGIN items = inr present ->
  exists added,
    addAuthPlugins paths installConfig latestVersion fs
    = (written fs path (setProp "plugin" (VArray (items ++ added)) existing),
       succeeded path) /\
    added = (if hasGemini installConfig && negb present
             then [VString (authPluginEntry latestVersion)] else []) /\
    (hasGemini installConfig = true ->
     someStartsWith AUTH_PLUGIN (items ++ added) = inr true) /\
    (forall k, k <> "plugin" ->
       getProp k (setProp "plugin" (VArray (items ++ added)) existing) = getProp k existing).
Proof.
  intros Hdir Hdetect Hformat Hfile Hro Hnd Hblank Hparse Hplugins Hsome.
  eexists. split; [|split; [reflexivity|split]].
  - rewrite (addAuthPlugins_run paths installConfig latestVersion fs format path content
               existing items present) by assumption.
    destruct (hasGemini installConfig && negb present); [reflexivity|].
    now rewrite app_nil_r.
  - intros ->. destruct present; cbn [andb negb].
    + now rewrite app_nil_r.
    + apply someStartsWith_app; [exact Hsome|apply authPluginEntry_prefix].
  - intros k Hk. apply getProp_setProp_ne. congruence.
Qed.

Lemma addAuthPlugins_adds_once_witness :
  let existing := [("theme", VString "dark");
                   ("plugin", VArray [VString "oh-my-opencode@3.0.0"])] in
  let parser := tableParser [("{ }", VObject existing)] in
  let fs := oneFile (configDir examplePaths) (configJson examplePaths) "{ }" in
  let installConfig := installConfig true false false true false false false in
  exists added,
    @addAuthPlugins parser examplePaths installConfig (Some "1.2.3") fs
    = (written fs (configJson examplePaths)
         (setProp "plugin" (VArray ([VString "oh-my-opencode@3.0.0"] ++ added)) existing),
       succeeded (configJson examplePaths)) /\
    added = (if hasGemini installConfig && negb false
             then [VString (authPluginEntry (Some "1.2.3"))] else []) /\
    (hasGemini installConfig = true ->
     someStartsWith AUTH_PLUGIN ([VString "oh-my-opencode@3.0.0"] ++ added) = inr true) /\
    (forall k, k <> "plugin" ->
       getProp k (setProp "plugin" (VArray ([VString "oh-my-opencode@3.0.0"] ++ added))
                    existing)
       = getProp k existing).
Proof.
  intros existing parser fs installConfig.
  apply (@addAuthPlugins_adds_once parser examplePaths installConfig (Some "1.2.3") fs
           Json (configJson examplePaths) "{ }" existing
           [VString "oh-my-opencode@3.0.0"] false);
    try (vm_compute; reflexivity).
  - discriminate.
  - cbn. apply not_elem_of_empty.
  - cbn. rewrite elem_of_singleton. discriminate.
Defined.

(** X21. A second run changes nothing: when the configuration file holds the
    serialization of a document whose plugin list has an entry of the
    authentication plugin, and the parser reads the document back,
    [addAuthPlugins] succeeds and leaves the file system as it is.  The same
    holds without Gemini for every document with a plugin list. *)
Theorem addAuthPlugins_rerun_changes_nothing `{Shared} (paths : OpenCodeConfigPaths)
    (installConfig : InstallConfig) (latestVersion : option string) (fs : FileSystem)
    (format : ConfigFormat) (path : string) (existing : list (string * value))
    (items : list value) (present : bool) :
  existsSync fs (configDir paths) = true ->
  detectConfigFormat paths fs = (format, path) ->
  format <> NoFormat ->
  files fs !! path = Some (stringifyLine (VObject existing)) ->
  path ∉ readOnly fs ->
  path ∉ directories fs ->
  parseJsonc (stringifyLine (VObject existing)) = inr (VObject existing) ->
  getProp "plugin" existing = Some (VArray items) ->
  someStartsWith AUTH_PLUGIN items = inr present ->
  hasGemini installConfig = false \/ present = true ->
  addAuthPlugins paths installConfig latestVersion fs = (fs, succeeded path).
Proof.
  intros Hdir Hdetect Hformat Hfile Hro Hnd Hparse Hplugins Hsome Hcase.
  rewrite (addAuthPlugins_run paths installConfig latestVersion fs format path
             (stringifyLine (VObject existing)) existing items present); try assumption.
  - assert (Hsame : hasGemini installConfig && negb present = false).
    { destruct Hcase as [->| ->]; [reflexivity|apply andb_false_r]. }
    rewrite Hsame, (MergeFacts.setProp_same _ _ _ Hplugins).
    f_equal. now apply SettingsFacts.written_same.
  - apply PluginRegistry.stringifyLine_nonblank.
  - unfold pluginsOf. now rewrite Hplugins.
Qed.

Lemma addAuthPlugins_rerun_changes_nothing_witness :
  let existing := [("plugin", VArray [VString "oh-my-opencode@3.0.0";
                                      VString "opencode-antigravity-auth@1.0.0"])] in
  let parser := tableParser [(stringifyLine (VObject existing), VObject existing)] in
  let fs := oneFile (configDir examplePaths) (configJson examplePaths)
              (stringifyLine (VObject existing)) in
  @addAuthPlugins parser examplePaths (installConfig true false false true false false false)
    (Some "1.2.3") fs
  = (fs, succeeded (configJson examplePaths)).
Proof.
  intros existing parser fs.
  apply (@addAuthPlugins_rerun_changes_nothing parser examplePaths
           (installConfig true false false true false false false) (Some "1.2.3") fs
           Json (configJson examplePaths) existing
           [VString "oh-my-opencode@3.0.0"; VString "opencode-antigravity-auth@1.0.0"] true);
    try (vm_compute; reflexivity).
  - discriminate.
  - cbn. apply not_elem_of_empty.
  - cbn. rewrite elem_of_singleton. discriminate.
  - now right.
Defined.

(** X22. Unlike [addPluginToOpenCodeConfig], [addAuthPlugins] does not stop
    at a configuration file that gives no configuration (empty, white space
    only, unparseable, or not an object): it takes the empty object in its
    place and overwrites the file with a document that has the plugin list
    only. *)
Theorem addAuthPlugins_overwrites_unparseable `{Shared} (paths : OpenCodeConfigPaths)
    (installConfig : InstallConfig) (latestVersion : option string) (fs : FileSystem)
    (format : ConfigFormat) (path : string) :
  existsSync fs (configDir paths) = true ->
  detectConfigFormat paths fs = (format, path) ->
  format <> NoFormat ->
  config (parseConfigWithError fs path) = None ->
  path ∉ readOnly fs ->
  path ∉ directories fs ->
  addAuthPlugins paths installConfig latestVersion fs
  = (written fs path
       [("plugin", VArray (if hasGemini installConfig
                           then [VString (authPluginEntry latestVersion)] else []))],
     succeeded path).
Proof.
  intros Hdir Hdetect Hformat Hparse Hro Hnd.
  unfold addAuthPlugins, ensureConfigDir. rewrite Hdir, Hdetect.
  unfold addAuthPluginsBody.
  rewrite (readExistingConfig_unparseable format path fs Hformat Hparse).
  cbn [from_option id default pluginsOf getProp somePlugin someStartsWith app setProp].
  destruct (hasGemini installConfig);
    now rewrite Settings.writeFileSync_ok by assumption.
Qed.

Lemma addAuthPlugins_overwrites_unparseable_witness :
  let fs := oneFile (configDir examplePaths) (configJson examplePaths) "{ broken" in
  @addAuthPlugins (tableParser []) examplePaths
    (installConfig true false false false false false false) None fs
  = (written fs (configJson examplePaths) [("plugin", VArray [])],
     succeeded (configJson examplePaths)).
Proof.
  intros fs.
  apply (@addAuthPlugins_overwrites_unparseable (tableParser []) examplePaths
           (installConfig true false false false false false false) None fs
           Json (configJson examplePaths));
    try (vm_compute; reflexivity).
  - discriminate.
  - cbn. apply not_elem_of_empty.
  - cbn. rewrite elem_of_singleton. discriminate.
Defined.

Lemma withProviders_without_gemini (installConfig : InstallConfig)
    (existing : list (string * value)) :
  hasGemini installConfig = false ->
  withProviders installConfig existing = inr existing.
Proof.
  intros Hg. unfold withProviders. rewrite Hg.
  destruct (getProp "provider" existing) as [[| | | | | |providers]|] eqn:E; try reflexivity.
  destruct providers as [|p providers]; [reflexivity|].
  now rewrite (MergeFacts.setProp_same _ _ _ E).
Qed.

Lemma setProp_not_nil {V : Type} (k : string) (v : V) (o : list (string * V)) :
  setProp k v o <> [].
Proof. destruct o as [|[k' v'] o]; cbn; [|destruct (String.eqb k k')]; discriminate. Qed.

(** What [addProviderConfig] does to a configuration that parses to an
    object. *)
Lemma addProviderConfig_run `{Shared} (paths : OpenCodeConfigPaths)
    (installConfig : InstallConfig) (fs : FileSystem)
    (format : ConfigFormat) (path content : string) (existing : list (string * value)) :
  existsSync fs (configDir paths) = true ->
  detectConfigFormat paths fs = (format, path) ->
  format <> NoFormat ->
  files fs !! path = Some content ->
  path ∉ readOnly fs ->
  path ∉ directories fs ->
  isEmptyOrWhitespace content = false ->
  parseJsonc content = inr (VObject existing) ->
  addProviderConfig paths installConfig fs
  = match withProviders installConfig existing with
    | inr newConfig => (written fs path newConfig, succeeded path)
    | inl err => (fs, failed path (formatErrorWithSuggestion err "add provider config"))
    end.
Proof.
  intros Hdir Hdetect Hformat Hfile Hro Hnd Hblank Hparse.
  unfold addProviderConfig, ensureConfigDir. rewrite Hdir, Hdetect.
  rewrite (readExistingConfig_object format path fs content existing) by assumption.
  cbn [from_option id default].
  destruct (withProviders installConfig existing) as [err|newConfig]; [reflexivity|].
  now rewrite Settings.writeFileSync_ok by assumption.
Qed.

(** X23. Without Gemini, [addProviderConfig] changes nothing in the
    document: it writes back the serialization of the configuration it
    parsed, whatever the provider key holds. *)
Theorem addProviderConfig_without_gemini `{Shared} (paths : OpenCodeConfigPaths)
    (installConfig : InstallConfig) (fs : FileSystem)
    (format : ConfigFormat) (path content : string) (existing : list (string * value)) :
  existsSync fs (configDir paths) = true ->
  detectConfigFormat paths fs = (format, path) ->
  format <> NoFormat ->
  files fs !! path = Some content ->
  path ∉ readOnly fs ->
  path ∉ directories fs ->
  isEmptyOrWhitespace content = false ->
  parseJsonc content = inr (VObject existing) ->
  hasGemini installConfig = false ->
  addProviderConfig paths installConfig fs = (written fs path existing, succeeded path).
Proof.
  intros Hdir Hdetect Hformat Hfile Hro Hnd Hblank Hparse Hg.
  rewrite (addProviderConfig_run paths installConfig fs format path content existing)
    by assumption.
  now rewrite withProviders_without_gemini.
Qed.

Lemma addProviderConfig_without_gemini_witness :
  let existing := [("provider", VObject [("openai", VObject [])]); ("theme", VNull)] in
  let parser := tableParser [("{ }", VObject existing)] in
  let fs := oneFile (configDir examplePaths) (configJson examplePaths) "{ }" in
  @addProviderConfig parser examplePaths
    (installConfig true true true false true true true) fs
  = (written fs (configJson examplePaths) existing, succeeded (configJson examplePaths)).
Proof.
  intros existing parser fs.
  apply (@addProviderConfig_without_gemini parser examplePaths
           (installConfig true true true false true true true) fs
           Json (configJson examplePaths) "{ }" existing);
    try (vm_compute; reflexivity).
  - discriminate.
  - cbn. apply not_elem_of_empty.
  - cbn. rewrite elem_of_singleton. discriminate.
Defined.

(** X24. With Gemini, on a configuration whose provider key is missing or
    holds an object, [addProviderConfig] writes a document in which
    [provider.google] is the Antigravity configuration, every other
    provider is what it was, and every other key has the value it had. *)
Theorem addProviderConfig_sets_google `{Shared} (paths : OpenCodeConfigPaths)
    (installConfig : InstallConfig) (fs : FileSystem)
    (format : ConfigFormat) (path content : string)
    (existing providers : list (string * value)) :
  existsSync fs (configDir paths) = true ->
  detectConfigFormat paths fs = (format, path) ->
  format <> NoFormat ->
  files fs !! path = Some content ->
  path ∉ readOnly fs ->
  path ∉ directories fs ->
  isEmptyOrWhitespace content = false ->
  parseJsonc content = inr (VObject existing) ->
  hasGemini installConfig = true ->
  (getProp "provider" existing = None /\ providers = [])
  \/ getProp "provider" existing = Some (VObject providers) ->
  exists newConfig,
    addProviderConfig paths installConfig fs = (written fs path newConfig, succeeded path) /\
    getPath ["provider"; "google"] (VObject newConfig) = Some ANTIGRAVITY_GOOGLE /\
    (forall name, name <> "google" ->
       getPath ["provider"; name] (VObject newConfig) = getProp name providers) /\
    (forall k, k <> "provider" -> getProp k newConfig = getProp k existing).
Proof.
  intros Hdir Hdetect Hformat Hfile Hro Hnd Hblank Hparse Hg Hprovider.
  exists (setProp "provider" (VObject (setProp "google" ANTIGRAVITY_GOOGLE providers)) existing).
  split; [|split; [|split]].
  - rewrite (addProviderConfig_run paths installConfig fs format path content existing)
      by assumption.
    unfold withProviders. rewrite Hg.
    destruct Hprovider as [[-> ->]| ->]; [reflexivity|].
    destruct (setProp "google" ANTIGRAVITY_GOOGLE providers) eqn:E; [|reflexivity].
    now apply setProp_not_nil in E.
  - cbn [getPath]. now rewrite !getProp_setProp_eq.
  - intros name Hname. cbn [getPath]. rewrite getProp_setProp_eq.
    rewrite getProp_setProp_ne by congruence. now destruct (getProp name providers).
  - intros k Hk. apply getProp_setProp_ne. congruence.
Qed.

Lemma addProviderConfig_sets_google_witness :
  let existing := [("provider", VObject [("openai", VObject [])]); ("theme", VNull)] in
  let parser := tableParser [("{ }", VObject existing)] in
  let fs := oneFile (configDir examplePaths) (configJson examplePaths) "{ }" in
  exists newConfig,
    @addProviderConfig parser examplePaths
      (installConfig true true true true true true true) fs
    = (written fs (configJson examplePaths) newConfig, succeeded (configJson examplePaths)) /\
    getPath ["provider"; "google"] (VObject newConfig) = Some ANTIGRAVITY_GOOGLE /\
    (forall name, name <> "google" ->
       getPath ["provider"; name] (VObject newConfig)
       = getProp name [("openai", VObject [])]) /\
    (forall k, k <> "provider" -> getProp k newConfig = getProp k existing).
Proof.
  intros existing parser fs.
  apply (@addProviderConfig_sets_google parser examplePaths
           (installConfig true true true true true true true) fs
           Json (configJson examplePaths) "{ }" existing [("openai", VObject [])]);
    try (vm_compute; reflexivity).
  - discriminate.
  - cbn. apply not_elem_of_empty.
  - cbn. rewrite elem_of_singleton. discriminate.
  - now right.
Defined.

End EditorFacts.

(** ** Detection of the installed configuration *)

Module DetectionFacts.
Import JS FS ConfigManager Editors ModelFallback.

(** X25. Whatever the files hold, a configuration [detectCurrentConfig]
    returns has Claude on the max20 tier and no Copilot, so that the wizard
    started from it offers max20 and no; and when it does not report the
    plugin as installed, it reports the defaults: OpenAI and OpenCode Zen,
    neither Gemini nor the Z.ai plan. *)
Theorem detectCurrentConfig_fixed_flags `{Shared} (paths : OpenCodeConfigPaths)
    (fs : FileSystem) (detected : Install.DetectedConfig) :
  detectCurrentConfig paths fs = inr detected ->
  Install.hasClaude detected = true /\
  Install.isMax20 detected = true /\
  Install.hasCopilot detected = false /\
  Install.initialClaude (Install.detectedToInitialValues detected) = "max20" /\
  Install.initialCopilot (Install.detectedToInitialValues detected) = "no" /\
  (Install.isInstalled detected = false ->
   Install.hasOpenAI detected = true /\ Install.hasGemini detected = false /\
   Install.hasOpencodeZen detected = true /\ Install.hasZaiCodingPlan detected = false).
Proof.
  unfold detectCurrentConfig. cbn zeta.
  destruct (detectConfigFormat paths fs) as [format path].
  destruct format;
    try destruct (config (parseConfigWithError fs path)) as [openCodeConfig|];
    try destruct (somePlugin "oh-my-opencode" _) as [err|[|]];
    try destruct (somePlugin AUTH_PLUGIN _) as [err'|gemini];
    intros [= <-]; cbn; repeat split; congruence.
Qed.

Lemma detectCurrentConfig_fixed_flags_witness :
  let fs := oneFile (configDir examplePaths) (configJson examplePaths) "{ }" in
  let detected :=
    {| Install.isInstalled := false; Install.hasClaude := true; Install.isMax20 := true;
       Install.hasOpenAI := true; Install.hasGemini := false; Install.hasCopilot := false;
       Install.hasOpencodeZen := true; Install.hasZaiCodingPlan := false |} in
  Install.hasClaude detected = true /\
  Install.isMax20 detected = true /\
  Install.hasCopilot detected = false /\
  Install.initialClaude (Install.detectedToInitialValues detected) = "max20" /\
  Install.initialCopilot (Install.detectedToInitialValues detected) = "no" /\
  (Install.isInstalled detected = false ->
   Install.hasOpenAI detected = true /\ Install.hasGemini detected = false /\
   Install.hasOpencodeZen detected = true /\ Install.hasZaiCodingPlan detected = false).
Proof.
  intros fs detected.
  apply (@detectCurrentConfig_fixed_flags
           (tableParser [("{ }", VObject [("plugin", VArray [VString "other"])])])
           examplePaths fs detected).
  vm_compute; reflexivity.
Defined.

(** What [detectProvidersFromOmoConfig] reads off a settings file that
    parses to the document generated for [installConfig]. *)
Lemma detectProviders_after_generate `{Shared} (paths : OpenCodeConfigPaths)
    (fs : FileSystem) (content : string) (installConfig : InstallConfig) :
  files fs !! omoConfig paths = Some content ->
  parseJsonc content = inr (VObject (generateOmoConfig installConfig)) ->
  detectProvidersFromOmoConfig paths fs
  = {| detectedOpenAI := hasOpenAI installConfig;
       detectedOpencodeZen :=
         negb (hasClaude installConfig && isMax20 installConfig)
         || (negb (hasZaiCodingPlan installConfig)
             && (hasOpencodeZen installConfig || negb (hasCopilot installConfig)));
       detectedZaiCodingPlan := hasZaiCodingPlan installConfig |}.
Proof.
  intros Hfile Hparse. unfold detectProvidersFromOmoConfig, readFileSync.
  rewrite (PluginRegistry.existsSync_file _ _ _ Hfile), Hfile, Hparse. cbn [negb].
  destruct installConfig as [[] [] [] [] [] [] []]; vm_compute; reflexivity.
Qed.

(** X26. Generation followed by detection.  When the configuration lists
    the plugin and the settings file parses to the document generated for
    [installConfig], [detectCurrentConfig] recovers the OpenAI and Z.ai
    flags of [installConfig] and takes Gemini from the plugin list; Claude,
    the max20 tier and Copilot are not read back, and OpenCode Zen is
    reported by the models in use: always without Claude on max20 (the
    explore role then uses an opencode/ model), otherwise only when the
    Z.ai plan is off and Zen is declared or Copilot is not. *)
Theorem detect_after_generate `{Shared} (paths : OpenCodeConfigPaths) (fs : FileSystem)
    (format : ConfigFormat) (path content omoContent : string)
    (openCodeConfig : list (string * value)) (items : list value) (gemini : bool)
    (installConfig : InstallConfig) :
  detectConfigFormat paths fs = (format, path) ->
  format <> NoFormat ->
  files fs !! path = Some content ->
  isEmptyOrWhitespace content = false ->
  parseJsonc content = inr (VObject openCodeConfig) ->
  pluginsOf openCodeConfig = VArray items ->
  someStartsWith "oh-my-opencode" items = inr true ->
  someStartsWith AUTH_PLUGIN items = inr gemini ->
  files fs !! omoConfig paths = Some omoContent ->
  parseJsonc omoContent = inr (VObject (generateOmoConfig installConfig)) ->
  detectCurrentConfig paths fs
  = inr {| Install.isInstalled := true;
           Install.hasClaude := true;
           Install.isMax20 := true;
           Install.hasOpenAI := hasOpenAI installConfig;
           Install.hasGemini := gemini;
           Install.hasCopilot := false;
           Install.hasOpencodeZen :=
             negb (hasClaude installConfig && isMax20 installConfig)
             || (negb (hasZaiCodingPlan installConfig)
                 && (hasOpencodeZen installConfig || negb (hasCopilot installConfig)));
           Install.hasZaiCodingPlan := hasZaiCodingPlan installConfig |}.
Proof.
  intros Hdetect Hformat Hfile Hblank Hparse Hplugins Hown Hauth Homo Hgenerated.
  unfold detectCurrentConfig. rewrite Hdetect.
  rewrite (PluginRegistry.parseConfigWithError_object _ _ _ _ Hfile Hblank Hparse).
  cbn [ConfigManager.config]. rewrite Hplugins. unfold somePlugin. rewrite Hown, Hauth.
  rewrite (detectProviders_after_generate paths fs omoContent installConfig Homo Hgenerated).
  destruct format; [reflexivity|reflexivity|congruence].
Qed.

Lemma detect_after_generate_witness :
  let installConfig := installConfig true true false true true true true in
  let openCodeConfig :=
    [("plugin", VArray [VString "oh-my-opencode@3.0.0";
                        VString "opencode-antigravity-auth@1.2.3"])] in
  let parser := tableParser [("{ }", VObject openCodeConfig);
                             ("{ settings }", VObject (generateOmoConfig installConfig))] in
  let fs := withFile (oneFile (configDir examplePaths) (configJson examplePaths) "{ }")
              (omoConfig examplePaths) "{ settings }" in
  @detectCurrentConfig parser examplePaths fs
  = inr {| Install.isInstalled := true;
           Install.hasClaude := true;
           Install.isMax20 := true;
           Install.hasOpenAI := false;
           Install.hasGemini := true;
           Install.hasCopilot := false;
           Install.hasOpencodeZen := false;
           Install.hasZaiCodingPlan := true |}.
Proof.
  intros installConfig openCodeConfig parser fs.
  apply (@detect_after_generate parser examplePaths fs Json (configJson examplePaths)
           "{ }" "{ settings }" openCodeConfig
           [VString "oh-my-opencode@3.0.0"; VString "opencode-antigravity-auth@1.2.3"]
           true installConfig);
    try (vm_compute; reflexivity).
  discriminate.
Defined.

End DetectionFacts.

(** ** The configuration directory and the files the editors touch *)

Module DirectoryFacts.
Import JS FS ConfigManager Editors ModelFallback.

(** X27. When the configuration directory is missing and may not be
    created, each of the four editors stops before it looks at any file: it
    reports the failure under the path of the directory, with the advice
    for a permission error, and leaves the file system as it is. *)
Theorem editors_fail_without_directory `{Shared} (paths : OpenCodeConfigPaths)
    (installConfig : InstallConfig) (distTags : option (list (string * value)))
    (currentVersion : string) (latestVersion : option string) (fs : FileSystem) :
  existsSync fs (configDir paths) = false ->
  configDir paths ∈ readOnly fs ->
  let failure :=
    (fs, failed (configDir paths)
           ("Permission denied: Cannot create config directory. "
            +:+ "Try running with elevated permissions or check file ownership.")) in
  addPluginToOpenCodeConfig paths distTags currentVersion fs = failure /\
  writeOmoConfig paths installConfig fs = failure /\
  addAuthPlugins paths installConfig latestVersion fs = failure /\
  addProviderConfig paths installConfig fs = failure.
Proof.
  intros Hdir Hro failure.
  assert (Hensure : ensureConfigDir paths fs
                    = inl (nodeError "EACCES" "permission denied" "mkdir" (configDir paths))).
  { unfold ensureConfigDir, mkdirSync. now rewrite Hdir, bool_decide_eq_true_2. }
  unfold addPluginToOpenCodeConfig, writeOmoConfig, addAuthPlugins, addProviderConfig.
  rewrite Hensure. repeat split.
Qed.

Lemma editors_fail_without_directory_witness :
  let fs := {| files := ∅; directories := ∅; readOnly := {[ configDir examplePaths ]} |} in
  let failure :=
    (fs, failed (configDir examplePaths)
           ("Permission denied: Cannot create config directory. "
            +:+ "Try running with elevated permissions or check file ownership.")) in
  @addPluginToOpenCodeConfig (tableParser []) examplePaths None "3.0.0" fs = failure /\
  @writeOmoConfig (tableParser []) examplePaths
    (installConfig true false false false false false false) fs = failure /\
  @addAuthPlugins (tableParser []) examplePaths
    (installConfig true false false false false false false) None fs = failure /\
  @addProviderConfig (tableParser []) examplePaths
    (installConfig true false false false false false false) fs = failure.
Proof.
  intros fs.
  apply (@editors_fail_without_directory (tableParser []) examplePaths
           (installConfig true false false false false false false) None "3.0.0" None fs).
  - vm_compute; reflexivity.
  - cbn. now apply elem_of_singleton.
Defined.

(** X28. When the configuration directory is missing and can be created,
    [writeOmoConfig] creates it on the way: afterwards the directory exists,
    the settings file holds the generated document, and every other file is
    what it was. *)
Theorem writeOmoConfig_creates_directory `{Shared} (paths : OpenCodeConfigPaths)
    (installConfig : InstallConfig) (fs : FileSystem) :
  existsSync fs (configDir paths) = false ->
  configDir paths ∉ readOnly fs ->
  existsSync fs (omoConfig paths) = false ->
  omoConfig paths ∉ readOnly fs ->
  omoConfig paths <> configDir paths ->
  exists fs',
    writeOmoConfig paths installConfig fs = (fs', succeeded (omoConfig paths)) /\
    existsSync fs' (configDir paths) = true /\
    files fs' !! omoConfig paths
    = Some (stringifyLine (VObject (generateOmoConfig installConfig))) /\
    (forall p, p <> omoConfig paths -> files fs' !! p = files fs !! p).
Proof.
  intros Hdir Hro Homo Hwritable Hne.
  unfold existsSync in Hdir, Homo.
  destruct (files fs !! configDir paths) eqn:Edir; [discriminate|].
  destruct (files fs !! omoConfig paths) eqn:Eomo; [discriminate|].
  apply bool_decide_eq_false in Homo.
  set (fs1 := {| files := files fs;
                 directories := {[ configDir paths ]} ∪ directories fs;
                 readOnly := readOnly fs |}).
  assert (Hensure : ensureConfigDir paths fs = inr fs1).
  { unfold ensureConfigDir, existsSync, mkdirSync.
    now rewrite Edir, Hdir, bool_decide_eq_false_2. }
  assert (Habsent : existsSync fs1 (omoConfig paths) = false).
  { unfold existsSync. cbn [files directories fs1]. rewrite Eomo.
    apply bool_decide_eq_false_2. rewrite elem_of_union, elem_of_singleton.
    intros [Heq|Hin]; [exact (Hne Heq)|exact (Homo Hin)]. }
  eexists. split; [|split; [|split]].
  - unfold writeOmoConfig. rewrite Hensure. cbn zeta. rewrite Habsent.
    rewrite Settings.writeFileSync_ok; [reflexivity|exact Hwritable|].
    cbn [directories fs1]. rewrite elem_of_union, elem_of_singleton.
    intros [Heq|Hin]; [exact (Hne Heq)|exact (Homo Hin)].
  - unfold existsSync. cbn [files directories fs1].
    rewrite lookup_insert_ne by congruence. rewrite Edir.
    apply bool_decide_eq_true_2, elem_of_union_l. now apply elem_of_singleton.
  - cbn [files]. apply lookup_insert_eq.
  - intros p Hp. cbn [files fs1]. now rewrite lookup_insert_ne by congruence.
Qed.

Lemma writeOmoConfig_creates_directory_witness :
  let fs := {| files := ∅; directories := ∅; readOnly := ∅ |} in
  exists fs',
    @writeOmoConfig (tableParser []) examplePaths
      (installConfig true false false false false false false) fs
    = (fs', succeeded (omoConfig examplePaths)) /\
    existsSync fs' (configDir examplePaths) = true /\
    files fs' !! omoConfig examplePaths
    = Some (stringifyLine
              (VObject (generateOmoConfig
                          (installConfig true false false false false false false)))) /\
    (forall p, p <> omoConfig examplePaths -> files fs' !! p = files fs !! p).
Proof.
  intros fs.
  apply (@writeOmoConfig_creates_directory (tableParser []) examplePaths
           (installConfig true false false false false false false) fs);
    try (vm_compute; reflexivity).
  - cbn. apply not_elem_of_empty.
  - cbn. apply not_elem_of_empty.
  - discriminate.
Defined.

Lemma writeFileSync_other (fs fs' : FileSystem) (path data : string) :
  writeFileSync fs path data = inr fs' ->
  forall p, p <> path -> files fs' !! p = files fs !! p.
Proof.
  unfold writeFileSync.
  destruct (bool_decide (path ∈ readOnly fs)); [discriminate|].
  destruct (bool_decide (path ∈ directories fs)); [discriminate|].
  intros [= <-] p Hp. cbn. now rewrite lookup_insert_ne by congruence.
Qed.

Lemma writePlugins_other (format : ConfigFormat) (path pluginEntry : string)
    (config : list (string * value)) (plugins : list value) (fs fs' : FileSystem) :
  writePlugins format path config plugins pluginEntry fs = inr fs' ->
  forall p, p <> path -> files fs' !! p = files fs !! p.
Proof.
  unfold writePlugins. destruct format.
  - apply writeFileSync_other.
  - destruct (readFileSync fs path); [discriminate|]. apply writeFileSync_other.
  - apply writeFileSync_other.
Qed.

(** X29. [addPluginToOpenCodeConfig] touches one file at most, the one
    [detectConfigFormat] names: every other file is what it was, whatever
    the outcome.  With both [opencode.jsonc] and [opencode.json] present
    this is the commented one, and [opencode.json] stays as it is. *)
Theorem addPlugin_touches_detected_file_only `{Shared} (paths : OpenCodeConfigPaths)
    (distTags : option (list (string * value))) (currentVersion : string)
    (fs : FileSystem) (p : string) :
  existsSync fs (configDir paths) = true ->
  p <> snd (detectConfigFormat paths fs) ->
  files (fst (addPluginToOpenCodeConfig paths distTags currentVersion fs)) !! p
  = files fs !! p.
Proof.
  intros Hdir Hp.
  unfold addPluginToOpenCodeConfig, ensureConfigDir. rewrite Hdir.
  destruct (detectConfigFormat paths fs) as [format path]. cbn [snd] in Hp.
  set (pluginEntry := getPluginNameWithVersion distTags currentVersion).
  destruct (addPluginBody format path pluginEntry fs) as [err|[fs' result]] eqn:Ebody;
    [reflexivity|]. cbn [fst].
  unfold addPluginBody in Ebody.
  assert (Hparsed : forall config : list (string * value),
    match pluginsOf config with
    | VArray plugins =>
        match findIndex plugins 0 with
        | inl err => inl err
        | inr (Some existingIndex) =>
            if entryIs plugins existingIndex pluginEntry then inr (fs, succeeded path)
            else match writePlugins format path config
                         (<[ existingIndex := VString pluginEntry ]> plugins)
                         pluginEntry fs with
                 | inl err => inl err
                 | inr fs1 => inr (fs1, succeeded path)
                 end
        | inr None =>
            match writePlugins format path config (plugins ++ [VString pluginEntry])
                    pluginEntry fs with
            | inl err => inl err
            | inr fs1 => inr (fs1, succeeded path)
            end
        end
    | _ => inl (TypeError "plugins.findIndex is not a function")
    end = inr (fs', result) ->
    files fs' !! p = files fs !! p).
  { intros config. destruct (pluginsOf config); try discriminate.
    destruct (findIndex items 0) as [err|[i|]]; [discriminate| |].
    - destruct (entryIs items i pluginEntry); [now intros [= <- <-]|].
      destruct (writePlugins _ _ _ _ _ _) as [err|fs1] eqn:Ew; [discriminate|].
      intros [= <- <-]. now apply (writePlugins_other _ _ _ _ _ _ _ Ew).
    - destruct (writePlugins _ _ _ _ _ _) as [err|fs1] eqn:Ew; [discriminate|].
      intros [= <- <-]. now apply (writePlugins_other _ _ _ _ _ _ _ Ew). }
  destruct format.
  - destruct (config (parseConfigWithError fs path)) as [config|];
      [now apply (Hparsed config)|now injection Ebody as <- <-].
  - destruct (config (parseConfigWithError fs path)) as [config|];
      [now apply (Hparsed config)|now injection Ebody as <- <-].
  - destruct (writeFileSync fs path _) as [err|fs1] eqn:Ew; [discriminate|].
    injection Ebody as <- <-. now apply (writeFileSync_other _ _ _ _ Ew).
Qed.

Lemma addPlugin_touches_detected_file_only_witness :
  let fs := withFile (oneFile (configDir examplePaths) (configJsonc examplePaths) "{ }")
              (configJson examplePaths) "{ plain }" in
  files (fst (@addPluginToOpenCodeConfig (tableParser [("{ }", VObject [])]) examplePaths
                None "3.0.0" fs)) !! configJson examplePaths
  = files fs !! configJson examplePaths.
Proof.
  intros fs.
  apply (@addPlugin_touches_detected_file_only (tableParser [("{ }", VObject [])])
           examplePaths None "3.0.0" fs (configJson examplePaths)).
  - vm_compute; reflexivity.
  - vm_compute. discriminate.
Defined.

End DirectoryFacts.
